(** * The expense record store of expanse-tracker (src/app.py)

    A shallow embedding of the expense part of [src/app.py]: the record
    store ([load_expenses], [save_expenses]), the validators, the
    identifier generator, [add_expense] and [list_expenses]; and, after
    it, of the account directory, the session and the scaffolding of a
    first run (lines 17-145 and 313-316).

    Python values are an inductive type of the values a payload, a filter
    dictionary or a stored JSON document can hold; exceptions are an error
    result; the file system and the clock, which the source reaches through
    [os], [json] and [datetime], are an explicit world threaded through the
    stateful functions.

    What the embedding takes from the platform:
    - strings are sequences of code points below 256, compared by code
      point; [str.strip] and [float] strip the white space CPython strips;
    - [float] is binary64, and a decimal numeral is rounded to the nearest
      float, ties to even;
    - [datetime.date.fromisoformat] is that of CPython 3.11 and later (the
      annotations of [list_expenses] need 3.10 at least);
    - paths are POSIX paths, and a file is written by [json.dump] in one
      step: it holds the text of a value, which [json.load] gives back;
    - [str] of a value that is not a string is a parameter. *)

From Stdlib Require Import ZArith List String Ascii Bool Lia Permutation Sorted.
From Stdlib Require Import Floats.SpecFloat.
From stdpp Require Import base gmap strings.

Local Open Scope Z_scope.

(** ** Python values *)

(** A binary64 float, as [float] is in CPython. *)
Abbreviation float64 := spec_float.

#[warnings="-register-all"]
Inductive pyval : Type :=
| PNone
| PBool (b : bool)
| PInt (n : Z)
| PFloat (x : float64)
| PStr (s : string)
| PList (l : list pyval)
| PDict (d : list (string * pyval)).

(** A [dict] with string keys keeps its items in insertion order; a key is
    looked up at its first item. *)
Abbreviation pydict := (list (string * pyval)).

Fixpoint dict_get (d : pydict) (k : string) : option pyval :=
  match d with
  | [] => None
  | (k', v) :: d' => if String.eqb k' k then Some v else dict_get d' k
  end.

(** [k in d] *)
Definition dict_has (d : pydict) (k : string) : bool :=
  match dict_get d k with Some _ => true | None => false end.

(** [d.get(k)] and [d.get(k, default)] *)
Definition get_or (d : pydict) (k : string) (default : pyval) : pyval :=
  match dict_get d k with Some v => v | None => default end.

Definition get_or_None (d : pydict) (k : string) : pyval := get_or d k PNone.

(** ** Exceptions *)

Inductive exn : Type :=
| ValueError (msg : string)
| JSONDecodeError
| TypeError
| KeyError (key : string)
| AttributeError
| OverflowError
| FileNotFoundError
| PermissionError
| IsADirectoryError.

(** [isinstance(e, ValueError)]: [json.JSONDecodeError] derives from
    [ValueError]. *)
Definition is_ValueError (e : exn) : bool :=
  match e with ValueError _ | JSONDecodeError => true | _ => false end.

(** [isinstance(e, OSError)]; [IOError] is the same class as [OSError]. *)
Definition is_OSError (e : exn) : bool :=
  match e with
  | FileNotFoundError | PermissionError | IsADirectoryError => true
  | _ => false
  end.

Inductive result (A : Type) : Type :=
| Ok (a : A)
| Raise (e : exn).
Arguments Ok {A} a.
Arguments Raise {A} e.

Definition rbind {A B} (r : result A) (k : A -> result B) : result B :=
  match r with Ok a => k a | Raise e => Raise e end.

Declare Scope res_scope.
Delimit Scope res_scope with res.
Notation "'let*' x ':=' r 'in' k" := (rbind r (fun x => k))
  (at level 10, x name, r at level 100, k at level 200) : res_scope.

(** ** Characters and strings *)

Definition code (c : ascii) : Z := Z.of_N (N_of_ascii c).

Definition chr (n : Z) : ascii := ascii_of_N (Z.to_N n).

(** [c.isspace()], for a code point below 256. *)
Definition is_space (c : ascii) : bool :=
  let n := code c in
  ((9 <=? n) && (n <=? 13)) || ((28 <=? n) && (n <=? 32))
  || (n =? 133) || (n =? 160).

Fixpoint lstrip_with (sp : ascii -> bool) (s : string) : string :=
  match s with
  | EmptyString => EmptyString
  | String c s' => if sp c then lstrip_with sp s' else s
  end.

Fixpoint rstrip_with (sp : ascii -> bool) (s : string) : string :=
  match s with
  | EmptyString => EmptyString
  | String c s' =>
      match rstrip_with sp s' with
      | EmptyString => if sp c then EmptyString else String c EmptyString
      | r => String c r
      end
  end.

(** [s.strip()] *)
Definition strip (s : string) : string :=
  rstrip_with is_space (lstrip_with is_space s).

(** [s.split(sep)] for a one-character separator: the pieces between the
    separators, of which there is always at least one. *)
Fixpoint split_on (sep : ascii) (s : string) : list string :=
  match s with
  | EmptyString => [EmptyString]
  | String c s' =>
      if Ascii.eqb c sep then EmptyString :: split_on sep s'
      else match split_on sep s' with
           | [] => [String c EmptyString]
           | p :: ps => String c p :: ps
           end
  end.

Definition nonempty (s : string) : bool :=
  match s with EmptyString => false | _ => true end.

(** Comparison of strings is by code point, the first difference deciding. *)
Definition str_lt (s t : string) : bool :=
  match String.compare s t with Lt => true | _ => false end.

Definition str_le (s t : string) : bool :=
  match String.compare s t with Gt => false | _ => true end.

(** *** Decimal digits *)

Definition is_digit (c : ascii) : bool :=
  let n := code c in (48 <=? n) && (n <=? 57).

Definition digit_val (c : ascii) : Z := code c - 48.

Definition digit_chr (d : Z) : ascii := chr (48 + d).

(** The [n] low decimal digits of [k], most significant first. *)
Fixpoint digits_of (n : nat) (k : Z) : string :=
  match n with
  | O => EmptyString
  | S n' => String (digit_chr ((k / 10 ^ Z.of_nat n') mod 10)) (digits_of n' k)
  end.

(** The number of decimal digits of [k], at least one. *)
Fixpoint ndigits_fuel (fuel : nat) (k : Z) : nat :=
  match fuel with
  | O => 1%nat
  | S f => if k <? 10 then 1%nat else S (ndigits_fuel f (k / 10))
  end.

Definition ndigits (k : Z) : nat := ndigits_fuel (Z.to_nat (Z.log2 k)) k.

(** ["%0<width>d" % k] for [0 <= k]: the decimal digits of [k], padded on
    the left with zeros to [width] characters. *)
Definition fmt_d (width : nat) (k : Z) : string :=
  digits_of (Nat.max width (ndigits k)) k.

(** ** Numbers *)

Definition prec64 : Z := 53.
Definition emax64 : Z := 1024.

Definition f_zero : float64 := S754_zero false.
Definition f_one : float64 := binary_normalize prec64 emax64 1 0 false.

(** The binary64 nearest to [p / q] for positive [p] and [q], ties to even. *)
Definition float_of_ratio (neg : bool) (p q : Z) : float64 :=
  let '(mz, ez, lz) := SFdiv_core_binary prec64 emax64 p 0 q 0 in
  binary_round_aux prec64 emax64 neg mz ez lz.

(** [float(n)] for an [int]: the nearest binary64, [OverflowError] when that
    is out of range. *)
Definition float_of_int (n : Z) : result float64 :=
  match binary_normalize prec64 emax64 n 0 false with
  | S754_infinity _ => Raise OverflowError
  | x => Ok x
  end.

(** *** [float(s)] for a string *)

(** The white space [float] strips from both ends of its argument. *)
Definition is_space_float (c : ascii) : bool :=
  let n := code c in
  ((9 <=? n) && (n <=? 13)) || (n =? 32) || (n =? 133) || (n =? 160).

(** An underscore may stand between two digits only; they are removed. *)
Fixpoint drop_underscores (prev : ascii) (s : string) : option string :=
  match s with
  | EmptyString => if Ascii.eqb prev "_" then None else Some EmptyString
  | String c s' =>
      if Ascii.eqb c "_" then
        if is_digit prev then drop_underscores c s' else None
      else if Ascii.eqb prev "_" && negb (is_digit c) then None
      else option_map (String c) (drop_underscores c s')
  end.

(** The values of the leading decimal digits, and what follows them. *)
Fixpoint take_digits (s : string) : list Z * string :=
  match s with
  | String c s' =>
      if is_digit c then
        let '(ds, r) := take_digits s' in (digit_val c :: ds, r)
      else ([], s)
  | EmptyString => ([], s)
  end.

Definition digits_value (ds : list Z) : Z :=
  fold_left (fun a d => 10 * a + d) ds 0.

(** An optional sign: whether it is a minus, and what follows it. *)
Definition take_sign (s : string) : bool * string :=
  match s with
  | String "-" r => (true, r)
  | String "+" r => (false, r)
  | _ => (false, s)
  end.

Definition lower (c : ascii) : ascii :=
  let n := code c in if (65 <=? n) && (n <=? 90) then chr (n + 32) else c.

Fixpoint lower_str (s : string) : string :=
  match s with
  | EmptyString => EmptyString
  | String c s' => String (lower c) (lower_str s')
  end.

(** The exponent part: empty, or [e] or [E], an optional sign and at least
    one digit, up to the end of the string. *)
Definition parse_exponent (s : string) : option Z :=
  match s with
  | EmptyString => Some 0
  | String c r =>
      if Ascii.eqb (lower c) "e" then
        let '(neg, r1) := take_sign r in
        match take_digits r1 with
        | ([], _) => None
        | (ds, EmptyString) =>
            Some (if neg then - digits_value ds else digits_value ds)
        | _ => None
        end
      else None
  end.

(** The value [m * 10 ^ e] of a decimal numeral, correctly rounded. *)
Definition float_of_decimal (neg : bool) (m e : Z) : float64 :=
  if m =? 0 then S754_zero neg
  else if 0 <=? e then float_of_ratio neg (m * 10 ^ e) 1
  else float_of_ratio neg m (10 ^ (- e)).

Definition strip_with_float (s : string) : string :=
  rstrip_with is_space_float (lstrip_with is_space_float s).

Definition parse_float (s : string) : option float64 :=
  match drop_underscores "000" (strip_with_float s) with
  | None => None
  | Some t =>
      let '(neg, body) := take_sign t in
      let word := lower_str body in
      if String.eqb word "inf" || String.eqb word "infinity" then
        Some (S754_infinity neg)
      else if String.eqb word "nan" then Some S754_nan
      else
        let '(ip, r1) := take_digits body in
        let '(fp, r2) :=
          match r1 with
          | String "." r => take_digits r
          | _ => ([], r1)
          end in
        match ip ++ fp with
        | [] => None
        | ds =>
            match parse_exponent r2 with
            | None => None
            | Some e =>
                Some (float_of_decimal neg (digits_value ds)
                        (e - Z.of_nat (length fp)))
            end
        end
  end.

(** [float(x)] *)
Definition py_float (x : pyval) : result float64 :=
  match x with
  | PFloat f => Ok f
  | PInt n => float_of_int n
  | PBool b => Ok (if b then f_one else f_zero)
  | PStr s =>
      match parse_float s with
      | Some f => Ok f
      | None => Raise (ValueError "could not convert string to float")
      end
  | _ => Raise TypeError
  end.

(** *** Comparing numbers *)

Inductive num : Type :=
| NInt (n : Z)
| NFloat (x : float64).

(** [bool] is a subclass of [int]. *)
Definition as_num (v : pyval) : option num :=
  match v with
  | PBool b => Some (NInt (if b then 1 else 0))
  | PInt n => Some (NInt n)
  | PFloat x => Some (NFloat x)
  | _ => None
  end.

(** An [int] against a [float], exactly; nothing when the float is a NaN. *)
Definition cmp_int_float (n : Z) (x : float64) : option comparison :=
  match x with
  | S754_nan => None
  | S754_infinity s => Some (if s then Gt else Lt)
  | S754_zero _ => Some (n ?= 0)
  | S754_finite s m e =>
      let v := if s then Z.neg m else Z.pos m in
      Some (if 0 <=? e then n ?= v * 2 ^ e else n * 2 ^ (- e) ?= v)
  end.

Definition num_compare (a b : num) : option comparison :=
  match a, b with
  | NInt m, NInt n => Some (m ?= n)
  | NFloat x, NFloat y => SFcompare x y
  | NInt m, NFloat y => cmp_int_float m y
  | NFloat x, NInt n => option_map CompOpp (cmp_int_float n x)
  end.

Definition is_Eq (c : option comparison) : bool :=
  match c with Some Eq => true | _ => false end.

Definition is_Lt (c : option comparison) : bool :=
  match c with Some Lt => true | _ => false end.

Definition is_Le (c : option comparison) : bool :=
  match c with Some Lt | Some Eq => true | _ => false end.

Definition is_Ge (c : option comparison) : bool :=
  match c with Some Gt | Some Eq => true | _ => false end.

(** [x <= 0] for a float [x] *)
Definition float_le_zero (x : float64) : bool := SFleb x f_zero.

(** ** Truth, equality and order of values *)

(** [bool(v)] *)
Definition truthy (v : pyval) : bool :=
  match v with
  | PNone => false
  | PBool b => b
  | PInt n => negb (n =? 0)
  | PFloat (S754_zero _) => false
  | PFloat _ => true
  | PStr s => nonempty s
  | PList [] => false
  | PList _ => true
  | PDict [] => false
  | PDict _ => true
  end.

(** [a == b]: numbers by value, strings and lists item by item, dicts as
    mappings; values of unrelated types are unequal. *)
Fixpoint py_eq (a b : pyval) {struct a} : bool :=
  match a, b with
  | PNone, PNone => true
  | PStr s, PStr t => String.eqb s t
  | PList l, PList m =>
      (fix items (l m : list pyval) {struct l} : bool :=
         match l, m with
         | [], [] => true
         | x :: l', y :: m' => py_eq x y && items l' m'
         | _, _ => false
         end) l m
  | PDict d, PDict d' =>
      Nat.eqb (length d) (length d') &&
      (fix items (d : pydict) {struct d} : bool :=
         match d with
         | [] => true
         | (k, v) :: r =>
             match dict_get d' k with
             | Some v' => py_eq v v'
             | None => false
             end && items r
         end) d
  | _, _ =>
      match as_num a, as_num b with
      | Some x, Some y => is_Eq (num_compare x y)
      | _, _ => false
      end
  end.

(** The order of [a] and [b] as [<], [<=], [>] and [>=] read it: strings by
    code point, numbers by value (a NaN is unordered), lists by their first
    unequal items; other pairs raise [TypeError]. *)
Fixpoint py_compare (a b : pyval) {struct a} : result (option comparison) :=
  match a, b with
  | PStr s, PStr t => Ok (Some (String.compare s t))
  | PList l, PList m =>
      (fix items (l m : list pyval) {struct l} : result (option comparison) :=
         match l, m with
         | [], [] => Ok (Some Eq)
         | [], _ :: _ => Ok (Some Lt)
         | _ :: _, [] => Ok (Some Gt)
         | x :: l', y :: m' => if py_eq x y then items l' m' else py_compare x y
         end) l m
  | _, _ =>
      match as_num a, as_num b with
      | Some x, Some y => Ok (num_compare x y)
      | _, _ => Raise TypeError
      end
  end.

Definition py_lt (a b : pyval) : result bool :=
  (let* c := py_compare a b in Ok (is_Lt c))%res.

Definition py_le (a b : pyval) : result bool :=
  (let* c := py_compare a b in Ok (is_Le c))%res.

Definition py_ge (a b : pyval) : result bool :=
  (let* c := py_compare a b in Ok (is_Ge c))%res.

(** [v[k]] for a string [k] *)
Definition py_getitem (v : pyval) (k : string) : result pyval :=
  match v with
  | PDict d =>
      match dict_get d k with
      | Some x => Ok x
      | None => Raise (KeyError k)
      end
  | _ => Raise TypeError
  end.

(** [v.get(k, default)], a method of dicts only *)
Definition py_get (v : pyval) (k : string) (default : pyval) : result pyval :=
  match v with
  | PDict d => Ok (get_or d k default)
  | _ => Raise AttributeError
  end.

(** [v.append(x)], a method of lists only *)
Definition py_append (v x : pyval) : result pyval :=
  match v with
  | PList l => Ok (PList (l ++ [x]))
  | _ => Raise AttributeError
  end.

Fixpoint chars_of (s : string) : list pyval :=
  match s with
  | EmptyString => []
  | String c s' => PStr (String c EmptyString) :: chars_of s'
  end.

(** The items [for e in v] visits: those of a list, the characters of a
    string, the keys of a dict. *)
Definition py_iter (v : pyval) : result (list pyval) :=
  match v with
  | PList l => Ok l
  | PStr s => Ok (chars_of s)
  | PDict d => Ok (map (fun kv => PStr (fst kv)) d)
  | _ => Raise TypeError
  end.

(** [[e for e in l if p(e)]] *)
Fixpoint filterM (p : pyval -> result bool) (l : list pyval)
  : result (list pyval) :=
  match l with
  | [] => Ok []
  | e :: l' =>
      (let* keep := p e in
       let* rest := filterM p l' in
       Ok (if keep then e :: rest else rest))%res
  end.

Fixpoint mapM {A B} (f : A -> result B) (l : list A) : result (list B) :=
  match l with
  | [] => Ok []
  | x :: l' =>
      (let* y := f x in
       let* ys := mapM f l' in
       Ok (y :: ys))%res
  end.

(** ** Calendar dates ([datetime]) *)

Definition is_leap (y : Z) : bool :=
  (y mod 4 =? 0) && (negb (y mod 100 =? 0) || (y mod 400 =? 0)).

Definition days_in_month (y m : Z) : Z :=
  if m =? 2 then (if is_leap y then 29 else 28)
  else if (m =? 4) || (m =? 6) || (m =? 9) || (m =? 11) then 30
  else 31.

(** The dates a [datetime.date] can hold: years 1 to 9999. *)
Definition valid_ymd (y m d : Z) : bool :=
  (1 <=? y) && (y <=? 9999) && (1 <=? m) && (m <=? 12)
  && (1 <=? d) && (d <=? days_in_month y m).

(** Days before January 1st of year [y], and the ordinal of that day
    (January 1st of year 1 has ordinal 1). *)
Definition days_before_year (y : Z) : Z :=
  let p := y - 1 in p * 365 + p / 4 - p / 100 + p / 400.

Definition ord_jan1 (y : Z) : Z := days_before_year y + 1.

(** 0 for a Monday, 6 for a Sunday. *)
Definition weekday_jan1 (y : Z) : Z := (ord_jan1 y + 6) mod 7.

(** The ordinal of the Monday that starts ISO week 1 of year [y]. *)
Definition iso_week1_monday (y : Z) : Z :=
  let monday := ord_jan1 y - weekday_jan1 y in
  if 3 <? weekday_jan1 y then monday + 7 else monday.

(** The ordinal of December 31st, 9999. *)
Definition max_ordinal : Z := 3652059.

(** Whether ISO year, week and day name a day a [date] can hold: the week
    is 1 to 52, or 53 in a year that starts on a Thursday or is a leap year
    starting on a Wednesday. *)
Definition valid_iso_week (y w d : Z) : bool :=
  let wd := weekday_jan1 y in
  (((1 <=? w) && (w <=? 52))
   || ((w =? 53) && ((wd =? 3) || ((wd =? 2) && is_leap y))))
  && (1 <=? d) && (d <=? 7)
  && (let o := iso_week1_monday y + (w - 1) * 7 + d - 1 in
      (1 <=? o) && (o <=? max_ordinal)).

(** [n] decimal digits read from the front of [s], onto [acc]. *)
Fixpoint parse_digits (n : nat) (acc : Z) (s : string) : option (Z * string) :=
  match n with
  | O => Some (acc, s)
  | S n' =>
      match s with
      | String c s' =>
          if is_digit c then parse_digits n' (acc * 10 + digit_val c) s'
          else None
      | EmptyString => None
      end
  end.

(** The length of [s] in UTF-8. *)
Fixpoint utf8_len (s : string) : Z :=
  match s with
  | EmptyString => 0
  | String c s' => (if code c <? 128 then 1 else 2) + utf8_len s'
  end.

Definition head_is (c : ascii) (s : string) : bool :=
  match s with
  | String c' _ => Ascii.eqb c' c
  | EmptyString => false
  end.

Definition tail (s : string) : string :=
  match s with
  | String _ r => r
  | EmptyString => EmptyString
  end.

(** The dash between two fields, read when the year was followed by one. *)
Definition skip_dash (uses_separator : bool) (s : string) : option string :=
  if uses_separator then
    if head_is "-" s then Some (tail s) else None
  else Some s.

(** Whether [datetime.date.fromisoformat(s)] returns a date (CPython 3.11
    and later): [s] is 7, 8 or 10 bytes long and starts with [YYYY-MM-DD],
    [YYYYMMDD], [YYYY-Www], [YYYYWww], [YYYY-Www-D] or [YYYYWwwD] for a day
    that exists.  The fields are read from the front and what follows the
    last of them is not looked at. *)
Definition date_fromisoformat (s : string) : bool :=
  let len := utf8_len s in
  if (len =? 7) || (len =? 8) || (len =? 10) then
    match parse_digits 4 0 s with
    | None => false
    | Some (year, p) =>
        let uses_separator := head_is "-" p in
        let p := if uses_separator then tail p else p in
        if head_is "W" p then
          match parse_digits 2 0 (tail p) with
          | None => false
          | Some (week, p2) =>
              if (if uses_separator then 8 else 7) <? len then
                match skip_dash uses_separator p2 with
                | None => false
                | Some p3 =>
                    match parse_digits 1 0 p3 with
                    | None => false
                    | Some (day, _) => valid_iso_week year week day
                    end
                end
              else valid_iso_week year week 1
          end
        else
          match parse_digits 2 0 p with
          | None => false
          | Some (month, p2) =>
              match skip_dash uses_separator p2 with
              | None => false
              | Some p3 =>
                  match parse_digits 2 0 p3 with
                  | None => false
                  | Some (day, _) => valid_ymd year month day
                  end
              end
          end
    end
  else false.

(** What the clock reads: a [datetime.datetime] in local time. *)
Record datetime : Type := {
  dt_year : Z;
  dt_month : Z;
  dt_day : Z;
  dt_hour : Z;
  dt_minute : Z;
  dt_second : Z;
  dt_microsecond : Z
}.

Definition valid_datetime (t : datetime) : bool :=
  valid_ymd (dt_year t) (dt_month t) (dt_day t)
  && (0 <=? dt_hour t) && (dt_hour t <? 24)
  && (0 <=? dt_minute t) && (dt_minute t <? 60)
  && (0 <=? dt_second t) && (dt_second t <? 60)
  && (0 <=? dt_microsecond t) && (dt_microsecond t <? 1000000).

(** [d.isoformat()], that is ["%04d-%02d-%02d"] *)
Definition isoformat (t : datetime) : string :=
  fmt_d 4 (dt_year t) +:+ "-" +:+ fmt_d 2 (dt_month t)
  +:+ "-" +:+ fmt_d 2 (dt_day t).

(** [t.strftime("%Y%m%d_%H%M%S%f")]; the C library writes [%Y] without
    padding, the other fields at their fixed widths. *)
Definition strftime_id (t : datetime) : string :=
  fmt_d 1 (dt_year t) +:+ fmt_d 2 (dt_month t) +:+ fmt_d 2 (dt_day t)
  +:+ "_" +:+ fmt_d 2 (dt_hour t) +:+ fmt_d 2 (dt_minute t)
  +:+ fmt_d 2 (dt_second t) +:+ fmt_d 6 (dt_microsecond t).

(** ** The world: files and the clock *)

(** What a file holds: text that [json.load] decodes to a value, or text it
    rejects.  [json.dump] writes the text of the value it is given. *)
Inductive filedata : Type :=
| Json (v : pyval)
| Garbage.

Record file : Type := {
  f_readable : bool;
  f_writable : bool;
  f_data : filedata
}.

Record world : Type := {
  w_dirs : gset string;
  w_files : gmap string file;
  w_clock : nat -> datetime;
  w_ticks : nat
}.

Definition set_files (w : world) (fs : gmap string file) : world :=
  {| w_dirs := w_dirs w; w_files := fs;
     w_clock := w_clock w; w_ticks := w_ticks w |}.

(** A computation that reads and changes the world and may raise. *)
Definition M (A : Type) : Type := world -> result A * world.

Definition ret {A} (a : A) : M A := fun w => (Ok a, w).

Definition raise {A} (e : exn) : M A := fun w => (Raise e, w).

Definition bind {A B} (m : M A) (k : A -> M B) : M B :=
  fun w =>
    match m w with
    | (Ok a, w') => k a w'
    | (Raise e, w') => (Raise e, w')
    end.

Definition lift {A} (r : result A) : M A := fun w => (r, w).

Declare Scope io_scope.
Delimit Scope io_scope with io.
Notation "'do' x '<-' m ';' k" := (bind m (fun x => k))
  (at level 10, x name, m at level 100, k at level 200) : io_scope.

(** The world once the clock has been read. *)
Definition tick (w : world) : world :=
  {| w_dirs := w_dirs w; w_files := w_files w;
     w_clock := w_clock w; w_ticks := S (w_ticks w) |}.

(** [datetime.datetime.now()]: the next reading of the clock. *)
Definition now : M datetime :=
  fun w => (Ok (w_clock w (w_ticks w)), tick w).

(** [os.path.join(a, b, c)] on POSIX. *)
Fixpoint ends_with_slash (s : string) : bool :=
  match s with
  | EmptyString => false
  | String c EmptyString => Ascii.eqb c "/"
  | String _ s' => ends_with_slash s'
  end.

Definition starts_with_slash (s : string) : bool :=
  match s with String "/" _ => true | _ => false end.

Definition join2 (path b : string) : string :=
  if starts_with_slash b then b
  else if negb (nonempty path) || ends_with_slash path then path +:+ b
  else path +:+ "/" +:+ b.

Definition path_join (a b c : string) : string := join2 (join2 a b) c.

(** The part of [s] up to and with its last slash, if it has a slash. *)
Fixpoint upto_last_slash (s : string) : option string :=
  match s with
  | EmptyString => None
  | String c s' =>
      match upto_last_slash s' with
      | Some h => Some (String c h)
      | None => if Ascii.eqb c "/" then Some (String c EmptyString) else None
      end
  end.

(** [os.path.dirname(p)] on POSIX. *)
Definition dirname (p : string) : string :=
  match upto_last_slash p with
  | None => EmptyString
  | Some head =>
      match rstrip_with (fun c => Ascii.eqb c "/") head with
      | EmptyString => head
      | h => h
      end
  end.

(** [os.path.exists(p)] *)
Definition path_exists (p : string) : M bool :=
  fun w =>
    (Ok (bool_decide (p ∈ w_dirs w)
         || match w_files w !! p with Some _ => true | None => false end), w).

(** [with open(p, "r") as f: json.load(f)] *)
Definition read_json (p : string) : M pyval :=
  fun w =>
    if bool_decide (p ∈ w_dirs w) then (Raise IsADirectoryError, w)
    else
      match w_files w !! p with
      | None => (Raise FileNotFoundError, w)
      | Some f =>
          if f_readable f then
            match f_data f with
            | Json v => (Ok v, w)
            | Garbage => (Raise JSONDecodeError, w)
            end
          else (Raise PermissionError, w)
      end.

(** [with open(p, "w") as f: json.dump(v, f)]: the file is replaced, or
    created in a directory that exists (the current one when [p] names
    none). *)
Definition write_json (p : string) (v : pyval) : M unit :=
  fun w =>
    if bool_decide (p ∈ w_dirs w) then (Raise IsADirectoryError, w)
    else
      match w_files w !! p with
      | Some f =>
          if f_writable f then
            (Ok tt,
             set_files w
               (<[p := {| f_readable := f_readable f;
                          f_writable := true;
                          f_data := Json v |}]> (w_files w)))
          else (Raise PermissionError, w)
      | None =>
          if negb (nonempty (dirname p)) || bool_decide (dirname p ∈ w_dirs w)
          then
            (Ok tt,
             set_files w
               (<[p := {| f_readable := true;
                          f_writable := true;
                          f_data := Json v |}]> (w_files w)))
          else (Raise FileNotFoundError, w)
      end.

(** [l.sort(key=..., reverse=True)] on keys that are pairs: a stable sort
    into descending order, which compares keys with [<] only.  A pair is
    below another when its first unequal component is. *)
Definition key_lt (a b : pyval * pyval) : result bool :=
  if py_eq (fst a) (fst b) then
    if py_eq (snd a) (snd b) then Ok false else py_lt (snd a) (snd b)
  else py_lt (fst a) (fst b).

Fixpoint insert_desc (x : (pyval * pyval) * pyval)
    (l : list ((pyval * pyval) * pyval))
  : result (list ((pyval * pyval) * pyval)) :=
  match l with
  | [] => Ok [x]
  | y :: l' =>
      (let* below := key_lt (fst x) (fst y) in
       if below then
         let* r := insert_desc x l' in Ok (y :: r)
       else Ok (x :: l))%res
  end.

Fixpoint sort_desc (l : list ((pyval * pyval) * pyval))
  : result (list ((pyval * pyval) * pyval)) :=
  match l with
  | [] => Ok []
  | x :: l' => (let* s := sort_desc l' in insert_desc x s)%res
  end.

(** ** The expense operations of src/app.py *)

Section Source.

(** [str(v)] of a value that is not a string is its [repr(v)], the text the
    interpreter displays a number, [None] or a container with. *)
Variable repr : pyval -> string.

Definition py_str (v : pyval) : string :=
  match v with
  | PStr s => s
  | _ => repr v
  end.

(** [expenses_path], lines 151-153 *)
Definition expenses_path (username : string) : string :=
  path_join "data" username "expanses.json".

(** [load_expenses], lines 157-172 *)
Definition load_expenses (username : string) : M pyval :=
  let path := expenses_path username in
  (do present <- path_exists path;
   if negb present then
     do _ <- write_json path (PDict [("expenses", PList [])]);
     ret (PList [])
   else
     do data <- read_json path;
     lift (py_get data "expenses" (PList [])))%io.

(** [save_expenses], lines 175-179 *)
Definition save_expenses (username : string) (items : pyval) : M unit :=
  write_json (expenses_path username) (PDict [("expenses", items)]).

(** [datetime.date.fromisoformat(v)]: a [TypeError] for what is not a
    string, a [ValueError] for a string that is not a date. *)
Definition py_date_fromisoformat (v : pyval) : result unit :=
  match v with
  | PStr s =>
      if date_fromisoformat s then Ok tt
      else Raise (ValueError "Invalid isoformat string")
  | _ => Raise TypeError
  end.

(** [validate_date_iso], lines 183-188 *)
Definition validate_date_iso (date_str : pyval) : result unit :=
  match py_date_fromisoformat date_str with
  | Ok _ => Ok tt
  | Raise _ => Raise (ValueError "date must be in format YYYY-MM-DD")
  end.

(** [validate_amount_positive], lines 191-200 *)
Definition validate_amount_positive (x : pyval) : result float64 :=
  match py_float x with
  | Raise _ => Raise (ValueError "amount must be a number")
  | Ok val =>
      if float_le_zero val then Raise (ValueError "amount must be positive")
      else Ok val
  end.

(** [validate_required_text], lines 203-207 *)
Definition validate_required_text (s : pyval) (field : string) : result unit :=
  if negb (truthy s) || String.eqb (strip (py_str s)) ""
  then Raise (ValueError (field +:+ " is required"))
  else Ok tt.

(** [today_iso], lines 210-212 *)
Definition today_iso : M string :=
  (do t <- now; ret (isoformat t))%io.

(** [generate_expense_id], lines 215-219 *)
Definition generate_expense_id : M string :=
  (do t <- now; ret ("exp_" +:+ strftime_id t))%io.

(** [normalize_tags], lines 222-232 *)
Definition normalize_tags (raw : pyval) : list string :=
  match raw with
  | PList l => List.filter nonempty (map (fun tag => strip (py_str tag)) l)
  | PStr s => List.filter nonempty (map strip (split_on "," s))
  | _ => []
  end.

(** [add_expense], lines 236-283 *)
Definition add_expense (username : string) (payload : pydict) : M string :=
  (do date_str <-
     (if truthy (get_or_None payload "date")
      then ret (get_or_None payload "date")
      else do today <- today_iso; ret (PStr today));
   do _ <- lift (validate_date_iso date_str);
   do amount_val <-
     lift (validate_amount_positive (get_or_None payload "amount"));
   do _ <-
     lift (validate_required_text (get_or_None payload "category") "category");
   let desc := get_or payload "description" (PStr "") in
   let method := get_or payload "payment_method" (PStr "") in
   let tags := normalize_tags (get_or_None payload "tags") in
   do items <- load_expenses username;
   do eid <- generate_expense_id;
   do category <- lift (py_getitem (PDict payload) "category");
   let new_expense :=
     PDict [("id", PStr eid);
            ("date", date_str);
            ("amount", PFloat amount_val);
            ("category", category);
            ("description", desc);
            ("payment_method", method);
            ("tags", PList (map PStr tags))] in
   do items <- lift (py_append items new_expense);
   do _ <- save_expenses username items;
   ret eid)%io.

(** [[e for e in items if e[field] <op> bound]] *)
Definition keep_where (field : string) (test : pyval -> pyval -> result bool)
    (bound : pyval) (items : pyval) : result pyval :=
  (let* l := py_iter items in
   let* kept :=
     filterM (fun e => let* x := py_getitem e field in test x bound) l in
   Ok (PList kept))%res.

(** The filters of [list_expenses], lines 297-303 *)
Definition apply_filters (filters : option pydict) (items : pyval)
  : result pyval :=
  match filters with
  | None => Ok items
  | Some f =>
      if truthy (PDict f) then
        (let* items :=
           match dict_get f "from_date" with
           | Some bound => keep_where "date" py_ge bound items
           | None => Ok items
           end in
         let* items :=
           match dict_get f "to_date" with
           | Some bound => keep_where "date" py_le bound items
           | None => Ok items
           end in
         match dict_get f "category" with
         | Some wanted =>
             keep_where "category" (fun x y => Ok (py_eq x y)) wanted items
         | None => Ok items
         end)%res
      else Ok items
  end.

(** The key of [list_expenses], line 306: [(e["date"], e["id"])] *)
Definition sort_key (e : pyval) : result (pyval * pyval) :=
  (let* d := py_getitem e "date" in
   let* i := py_getitem e "id" in
   Ok (d, i))%res.

(** [items.sort(key=lambda e: (e["date"], e["id"]), reverse=True)] *)
Definition sort_newest_first (items : pyval) : result (list pyval) :=
  match items with
  | PList l =>
      (let* keyed := mapM (fun e => let* k := sort_key e in Ok (k, e)) l in
       let* sorted := sort_desc keyed in
       Ok (map snd sorted))%res
  | _ => Raise AttributeError
  end.

(** [list_expenses], lines 286-308 *)
Definition list_expenses (username : string) (filters : option pydict)
  : M (list pyval) :=
  (do items <- load_expenses username;
   do items <- lift (apply_filters filters items);
   lift (sort_newest_first items))%io.

End Source.

Arguments expenses_path : simpl never.
Arguments dirname : simpl never.

(** ** Vocabulary of the properties *)

(** The collection stored for a user: the list under ["expenses"] of the
    user's document, the empty collection when there is no document, and
    nothing when the document is not one of a collection. *)
Definition stored_items (w : world) (username : string)
  : option (list pyval) :=
  match w_files w !! expenses_path username with
  | None => Some []
  | Some f =>
      match f_data f with
      | Json (PDict d) =>
          match get_or d "expenses" (PList []) with
          | PList l => Some l
          | _ => None
          end
      | _ => None
      end
  end.

(** A document that decodes is an object whose ["expenses"], when it has
    one, is a list: the shape [save_expenses] writes. *)
Definition store_shaped (w : world) (username : string) : bool :=
  match w_files w !! expenses_path username with
  | None => true
  | Some f =>
      match f_data f with
      | Garbage => true
      | Json (PDict d) =>
          match get_or d "expenses" (PList []) with
          | PList _ => true
          | _ => false
          end
      | Json _ => false
      end
  end.

(** The date [add_expense] gives an entry: the payload's when that is
    truthy, the clock's otherwise; and the world once it is resolved. *)
Definition clock_date (w : world) : pyval :=
  PStr (isoformat (w_clock w (w_ticks w))).

Definition resolved_date (payload : pydict) (w : world) : pyval :=
  if truthy (get_or_None payload "date") then get_or_None payload "date"
  else clock_date w.

Definition after_date (payload : pydict) (w : world) : world :=
  if truthy (get_or_None payload "date") then w else tick w.

(** The entry [add_expense] builds. *)
Definition entry_for (repr : pyval -> string) (payload : pydict)
    (eid : string) (date : pyval) (amount : float64) (category : pyval)
  : pyval :=
  PDict [("id", PStr eid);
         ("date", date);
         ("amount", PFloat amount);
         ("category", category);
         ("description", get_or payload "description" (PStr ""));
         ("payment_method", get_or payload "payment_method" (PStr ""));
         ("tags",
          PList (map PStr (normalize_tags repr (get_or_None payload "tags"))))].

(** A store on which [load_expenses] and [save_expenses] succeed: no
    document and a directory to create it in, or a readable and writable
    document of the right shape. *)
Definition store_ready (w : world) (username : string) : bool :=
  negb (bool_decide (expenses_path username ∈ w_dirs w))
  && match w_files w !! expenses_path username with
     | None =>
         negb (nonempty (dirname (expenses_path username)))
         || bool_decide (dirname (expenses_path username) ∈ w_dirs w)
     | Some f =>
         f_readable f && f_writable f
         && match f_data f with
            | Json (PDict d) =>
                match get_or d "expenses" (PList []) with
                | PList _ => true
                | _ => false
                end
            | _ => false
            end
     end.

(** Two worlds with the same files and directories. *)
Definition same_storage (w w' : world) : Prop :=
  w_files w' = w_files w /\ w_dirs w' = w_dirs w.

Definition is_ok {A} (r : result A) : bool :=
  match r with Ok _ => true | Raise _ => false end.

(** A tag as [normalize_tags] leaves it: not empty, no white space at
    either end. *)
Definition clean_tag (t : string) : bool :=
  nonempty t && String.eqb (strip t) t.



(** The date, id and category of an entry whose three fields are strings. *)
Definition entry_fields (e : pyval) : option (string * string * string) :=
  match e with
  | PDict d =>
      match dict_get d "date", dict_get d "id", dict_get d "category" with
      | Some (PStr dt), Some (PStr i), Some (PStr c) => Some (dt, i, c)
      | _, _, _ => None
      end
  | _ => None
  end.

Definition wf_entry (e : pyval) : bool :=
  match entry_fields e with Some _ => true | None => false end.

Definition entry_date (e : pyval) : string :=
  match entry_fields e with Some (dt, _, _) => dt | None => "" end.

Definition entry_id (e : pyval) : string :=
  match entry_fields e with Some (_, i, _) => i | None => "" end.

Definition entry_category (e : pyval) : string :=
  match entry_fields e with Some (_, _, c) => c | None => "" end.

(** The bounds of a date range are strings. *)
Definition is_str_or_absent (o : option pyval) : bool :=
  match o with Some (PStr _) | None => true | Some _ => false end.

Definition wf_filters (filters : option pydict) : bool :=
  match filters with
  | None => true
  | Some f =>
      is_str_or_absent (dict_get f "from_date")
      && is_str_or_absent (dict_get f "to_date")
  end.

(** The filter of a listing, as the specification words it: each of the
    three conditions holds when its filter is present. *)
Definition from_ok (filters : pydict) (e : pyval) : bool :=
  match dict_get filters "from_date" with
  | Some (PStr lo) => str_le lo (entry_date e)
  | Some _ => false
  | None => true
  end.

Definition to_ok (filters : pydict) (e : pyval) : bool :=
  match dict_get filters "to_date" with
  | Some (PStr hi) => str_le (entry_date e) hi
  | Some _ => false
  | None => true
  end.

Definition category_ok (filters : pydict) (e : pyval) : bool :=
  match dict_get filters "category" with
  | Some wanted => py_eq (PStr (entry_category e)) wanted
  | None => true
  end.

Definition satisfies (filters : option pydict) (e : pyval) : bool :=
  match filters with
  | None => true
  | Some f => from_ok f e && to_ok f e && category_ok f e
  end.

Definition no_filter (filters : option pydict) : bool :=
  match filters with
  | None => true
  | Some f =>
      negb (dict_has f "from_date") && negb (dict_has f "to_date")
      && negb (dict_has f "category")
  end.

(** [(date, id)] pairs in descending order: the later date first, and the
    greater id first on one date. *)
Definition pair_ge (a b : string * string) : bool :=
  match String.compare (fst a) (fst b) with
  | Gt => true
  | Lt => false
  | Eq => str_le (snd b) (snd a)
  end.

Definition entry_pair (e : pyval) : string * string :=
  (entry_date e, entry_id e).

(** [(date, id)] pairs compared field by field. *)
Definition pair_compare (a b : string * string) : comparison :=
  match String.compare (fst a) (fst b) with
  | Eq => String.compare (snd a) (snd b)
  | c => c
  end.

(** An entry under its sort key, when its date and id are strings. *)
Definition keyed (e : pyval) : (pyval * pyval) * pyval :=
  ((PStr (entry_date e), PStr (entry_id e)), e).

Definition newest_first (l : list pyval) : Prop :=
  StronglySorted (fun a b => pair_ge (entry_pair a) (entry_pair b) = true) l.

(** Clock readings in chronological order. *)
Definition dt_fields (t : datetime) : list Z :=
  [dt_year t; dt_month t; dt_day t; dt_hour t; dt_minute t; dt_second t;
   dt_microsecond t].

Fixpoint lex_lt (a b : list Z) : bool :=
  match a, b with
  | x :: a', y :: b' => (x <? y) || ((x =? y) && lex_lt a' b')
  | _, _ => false
  end.

Definition dt_lt (s t : datetime) : bool := lex_lt (dt_fields s) (dt_fields t).




(** ** Worlds of the examples *)

(** A clock that advances by a microsecond at every reading, from
    2025-09-07 15:30:45.000123. *)
Definition clock_ticking (n : nat) : datetime :=
  {| dt_year := 2025; dt_month := 9; dt_day := 7;
     dt_hour := 15; dt_minute := 30; dt_second := 45;
     dt_microsecond := 123 + Z.of_nat n |}.


(** A [repr] for the examples, none of which turns a float or a container
    into a string: [None], the booleans and the integers as Python writes
    them. *)
Definition repr_example (v : pyval) : string :=
  match v with
  | PNone => "None"
  | PBool true => "True"
  | PBool false => "False"
  | PInt n => (if n <? 0 then "-" else "") +:+ fmt_d 1 (Z.abs n)
  | _ => "<object>"
  end.

Definition file_of (v : pyval) : file :=
  {| f_readable := true; f_writable := true; f_data := Json v |}.

Definition world_of (files : gmap string file) (clock : nat -> datetime)
  : world :=
  {| w_dirs := {[ "data/alice" ]}; w_files := files;
     w_clock := clock; w_ticks := 0 |}.

(** A registered user who has no document yet. *)
Definition world_fresh : world := world_of ∅ clock_ticking.



(** A user whose directory was never made. *)
Definition world_no_dir : world :=
  {| w_dirs := ∅; w_files := ∅; w_clock := clock_ticking; w_ticks := 0 |}.

Definition entry_of (id date category : string) : pyval :=
  PDict [("id", PStr id); ("date", PStr date);
         ("amount", PFloat f_one); ("category", PStr category);
         ("description", PStr ""); ("payment_method", PStr "");
         ("tags", PList [])].

(** Two entries of one date, stored in the order they were made. *)
Definition world_same_date : world :=
  world_of
    {[ "data/alice/expanses.json" :=
         file_of (PDict [("expenses",
           PList [entry_of "exp_a" "2024-03-05" "Food";
                  entry_of "exp_b" "2024-03-05" "Bills"])]) ]}
    clock_ticking.

(** Three entries, of January 1st, January 15th and February 1st. *)
Definition world_three : world :=
  world_of
    {[ "data/alice/expanses.json" :=
         file_of (PDict [("expenses",
           PList [entry_of "exp_1" "2024-01-01" "Food";
                  entry_of "exp_2" "2024-01-15" "Bills";
                  entry_of "exp_3" "2024-02-01" "Food"])]) ]}
    clock_ticking.

(** The filters of a listing of January 2024. *)
Definition january : option pydict :=
  Some [("from_date", PStr "2024-01-01"); ("to_date", PStr "2024-01-31")].


Definition payload_no_date : pydict :=
  [("amount", PInt 10); ("category", PStr "Food")].

Definition payload_empty_date : pydict :=
  [("date", PStr ""); ("amount", PInt 10); ("category", PStr "Food")].

Definition payload_spaced : pydict :=
  [("date", PStr "2024-01-15"); ("amount", PStr "12.5");
   ("category", PStr " Food ")].

(** ** The account directory and the session of src/app.py *)

(** The functions of lines 17-145 and 313-316: the users file, registration
    and authentication, the session, and the scaffolding of a first run.
    A path is the key of what it names, so a file or a directory is known
    under one text only; the properties of these functions are stated for
    usernames that are one path component, and no limit on the length of a
    name is modelled. *)

(** *** Exceptions and computations *)

(** [os.makedirs] raises two exceptions the expense operations never
    meet. *)
Inductive error : Type :=
| Exn (e : exn)
| FileExistsError
| NotADirectoryError.

Inductive outcome (A : Type) : Type :=
| Returned (a : A)
| Raised (e : error).
Arguments Returned {A} a.
Arguments Raised {A} e.

(** A computation on the world that may raise any of these. *)
Definition IO (A : Type) : Type := world -> outcome A * world.

Definition io_ret {A} (a : A) : IO A := fun w => (Returned a, w).

Definition io_raise {A} (e : error) : IO A := fun w => (Raised e, w).

Definition io_bind {A B} (m : IO A) (k : A -> IO B) : IO B :=
  fun w =>
    match m w with
    | (Returned a, w') => k a w'
    | (Raised e, w') => (Raised e, w')
    end.

(** A computation of the expense part, run as it is. *)
Definition io {A} (m : M A) : IO A :=
  fun w =>
    match m w with
    | (Ok a, w') => (Returned a, w')
    | (Raise e, w') => (Raised (Exn e), w')
    end.

Definition pure {A} (r : result A) : IO A := io (lift r).

Declare Scope acct_scope.
Delimit Scope acct_scope with acct.
Notation "'do' x '<-' m ';' k" := (io_bind m (fun x => k))
  (at level 10, x name, m at level 100, k at level 200) : acct_scope.

(** *** Directories *)

(** The part of [s] after its last slash, [s] itself when it has none. *)
Fixpoint after_last_slash (s : string) : string :=
  match s with
  | EmptyString => EmptyString
  | String c s' =>
      match upto_last_slash s' with
      | Some _ => after_last_slash s'
      | None => if Ascii.eqb c "/" then s' else s
      end
  end.

(** [os.path.split(p)] on POSIX; its head is [os.path.dirname(p)]. *)
Definition path_split (p : string) : string * string :=
  (dirname p, after_last_slash p).

Definition has_file (w : world) (p : string) : bool :=
  match w_files w !! p with Some _ => true | None => false end.

Definition add_dir (w : world) (p : string) : world :=
  {| w_dirs := {[ p ]} ∪ w_dirs w; w_files := w_files w;
     w_clock := w_clock w; w_ticks := w_ticks w |}.

(** [os.mkdir(name)]: the directory is made in a directory that exists (the
    current one when [name] names none). *)
Definition mkdir (name : string) : IO unit :=
  fun w =>
    if bool_decide (name ∈ w_dirs w) || has_file w name
    then (Raised FileExistsError, w)
    else if negb (nonempty name) then (Raised (Exn FileNotFoundError), w)
    else if negb (nonempty (dirname name))
            || bool_decide (dirname name ∈ w_dirs w)
    then (Returned tt, add_dir w name)
    else if has_file w (dirname name) then (Raised NotADirectoryError, w)
    else (Raised (Exn FileNotFoundError), w).

(** The last step of [os.makedirs(name, exist_ok=True)]: an error of
    [mkdir] is let through unless [name] is a directory. *)
Definition mkdir_exist_ok (name : string) : IO unit :=
  fun w =>
    match mkdir name w with
    | (Raised e, w') =>
        if bool_decide (name ∈ w_dirs w') then (Returned tt, w')
        else (Raised e, w')
    | done => done
    end.

(** [os.makedirs(name, exist_ok=True)].  It calls itself on the head of
    [name], which is shorter than [name]; [fuel] bounds the calls, and the
    length of [name] is fuel enough ([makedirs_from_enough]). *)
Fixpoint makedirs_from (fuel : nat) (name : string) : IO unit :=
  fun w =>
    let '(head, tail) :=
      let '(head, tail) := path_split name in
      if negb (nonempty tail) then path_split head else (head, tail) in
    if nonempty head && nonempty tail
       && negb (bool_decide (head ∈ w_dirs w) || has_file w head)
    then
      match fuel with
      | O => mkdir_exist_ok name w
      | S fuel' =>
          match makedirs_from fuel' head w with
          | (Raised (Exn e), w') => (Raised (Exn e), w')
          | (Raised NotADirectoryError, w') => (Raised NotADirectoryError, w')
          | (_, w') =>
              if String.eqb tail "." then (Returned tt, w')
              else mkdir_exist_ok name w'
          end
      end
    else mkdir_exist_ok name w.

Definition makedirs (name : string) : IO unit :=
  makedirs_from (String.length name) name.

(** *** The users file *)

Definition USERS_FILE : string := "storage/users.json".
Definition DATA_ROOT : string := "data".
Definition EXPENSES_FN : string := "expanses.json".
Definition SETTINGS_FN : string := "settings.json".

Definition DEFAULT_SETTINGS : pyval :=
  PDict [("currency", PStr "USD");
         ("categories",
          PList [PStr "Food"; PStr "Transport"; PStr "Bills";
                 PStr "Entertainment"; PStr "Health"; PStr "Other"])].

(** [ensure_user_dir_exists], lines 17-38 *)
Definition ensure_user_dir_exists (username : string) : IO unit :=
  let user_dir := join2 DATA_ROOT username in
  (do _ <- makedirs user_dir;
   let expenses_file := join2 user_dir EXPENSES_FN in
   let settings_file := join2 user_dir SETTINGS_FN in
   do present <- io (path_exists expenses_file);
   do _ <-
     (if negb present
      then io (write_json expenses_file (PDict [("expenses", PList [])]))
      else io_ret tt);
   do present <- io (path_exists settings_file);
   if negb present then io (write_json settings_file DEFAULT_SETTINGS)
   else io_ret tt)%acct.

(** [ensure_users_file], lines 40-47 *)
Definition ensure_users_file : IO unit :=
  (do _ <- makedirs (dirname USERS_FILE);
   do present <- io (path_exists USERS_FILE);
   if negb present
   then io (write_json USERS_FILE (PDict [("users", PList [])]))
   else io_ret tt)%acct.

(** [load_users], lines 49-55 *)
Definition load_users : IO pyval :=
  (do _ <- ensure_users_file; io (read_json USERS_FILE))%acct.

(** [save_users], lines 57-63 *)
Definition save_users (users : pyval) : IO unit :=
  (do _ <- makedirs (dirname USERS_FILE);
   io (write_json USERS_FILE users))%acct.

(** [for u in l: if test(u): return True], then [return False] *)
Fixpoint first_match (test : pyval -> result bool) (l : list pyval)
  : result bool :=
  match l with
  | [] => Ok false
  | u :: l' =>
      (let* hit := test u in
       if hit then Ok true else first_match test l')%res
  end.

(** [username_exists], lines 65-72 *)
Definition username_exists (users : pyval) (username : string) : result bool :=
  (let* records := py_get users "users" (PList []) in
   let* l := py_iter records in
   first_match
     (fun u =>
        let* name := py_get u "username" PNone in
        Ok (py_eq name (PStr username)))
     l)%res.

(** [d[k] = v] on a dict that has the key [k]: [d[k].append(x)] changes the
    list the dict holds, which is the list as appended to under [k]. *)
Fixpoint dict_set (d : pydict) (k : string) (v : pyval) : pydict :=
  match d with
  | [] => [(k, v)]
  | (k', v') :: d' =>
      if String.eqb k' k then (k', v) :: d' else (k', v') :: dict_set d' k v
  end.

Definition py_setitem (x : pyval) (k : string) (v : pyval) : pyval :=
  match x with
  | PDict d => PDict (dict_set d k v)
  | _ => x
  end.

(** The record [register_user] appends. *)
Definition record_of (username password : string) : pyval :=
  PDict [("username", PStr username); ("password", PStr password)].

(** [register_user], lines 74-88 *)
Definition register_user (username password : string) : IO unit :=
  (do users <- load_users;
   do taken <- pure (username_exists users username);
   if negb taken then
     do records <- pure (py_getitem users "users");
     do records <- pure (py_append records (record_of username password));
     let users := py_setitem users "users" records in
     do _ <- save_users users;
     ensure_user_dir_exists username
   else io_raise (Exn (ValueError "username already exists")))%acct.

(** [authenticate_user], lines 90-99 *)
Definition authenticate_user (username password : string) : IO bool :=
  (do users <- load_users;
   pure
     (let* records := py_get users "users" (PList []) in
      let* l := py_iter records in
      first_match
        (fun u =>
           let* name := py_get u "username" PNone in
           if py_eq name (PStr username) then
             let* secret := py_get u "password" PNone in
             Ok (py_eq secret (PStr password))
           else Ok false)
        l)%res)%acct.

(** *** The session *)

(** The globals [state] and [current_user], lines 105-106. *)
Record session : Type := {
  state : string;
  current_user : pyval
}.

Definition session_start : session :=
  {| state := "AUTH"; current_user := PNone |}.

(** [go_auth], lines 108-114 *)
Definition go_auth (s : session) : session :=
  {| state := "AUTH"; current_user := PNone |}.

(** [go_home], lines 116-121 *)
Definition go_home (username : string) (s : session) : session :=
  {| state := "HOME"; current_user := PDict [("username", PStr username)] |}.

Section Accounts.

(** [str(e)] of the exception [json.load] raises: the message of the
    decoder, which depends on the text of the file. *)
Variable decode_error_text : string.

(** [str(e)] of an exception that is a [ValueError] *)
Definition error_text (e : exn) : string :=
  match e with
  | ValueError msg => msg
  | _ => decode_error_text
  end.

(** [action_register], lines 123-133.  An action gives back the session
    with its result; when it raises, the globals are as they were. *)
Definition action_register (username password : string) (s : session)
  : IO (pyval * session) :=
  fun w =>
    match register_user username password w with
    | (Returned _, w') =>
        (Returned
           (PDict [("ok", PBool true);
                   ("message", PStr "registered and logged in")],
            go_home username s), w')
    | (Raised (Exn e), w') =>
        if is_ValueError e then
          (Returned
             (PDict [("ok", PBool false); ("message", PStr (error_text e))],
              s), w')
        else (Raised (Exn e), w')
    | (Raised e, w') => (Raised e, w')
    end.

End Accounts.

(** [action_login], lines 135-141 *)
Definition action_login (username password : string) (s : session)
  : IO (pyval * session) :=
  (do found <- authenticate_user username password;
   if found then
     io_ret (PDict [("ok", PBool true); ("message", PStr "logged in")],
             go_home username s)
   else
     io_ret (PDict [("ok", PBool false);
                    ("message", PStr "invalid credentials")], s))%acct.

(** [action_logout], lines 143-145 *)
Definition action_logout (s : session) : session := go_auth s.

(** [boot], lines 313-316 *)
Definition boot : IO unit :=
  (do _ <- ensure_users_file; makedirs DATA_ROOT)%acct.

(** ** Vocabulary of the account and storage properties *)

Fixpoint has_char (c : ascii) (s : string) : bool :=
  match s with
  | EmptyString => false
  | String c' s' => Ascii.eqb c' c || has_char c s'
  end.

(** A username that is one path component: not empty, no slash and no NUL,
    neither [.] nor [..]. *)
Definition plain_name (u : string) : bool :=
  nonempty u && negb (has_char "/" u) && negb (has_char "000" u)
  && negb (String.eqb u ".") && negb (String.eqb u "..").

(** A file that is written when nothing is at its path: the three
    documents the account functions create are made this way. *)
Definition create_if_missing (p : string) (v : pyval) : IO unit :=
  (do present <- io (path_exists p);
   if negb present then io (write_json p v) else io_ret tt)%acct.

(** The settings document of a user. *)
Definition settings_path (username : string) : string :=
  join2 (join2 DATA_ROOT username) SETTINGS_FN.

(** A string of white space only. *)
Fixpoint blank (s : string) : bool :=
  match s with
  | EmptyString => true
  | String c s' => is_space c && blank s'
  end.

(** The records of the users file: the list under ["users"], no record
    when there is no file, and nothing when the file is not one of
    records. *)
Definition registered (w : world) : option (list pyval) :=
  match w_files w !! USERS_FILE with
  | None => Some []
  | Some f =>
      match f_data f with
      | Json (PDict d) =>
          match dict_get d "users" with
          | Some (PList l) => Some l
          | _ => None
          end
      | _ => None
      end
  end.

Definition is_record (r : pyval) : bool :=
  match r with PDict _ => true | _ => false end.

(** Whether a record is a dict whose username is [name]. *)
Definition answers_to (name : string) (r : pyval) : bool :=
  match r with
  | PDict d => py_eq (get_or d "username" PNone) (PStr name)
  | _ => false
  end.


(** Whether an entry has this date and this id. *)
Definition same_key (k : string * string) (e : pyval) : bool :=
  String.eqb (entry_date e) (fst k) && String.eqb (entry_id e) (snd k).

(** No two records answer to one name. *)
Definition names_unique (l : list pyval) : Prop :=
  forall name, (length (List.filter (answers_to name) l) <= 1)%nat.

(** Whether the result of an action says it went well. *)
Definition said_ok (res : pyval) : bool :=
  match res with
  | PDict d =>
      match dict_get d "ok" with
      | Some (PBool b) => b
      | _ => false
      end
  | _ => false
  end.

(** The session and the screen agree: a user is held on [HOME] and none
    on [AUTH]. *)
Definition session_ok (s : session) : Prop :=
  (state s = "AUTH" /\ current_user s = PNone)
  \/ (state s = "HOME"
      /\ exists u, current_user s = PDict [("username", PStr u)]).

(** *** Worlds of the account examples *)

(** A file system with nothing in it. *)
Definition world_empty : world := world_no_dir.

(** The file system after the first [boot]: the two folders, and a users
    file without records. *)
Definition world_booted : world :=
  {| w_dirs := {[ "storage"; "data" ]};
     w_files := {[ USERS_FILE := file_of (PDict [("users", PList [])]) ]};
     w_clock := clock_ticking; w_ticks := 0 |}.

(** What the file system is once alice has registered. *)
Definition world_alice : world :=
  snd (register_user "alice" "secret" world_booted).

(** A users file that is not JSON. *)
Definition world_users_corrupt : world :=
  {| w_dirs := {[ "storage"; "data" ]};
     w_files := {[ USERS_FILE :=
                     {| f_readable := true; f_writable := true;
                        f_data := Garbage |} ]};
     w_clock := clock_ticking; w_ticks := 0 |}.

(** A collection whose second entry has no date. *)
Definition world_undated : world :=
  world_of
    {[ "data/alice/expanses.json" :=
         file_of (PDict [("expenses",
           PList [entry_of "exp_1" "2024-01-01" "Food";
                  PDict [("id", PStr "exp_2"); ("category", PStr "Food")]])]) ]}
    clock_ticking.

(** Two entries made at one reading of the clock, and one made later. *)
Definition world_twins : world :=
  world_of
    {[ "data/alice/expanses.json" :=
         file_of (PDict [("expenses",
           PList [entry_of "exp_a" "2024-03-05" "Food";
                  entry_of "exp_a" "2024-03-05" "Bills";
                  entry_of "exp_b" "2024-03-05" "Health"])]) ]}
    clock_ticking.

(** * Properties *)

(** ** Strings *)

Lemma lstrip_with_head sp s :
  lstrip_with sp s = EmptyString
  \/ exists c t, lstrip_with sp s = String c t /\ sp c = false.
Proof.
  induction s as [|c s IH]; simpl; [now left|].
  destruct (sp c) eqn:E; [exact IH|]. right. now exists c, s.
Qed.

Lemma rstrip_with_idem sp s :
  rstrip_with sp (rstrip_with sp s) = rstrip_with sp s.
Proof.
  induction s as [|c s IH]; simpl; [reflexivity|].
  destruct (rstrip_with sp s) as [|d r] eqn:E.
  - destruct (sp c) eqn:Ec; simpl; [reflexivity|]. now rewrite Ec.
  - simpl in *. now rewrite IH.
Qed.

Lemma rstrip_with_keeps_head sp c t :
  sp c = false ->
  exists r, rstrip_with sp (String c t) = String c r.
Proof.
  intros Hc. simpl. destruct (rstrip_with sp t) as [|d r].
  - rewrite Hc. now exists EmptyString.
  - now exists (String d r).
Qed.

Lemma strip_idem s : strip (strip s) = strip s.
Proof.
  unfold strip.
  destruct (lstrip_with_head is_space s) as [E | (c & t & E & Hc)]; rewrite E.
  - reflexivity.
  - destruct (rstrip_with_keeps_head is_space c t Hc) as [r Hr].
    rewrite Hr. simpl lstrip_with. rewrite Hc, <- Hr.
    apply rstrip_with_idem.
Qed.

Lemma filter_nonempty_strip_clean (l : list string) :
  Forall (fun t => clean_tag t = true)
    (List.filter nonempty (map strip l)).
Proof.
  induction l as [|s l IH]; simpl; [constructor|].
  destruct (nonempty (strip s)) eqn:E; [|exact IH].
  constructor; [|exact IH].
  unfold clean_tag. rewrite E, strip_idem. simpl. apply String.eqb_refl.
Qed.

(** ** Validators *)

(** C7. [validate_amount_positive] coerces its argument with [float]: it
    raises a [ValueError] when the coercion fails and when the number is at
    most zero, and returns the number otherwise; it rejects 0 and -5 and
    returns 12.5 for the string "12.5". *)
Theorem validate_amount_positive_spec :
  (forall x : pyval,
      match py_float x with
      | Raise _ =>
          validate_amount_positive x = Raise (ValueError "amount must be a number")
      | Ok v =>
          if float_le_zero v
          then validate_amount_positive x
               = Raise (ValueError "amount must be positive")
          else validate_amount_positive x = Ok v
      end)
  /\ (forall x : pyval,
      match validate_amount_positive x with
      | Ok v => py_float x = Ok v /\ float_le_zero v = false
      | Raise e => is_ValueError e = true
      end)
  /\ validate_amount_positive (PInt 0)
     = Raise (ValueError "amount must be positive")
  /\ validate_amount_positive (PInt (-5))
     = Raise (ValueError "amount must be positive")
  /\ validate_amount_positive (PStr "abc")
     = Raise (ValueError "amount must be a number")
  /\ validate_amount_positive (PStr "12.5")
     = Ok (S754_finite false 7036874417766400 (-49))
  /\ 7036874417766400 * 2 = 25 * 2 ^ 49.
Proof.
  split; [|split].
  - intros x. unfold validate_amount_positive.
    destruct (py_float x) as [v|e]; [|reflexivity].
    destruct (float_le_zero v); reflexivity.
  - intros x. unfold validate_amount_positive.
    destruct (py_float x) as [v|e]; [|reflexivity].
    destruct (float_le_zero v) eqn:E; [reflexivity|]. now split.
  - repeat split; vm_compute; reflexivity.
Qed.

(** A NaN is not at most zero, so [validate_amount_positive] returns it;
    it returns a positive infinity too. *)
Lemma validate_amount_positive_nan :
  validate_amount_positive (PStr "nan") = Ok S754_nan
  /\ validate_amount_positive (PStr "inf") = Ok (S754_infinity false)
  /\ validate_amount_positive (PStr "-inf")
     = Raise (ValueError "amount must be positive").
Proof. repeat split; vm_compute; reflexivity. Qed.

(** C8, at inputs that are not of the form YYYY-MM-DD.  On CPython 3.11
    and later [date.fromisoformat] also reads the basic format, ISO week
    dates, and ten-byte strings with text after the date, so
    [validate_date_iso] accepts strings that are not of the form
    YYYY-MM-DD. *)
Theorem validate_date_iso_accepts_other_forms :
  validate_date_iso (PStr "20240115") = Ok tt
  /\ validate_date_iso (PStr "2024-W03-1") = Ok tt
  /\ validate_date_iso (PStr "2024011500") = Ok tt
  /\ validate_date_iso (PStr "2024-01-15") = Ok tt
  /\ validate_date_iso (PStr "2023-02-29")
     = Raise (ValueError "date must be in format YYYY-MM-DD").
Proof. repeat split; vm_compute; reflexivity. Qed.

(** C9. [normalize_tags] never fails.  Of a list it keeps, in order, the
    trimmed string of every item that is not empty once trimmed; a string
    it splits at the commas and treats the pieces the same way; any other
    value gives the empty list.  Every tag it returns is non-empty and
    trimmed. *)
Theorem normalize_tags_spec (repr : pyval -> string) :
  (forall l : list pyval,
      normalize_tags repr (PList l)
      = List.filter nonempty (map (fun tag => strip (py_str repr tag)) l))
  /\ (forall s : string,
      normalize_tags repr (PStr s)
      = List.filter nonempty (map strip (split_on "," s)))
  /\ normalize_tags repr PNone = []
  /\ (forall b, normalize_tags repr (PBool b) = [])
  /\ (forall n, normalize_tags repr (PInt n) = [])
  /\ (forall x, normalize_tags repr (PFloat x) = [])
  /\ (forall d, normalize_tags repr (PDict d) = [])
  /\ (forall raw : pyval,
      Forall (fun t => clean_tag t = true) (normalize_tags repr raw))
  /\ normalize_tags repr (PStr "a, b ,,c") = ["a"; "b"; "c"]
  /\ normalize_tags repr (PList [PStr "x"; PStr " y "]) = ["x"; "y"].
Proof.
  repeat split; try reflexivity.
  intros raw. destruct raw; simpl; try constructor.
  - apply filter_nonempty_strip_clean.
  - rewrite <- (map_map (py_str repr) strip). apply filter_nonempty_strip_clean.
Qed.

(** ** The record store *)

Lemma load_expenses_missing u w :
  expenses_path u ∉ w_dirs w ->
  w_files w !! expenses_path u = None ->
  load_expenses u w
  = if negb (nonempty (dirname (expenses_path u)))
       || bool_decide (dirname (expenses_path u) ∈ w_dirs w)
    then (Ok (PList []),
          set_files w (<[expenses_path u :=
                           file_of (PDict [("expenses", PList [])])]>
                         (w_files w)))
    else (Raise FileNotFoundError, w).
Proof.
  intros Hd Hf. unfold load_expenses, bind, path_exists, write_json, ret.
  rewrite Hf, (bool_decide_eq_false_2 _ Hd). simpl.
  rewrite Hf, (bool_decide_eq_false_2 _ Hd).
  destruct (negb (nonempty (dirname (expenses_path u)))
            || bool_decide (dirname (expenses_path u) ∈ w_dirs w));
    reflexivity.
Qed.

Lemma load_expenses_present u w f :
  expenses_path u ∉ w_dirs w ->
  w_files w !! expenses_path u = Some f ->
  load_expenses u w
  = (if f_readable f then
       match f_data f with
       | Garbage => Raise JSONDecodeError
       | Json v => py_get v "expenses" (PList [])
       end
     else Raise PermissionError, w).
Proof.
  intros Hd Hf. unfold load_expenses, bind, path_exists, read_json, lift.
  rewrite Hf, (bool_decide_eq_false_2 _ Hd). simpl.
  rewrite Hf, (bool_decide_eq_false_2 _ Hd).
  destruct (f_readable f); [|reflexivity].
  destruct (f_data f); reflexivity.
Qed.

Lemma load_expenses_directory u w :
  expenses_path u ∈ w_dirs w ->
  load_expenses u w = (Raise IsADirectoryError, w).
Proof.
  intros Hd. unfold load_expenses, bind, path_exists, read_json.
  rewrite (bool_decide_eq_true_2 _ Hd). simpl.
  rewrite (bool_decide_eq_true_2 _ Hd). reflexivity.
Qed.




(** ** [add_expense], step by step *)

Lemma add_expense_unfold repr u payload w :
  add_expense repr u payload w =
  let d := resolved_date payload w in
  let w0 := after_date payload w in
  match validate_date_iso d with
  | Raise e => (Raise e, w0)
  | Ok _ =>
  match validate_amount_positive (get_or_None payload "amount") with
  | Raise e => (Raise e, w0)
  | Ok a =>
  match validate_required_text repr (get_or_None payload "category") "category" with
  | Raise e => (Raise e, w0)
  | Ok _ =>
  match load_expenses u w0 with
  | (Raise e, w1) => (Raise e, w1)
  | (Ok items, w1) =>
  let eid := "exp_" +:+ strftime_id (w_clock w1 (w_ticks w1)) in
  match py_getitem (PDict payload) "category" with
  | Raise e => (Raise e, tick w1)
  | Ok c =>
  match py_append items (entry_for repr payload eid d a c) with
  | Raise e => (Raise e, tick w1)
  | Ok items' =>
  match write_json (expenses_path u) (PDict [("expenses", items')]) (tick w1) with
  | (Raise e, w2) => (Raise e, w2)
  | (Ok _, w2) => (Ok eid, w2)
  end end end end end end end.
Proof.
  cbv beta iota zeta delta
    [add_expense resolved_date after_date clock_date bind lift ret
     today_iso generate_expense_id now save_expenses entry_for].
  destruct (truthy (get_or_None payload "date")).
  all: destruct (validate_date_iso _) as [[]|?]; [|reflexivity].
  all: destruct (validate_amount_positive _) as [a|?]; [|reflexivity].
  all: destruct (validate_required_text _ _ _) as [[]|?]; [|reflexivity].
  all: destruct (load_expenses u _) as [[items|?] w1]; [|reflexivity].
  all: destruct (py_getitem _ _) as [c|?]; [|reflexivity].
  all: destruct (py_append _ _) as [items'|?]; [|reflexivity].
  all: destruct (write_json _ _ _) as [[[]|?] w2]; reflexivity.
Qed.

Lemma write_json_raise p v w e w' :
  write_json p v w = (Raise e, w') -> w' = w /\ is_OSError e = true.
Proof.
  unfold write_json. intros H.
  destruct (bool_decide (p ∈ w_dirs w)); [now inversion H|].
  destruct (w_files w !! p) as [f|].
  - destruct (f_writable f); now inversion H.
  - destruct (negb (nonempty (dirname p)) || bool_decide (dirname p ∈ w_dirs w));
      now inversion H.
Qed.

Lemma write_json_ok p v w w' :
  write_json p v w = (Ok tt, w') ->
  (p ∉ w_dirs w)
  /\ exists f, f_data f = Json v
       /\ w' = set_files w (<[p := f]> (w_files w)).
Proof.
  unfold write_json. intros H.
  destruct (bool_decide (p ∈ w_dirs w)) eqn:Hd; [discriminate H|].
  apply bool_decide_eq_false_1 in Hd. split; [exact Hd|].
  destruct (w_files w !! p) as [f|].
  - destruct (f_writable f); inversion H. eexists. split; [|reflexivity]. reflexivity.
  - destruct (negb (nonempty (dirname p)) || bool_decide (dirname p ∈ w_dirs w));
      inversion H. eexists. split; [|reflexivity]. reflexivity.
Qed.

(** Writing to a file that exists and may be written succeeds. *)
Lemma write_json_existing p v w f :
  p ∉ w_dirs w -> w_files w !! p = Some f -> f_writable f = true ->
  exists w', write_json p v w = (Ok tt, w').
Proof.
  intros Hd Hf Hw. unfold write_json.
  rewrite (bool_decide_eq_false_2 _ Hd), Hf, Hw. eauto.
Qed.

Lemma load_expenses_raise u w e w1 :
  load_expenses u w = (Raise e, w1) ->
  w1 = w
  /\ (store_shaped w u = true -> is_ValueError e || is_OSError e = true).
Proof.
  intros H. destruct (decide (expenses_path u ∈ w_dirs w)) as [Hd|Hd].
  { rewrite (load_expenses_directory u w Hd) in H. now inversion H. }
  unfold store_shaped.
  destruct (w_files w !! expenses_path u) as [f|] eqn:Hf.
  - rewrite (load_expenses_present u w f Hd Hf) in H.
    destruct (f_readable f); [|now inversion H].
    destruct (f_data f) as [v|]; [|now inversion H].
    destruct v; simpl in H; inversion H; subst; split; auto; discriminate.
  - rewrite (load_expenses_missing u w Hd Hf) in H.
    destruct (negb (nonempty (dirname (expenses_path u)))
              || bool_decide (dirname (expenses_path u) ∈ w_dirs w));
      now inversion H.
Qed.

Lemma load_expenses_ok u w v w1 :
  load_expenses u w = (Ok v, w1) ->
  (expenses_path u ∉ w_dirs w)
  /\ ((w1 = w
       /\ exists f d, w_files w !! expenses_path u = Some f
            /\ f_data f = Json (PDict d)
            /\ v = get_or d "expenses" (PList []))
      \/ (w_files w !! expenses_path u = None
          /\ v = PList []
          /\ w1 = set_files w
                    (<[expenses_path u :=
                         file_of (PDict [("expenses", PList [])])]>
                       (w_files w)))).
Proof.
  intros H. destruct (decide (expenses_path u ∈ w_dirs w)) as [Hd|Hd].
  { rewrite (load_expenses_directory u w Hd) in H. discriminate H. }
  split; [exact Hd|].
  destruct (w_files w !! expenses_path u) as [f|] eqn:Hf.
  - rewrite (load_expenses_present u w f Hd Hf) in H. left.
    destruct (f_readable f); [|discriminate H].
    destruct (f_data f) as [x|] eqn:Hx; [|discriminate H].
    destruct x; simpl in H; try discriminate H.
    inversion H; subst. split; [reflexivity|]. now exists f, d.
  - rewrite (load_expenses_missing u w Hd Hf) in H. right.
    destruct (negb (nonempty (dirname (expenses_path u)))
              || bool_decide (dirname (expenses_path u) ∈ w_dirs w));
      inversion H. auto.
Qed.

Lemma stored_items_loaded u w l w1 :
  load_expenses u w = (Ok (PList l), w1) ->
  stored_items w u = Some l /\ stored_items w1 u = Some l.
Proof.
  intros H. destruct (load_expenses_ok u w _ w1 H) as [_ [(-> & f & d & Hf & Hd & Hv)|(Hf & Hv & ->)]].
  - unfold stored_items. rewrite Hf, Hd, <- Hv. auto.
  - inversion Hv; subst. unfold stored_items. rewrite Hf. simpl.
    rewrite lookup_insert_eq. auto.
Qed.

Lemma after_date_frame payload w :
  w_files (after_date payload w) = w_files w
  /\ w_dirs (after_date payload w) = w_dirs w
  /\ w_clock (after_date payload w) = w_clock w.
Proof. unfold after_date. destruct (truthy _); auto. Qed.

Lemma store_shaped_files w w' u :
  w_files w' = w_files w -> store_shaped w' u = store_shaped w u.
Proof. unfold store_shaped. now intros ->. Qed.

Lemma stored_items_files w w' u :
  w_files w' = w_files w -> stored_items w' u = stored_items w u.
Proof. unfold stored_items. now intros ->. Qed.

Lemma load_expenses_shaped u w v w1 :
  store_shaped w u = true ->
  load_expenses u w = (Ok v, w1) -> exists l, v = PList l.
Proof.
  intros Hs H.
  destruct (load_expenses_ok u w v w1 H)
    as [_ [(_ & f & d & Hf & Hd & Hv)|(_ & Hv & _)]]; [|eauto].
  unfold store_shaped in Hs. rewrite Hf, Hd, <- Hv in Hs.
  destruct v; try discriminate Hs. eauto.
Qed.

Lemma validate_date_iso_raise x e :
  validate_date_iso x = Raise e -> is_ValueError e = true.
Proof.
  unfold validate_date_iso. destruct (py_date_fromisoformat x);
    intros H; inversion H; reflexivity.
Qed.

Lemma validate_amount_positive_raise x e :
  validate_amount_positive x = Raise e -> is_ValueError e = true.
Proof.
  unfold validate_amount_positive. destruct (py_float x) as [v|];
    [destruct (float_le_zero v)|]; intros H; inversion H; reflexivity.
Qed.


Lemma validate_required_text_raise repr x f e :
  validate_required_text repr x f = Raise e -> is_ValueError e = true.
Proof.
  unfold validate_required_text. destruct (_ || _);
    intros H; inversion H; reflexivity.
Qed.

(** A field that passed [validate_required_text] is in the payload. *)
Lemma required_text_present repr payload k f :
  validate_required_text repr (get_or_None payload k) f = Ok tt ->
  exists c, dict_get payload k = Some c /\ get_or_None payload k = c.
Proof.
  unfold validate_required_text, get_or_None, get_or.
  destruct (dict_get payload k) as [c|]; [eauto|]. simpl. discriminate.
Qed.

Lemma normalize_tags_clean repr raw :
  Forall (fun t => clean_tag t = true) (normalize_tags repr raw).
Proof.
  destruct raw; simpl; try constructor.
  - apply filter_nonempty_strip_clean.
  - rewrite <- (map_map (py_str repr) strip). apply filter_nonempty_strip_clean.
Qed.



(** The outcome of a successful [add_expense]. *)
Lemma add_expense_ok repr u payload w eid w' :
  add_expense repr u payload w = (Ok eid, w') ->
  exists a c old w1,
    validate_date_iso (resolved_date payload w) = Ok tt
    /\ validate_amount_positive (get_or_None payload "amount") = Ok a
    /\ validate_required_text repr c "category" = Ok tt
    /\ dict_get payload "category" = Some c
    /\ load_expenses u (after_date payload w) = (Ok (PList old), w1)
    /\ eid = "exp_" +:+ strftime_id (w_clock w1 (w_ticks w1))
    /\ stored_items w u = Some old
    /\ stored_items w' u
       = Some (old ++ [entry_for repr payload eid (resolved_date payload w) a c])
    /\ (forall p, p <> expenses_path u -> w_files w' !! p = w_files w !! p)
    /\ w_dirs w' = w_dirs w
    /\ w_clock w' = w_clock w
    /\ w_ticks w' = S (w_ticks w1)
    /\ w_ticks w1 = w_ticks (after_date payload w).
Proof.
  rewrite add_expense_unfold. cbv zeta.
  destruct (after_date_frame payload w) as (Hfiles & Hdirs & Hclock).
  destruct (validate_date_iso _) as [[]|?] eqn:Hd; [|discriminate].
  destruct (validate_amount_positive _) as [a|?] eqn:Ha; [|discriminate].
  destruct (validate_required_text _ _ _) as [[]|?] eqn:Hc; [|discriminate].
  destruct (required_text_present _ _ _ _ Hc) as (c & Hget & Hc').
  destruct (load_expenses u _) as [[items|?] w1] eqn:Hl; [|discriminate].
  simpl py_getitem. rewrite Hget.
  destruct items as [| | | | |old|]; simpl py_append; cbv beta iota;
    try discriminate.
  destruct (write_json _ _ _) as [[[]|?] w2] eqn:Hw; [|discriminate].
  intros H; inversion H; subst eid w2; clear H.
  destruct (write_json_ok _ _ _ _ Hw) as (_ & f & Hf & ->).
  destruct (stored_items_loaded _ _ _ _ Hl) as (Hold & _).
  rewrite (stored_items_files _ _ _ Hfiles) in Hold.
  exists a, c, old, w1. rewrite Hc' in Hc.
  repeat match goal with |- _ /\ _ => split end; try reflexivity; try assumption.
  - unfold stored_items. simpl. rewrite lookup_insert_eq, Hf. reflexivity.
  - intros p Hp. simpl. rewrite lookup_insert_ne by congruence.
    destruct (load_expenses_ok _ _ _ _ Hl) as [_ [(-> & _)|(_ & _ & ->)]].
    + now rewrite Hfiles.
    + simpl. rewrite lookup_insert_ne by congruence. now rewrite Hfiles.
  - simpl. destruct (load_expenses_ok _ _ _ _ Hl) as [_ [(-> & _)|(_ & _ & ->)]];
      simpl; assumption.
  - simpl. destruct (load_expenses_ok _ _ _ _ Hl) as [_ [(-> & _)|(_ & _ & ->)]];
      simpl; assumption.
  - destruct (load_expenses_ok _ _ _ _ Hl) as [_ [(-> & _)|(_ & _ & ->)]];
      reflexivity.
Qed.

(** A failed [add_expense] leaves the files as they were; on a store of
    the right shape what it raises is a [ValueError] or an [OSError]. *)
Lemma add_expense_raise repr u payload w e w' :
  add_expense repr u payload w = (Raise e, w') ->
  same_storage w w'
  /\ (store_shaped w u = true -> is_ValueError e || is_OSError e = true).
Proof.
  rewrite add_expense_unfold. cbv zeta.
  destruct (after_date_frame payload w) as (Hfiles & Hdirs & Hclock).
  assert (Hsame : same_storage w (after_date payload w)) by (split; assumption).
  destruct (validate_date_iso _) as [[]|?] eqn:Hd.
  2:{ intros H; inversion H; subst. split; [assumption|]. intros _.
      now rewrite (validate_date_iso_raise _ _ Hd). }
  destruct (validate_amount_positive _) as [a|?] eqn:Ha.
  2:{ intros H; inversion H; subst. split; [assumption|]. intros _.
      now rewrite (validate_amount_positive_raise _ _ Ha). }
  destruct (validate_required_text _ _ _) as [[]|?] eqn:Hc.
  2:{ intros H; inversion H; subst. split; [assumption|]. intros _.
      now rewrite (validate_required_text_raise _ _ _ _ Hc). }
  destruct (required_text_present _ _ _ _ Hc) as (c & Hget & Hc').
  destruct (load_expenses u _) as [[items|?] w1] eqn:Hl.
  2:{ intros H; inversion H; subst.
      destruct (load_expenses_raise _ _ _ _ Hl) as (-> & Hcls).
      split; [assumption|]. intros Hs. apply Hcls.
      now rewrite (store_shaped_files _ _ _ Hfiles). }
  simpl py_getitem. rewrite Hget.
  destruct (load_expenses_ok _ _ _ _ Hl) as [Hnd Hcases].
  destruct (py_append items _) as [items'|?] eqn:Happ.
  - destruct (write_json _ _ _) as [[[]|?] w2] eqn:Hw; [discriminate|].
    intros H; inversion H; subst.
    destruct (write_json_raise _ _ _ _ _ Hw) as (-> & Hos).
    destruct Hcases as [(-> & _)|(Hnone & _ & ->)].
    + split; [|intros _; now rewrite Hos, orb_true_r].
      destruct Hsame. split; assumption.
    + exfalso.
      destruct (write_json_existing (expenses_path u)
                  (PDict [("expenses", items')])
                  (tick (set_files (after_date payload w)
                     (<[expenses_path u :=
                          file_of (PDict [("expenses", PList [])])]>
                        (w_files (after_date payload w)))))
                  (file_of (PDict [("expenses", PList [])])))
        as [w3 Hw3]; [exact Hnd|simpl; apply lookup_insert_eq|reflexivity|].
      rewrite Hw3 in Hw. discriminate Hw.
  - intros H; inversion H; subst.
    destruct items; simpl in Happ; try discriminate Happ; inversion Happ; subst.
    all: destruct Hcases as [(-> & f0 & d0 & Hf & Hdata & Hv)|(_ & Hv & _)];
      [|discriminate Hv].
    all: split; [destruct Hsame; split; assumption|].
    all: intros Hs; rewrite <- (store_shaped_files _ _ _ Hfiles) in Hs.
    all: unfold store_shaped in Hs; rewrite Hf, Hdata, <- Hv in Hs.
    all: discriminate Hs.
Qed.



(** ** Decimal fields *)

Lemma code_chr n : 0 <= n < 256 -> code (chr n) = n.
Proof.
  intros H. unfold code, chr.
  rewrite N_ascii_embedding by lia. lia.
Qed.

Lemma code_range c : 0 <= code c < 256.
Proof.
  unfold code. pose proof (N_ascii_bounded c). lia.
Qed.

Lemma digit_chr_is_digit d : 0 <= d < 10 -> is_digit (digit_chr d) = true.
Proof.
  intros H. unfold is_digit, digit_chr. rewrite code_chr by lia.
  apply andb_true_intro. split; apply Z.leb_le; lia.
Qed.

Lemma digit_chr_val d : 0 <= d < 10 -> digit_val (digit_chr d) = d.
Proof.
  intros H. unfold digit_val, digit_chr. rewrite code_chr by lia. lia.
Qed.

Lemma digit_chr_code d : 0 <= d < 10 -> code (digit_chr d) = 48 + d.
Proof. intros H. unfold digit_chr. apply code_chr. lia. Qed.

Lemma mod_pow10_succ k n :
  0 <= n ->
  k mod 10 ^ (n + 1) = (k / 10 ^ n) mod 10 * 10 ^ n + k mod 10 ^ n.
Proof.
  intros Hn. rewrite Z.pow_add_r, Z.pow_1_r by lia.
  rewrite Z.rem_mul_r by lia. lia.
Qed.

Lemma append_cons c r s : String c r +:+ s = String c (r +:+ s).
Proof. reflexivity. Qed.

Lemma append_empty_r s : s +:+ "" = s.
Proof.
  induction s as [|c s IH]; [reflexivity|]. now rewrite append_cons, IH.
Qed.

Lemma parse_digits_digits_of n acc k s :
  parse_digits n acc (digits_of n k +:+ s)
  = Some (acc * 10 ^ Z.of_nat n + k mod 10 ^ Z.of_nat n, s).
Proof.
  revert acc. induction n as [|n IH]; intros acc.
  - simpl. rewrite Z.mod_1_r. do 2 f_equal. lia.
  - cbn [digits_of]. rewrite append_cons. cbn [parse_digits].
    assert (Hd : 0 <= (k / 10 ^ Z.of_nat n) mod 10 < 10)
      by (apply Z.mod_pos_bound; lia).
    rewrite (digit_chr_is_digit _ Hd), (digit_chr_val _ Hd), IH.
    do 2 f_equal. rewrite Nat2Z.inj_succ, <- Z.add_1_r.
    rewrite (mod_pow10_succ k (Z.of_nat n)) by lia.
    rewrite Z.pow_add_r, Z.pow_1_r by lia. ring.
Qed.

Lemma ndigits_fuel_le f k n :
  (1 <= n)%nat -> 0 <= k < 10 ^ Z.of_nat n -> (ndigits_fuel f k <= n)%nat.
Proof.
  revert k n. induction f as [|f IH]; intros k n Hn Hk; simpl; [lia|].
  destruct (k <? 10) eqn:E; [lia|]. apply Z.ltb_ge in E.
  destruct n as [|[|n]]; [lia| |].
  - simpl in Hk. lia.
  - apply le_n_S, IH; [lia|].
    rewrite Nat2Z.inj_succ, Z.pow_succ_r in Hk by lia.
    split; [apply Z.div_pos; lia|].
    apply Z.div_lt_upper_bound; lia.
Qed.

(** A field that fits its width is written with exactly that many
    digits. *)
Lemma fmt_d_fits n k :
  (1 <= n)%nat -> 0 <= k < 10 ^ Z.of_nat n -> fmt_d n k = digits_of n k.
Proof.
  intros Hn Hk. unfold fmt_d, ndigits.
  pose proof (ndigits_fuel_le (Z.to_nat (Z.log2 k)) k n Hn Hk).
  f_equal. lia.
Qed.

Lemma utf8_len_digits_of n k s :
  utf8_len (digits_of n k +:+ s) = Z.of_nat n + utf8_len s.
Proof.
  induction n as [|n IH]; [reflexivity|].
  cbn [digits_of]. rewrite append_cons. cbn [utf8_len]. rewrite IH.
  assert (Hd : 0 <= (k / 10 ^ Z.of_nat n) mod 10 < 10)
    by (apply Z.mod_pos_bound; lia).
  rewrite (digit_chr_code _ Hd).
  destruct (48 + _ <? 128) eqn:E; [lia|]. apply Z.ltb_ge in E. lia.
Qed.

Lemma head_is_digits_of c n k s :
  is_digit c = false -> head_is c (digits_of (S n) k +:+ s) = false.
Proof.
  intros Hc. cbn [digits_of]. rewrite append_cons. cbn [head_is].
  apply Ascii.eqb_neq. intros E. subst c.
  rewrite digit_chr_is_digit in Hc; [discriminate|].
  apply Z.mod_pos_bound; lia.
Qed.

Lemma valid_ymd_bounds y m d :
  valid_ymd y m d = true ->
  0 <= y < 10 ^ 4 /\ 0 <= m < 10 ^ 2 /\ 0 <= d < 10 ^ 2.
Proof.
  unfold valid_ymd, days_in_month. intros H.
  repeat (apply andb_prop in H; destruct H as [H ?]).
  repeat match goal with
         | H : (_ <=? _) = true |- _ => apply Z.leb_le in H
         end.
  destruct (m =? 2); [destruct (is_leap y)|destruct (_ || _)]; lia.
Qed.

(** Today's date, as [today_iso] writes it, passes [validate_date_iso]. *)
Lemma isoformat_fits t :
  valid_ymd (dt_year t) (dt_month t) (dt_day t) = true ->
  isoformat t
  = digits_of 4 (dt_year t)
    +:+ String "-" (digits_of 2 (dt_month t)
    +:+ String "-" (digits_of 2 (dt_day t) +:+ "")).
Proof.
  intros Hv. destruct (valid_ymd_bounds _ _ _ Hv) as (Hy & Hm & Hd).
  unfold isoformat.
  rewrite (fmt_d_fits 4), !(fmt_d_fits 2) by (assumption || lia).
  now rewrite append_empty_r.
Qed.

Lemma date_fromisoformat_isoformat t :
  valid_ymd (dt_year t) (dt_month t) (dt_day t) = true ->
  date_fromisoformat (isoformat t) = true.
Proof.
  intros Hv. destruct (valid_ymd_bounds _ _ _ Hv) as (Hy & Hm & Hd).
  rewrite (isoformat_fits t Hv). unfold date_fromisoformat.
  rewrite utf8_len_digits_of. cbn [utf8_len].
  rewrite utf8_len_digits_of. cbn [utf8_len].
  rewrite utf8_len_digits_of.
  change ((Z.of_nat 4 + ((if code "-" <? 128 then 1 else 2) +
            (Z.of_nat 2 + ((if code "-" <? 128 then 1 else 2) +
               (Z.of_nat 2 + utf8_len ""))))) =? 7) with false.
  change ((Z.of_nat 4 + ((if code "-" <? 128 then 1 else 2) +
            (Z.of_nat 2 + ((if code "-" <? 128 then 1 else 2) +
               (Z.of_nat 2 + utf8_len ""))))) =? 8) with false.
  change ((Z.of_nat 4 + ((if code "-" <? 128 then 1 else 2) +
            (Z.of_nat 2 + ((if code "-" <? 128 then 1 else 2) +
               (Z.of_nat 2 + utf8_len ""))))) =? 10) with true.
  cbn [orb].
  rewrite parse_digits_digits_of.
  cbn [head_is tail Ascii.eqb Bool.eqb andb].
  rewrite head_is_digits_of by reflexivity.
  rewrite parse_digits_digits_of.
  cbn [skip_dash head_is tail Ascii.eqb Bool.eqb andb].
  rewrite parse_digits_digits_of.
  rewrite !Z.mod_small by assumption.
  exact Hv.
Qed.

Lemma validate_date_iso_today t :
  valid_datetime t = true -> validate_date_iso (PStr (isoformat t)) = Ok tt.
Proof.
  intros H. unfold valid_datetime in H.
  do 8 (apply andb_prop in H; destruct H as [H _]).
  unfold validate_date_iso, py_date_fromisoformat.
  now rewrite (date_fromisoformat_isoformat t H).
Qed.

(** ** The date of an entry *)

Lemma store_ready_files w w' u :
  w_files w' = w_files w -> w_dirs w' = w_dirs w ->
  store_ready w' u = store_ready w u.
Proof. unfold store_ready. now intros -> ->. Qed.

(** On a ready store, loading gives a list and a world in which the
    document exists and may be written. *)
Lemma load_expenses_ready u w :
  store_ready w u = true ->
  exists l w1 f,
    load_expenses u w = (Ok (PList l), w1)
    /\ (expenses_path u ∉ w_dirs w1)
    /\ w_files w1 !! expenses_path u = Some f
    /\ f_writable f = true.
Proof.
  unfold store_ready. intros H. apply andb_prop in H. destruct H as [Hd H].
  apply negb_true_iff, bool_decide_eq_false_1 in Hd.
  destruct (w_files w !! expenses_path u) as [f|] eqn:Hf.
  - rewrite (load_expenses_present u w f Hd Hf).
    apply andb_prop in H. destruct H as [H Hdata].
    apply andb_prop in H. destruct H as [Hr Hw]. rewrite Hr.
    destruct (f_data f) as [[| | | | | |d]|]; try discriminate Hdata.
    simpl. destruct (get_or d "expenses" (PList [])); try discriminate Hdata.
    eauto 10.
  - rewrite (load_expenses_missing u w Hd Hf), H.
    eexists _, _, _. split; [reflexivity|]. split; [exact Hd|].
    split; [apply lookup_insert_eq|reflexivity].
Qed.

(** [add_expense] returns an id when the three validators accept the
    payload and the store is ready. *)
Lemma add_expense_succeeds repr u payload w :
  validate_date_iso (resolved_date payload w) = Ok tt ->
  is_ok (validate_amount_positive (get_or_None payload "amount")) = true ->
  is_ok (validate_required_text repr (get_or_None payload "category")
           "category") = true ->
  store_ready w u = true ->
  exists eid w', add_expense repr u payload w = (Ok eid, w').
Proof.
  intros Hd Ha Hc Hs. rewrite add_expense_unfold. cbv zeta. rewrite Hd.
  destruct (validate_amount_positive _) as [a|]; [|discriminate Ha].
  destruct (validate_required_text _ _ _) as [[]|] eqn:Hc'; [|discriminate Hc].
  destruct (required_text_present _ _ _ _ Hc') as (c & Hget & _).
  destruct (after_date_frame payload w) as (Hfiles & Hdirs & _).
  rewrite <- (store_ready_files _ _ u Hfiles Hdirs) in Hs.
  destruct (load_expenses_ready _ _ Hs) as (l & w1 & f & -> & Hnd & Hf & Hw).
  simpl py_getitem. rewrite Hget. simpl py_append. cbv beta iota.
  destruct (write_json_existing (expenses_path u)
              (PDict [("expenses",
                 PList (l ++ [entry_for repr payload
                    ("exp_" +:+ strftime_id (w_clock w1 (w_ticks w1)))
                    (resolved_date payload w) a c]))])
              (tick w1) f Hnd Hf Hw) as [w2 ->].
  eauto.
Qed.

Lemma resolved_date_absent payload w :
  dict_get payload "date" = None -> resolved_date payload w = clock_date w.
Proof.
  intros H. unfold resolved_date, get_or_None, get_or. now rewrite H.
Qed.

(** C5, as the code has it.  [add_expense] gives the entry the payload's
    date when that is truthy and today's date, read from the clock, when
    it is absent or falsy; the date it gives has passed
    [validate_date_iso], and an invalid one stops the call with a
    [ValueError].  A payload with no date, an amount and a category the
    validators accept, on a store that is ready, persists an entry dated
    today. *)
Theorem add_expense_date (repr : pyval -> string) (u : string)
    (payload : pydict) (w : world) :
  valid_datetime (w_clock w (w_ticks w)) = true ->
  (forall eid w',
      add_expense repr u payload w = (Ok eid, w') ->
      exists old entry,
        stored_items w' u = Some (old ++ [entry])
        /\ py_getitem entry "date"
           = Ok (if truthy (get_or_None payload "date")
                 then get_or_None payload "date"
                 else PStr (isoformat (w_clock w (w_ticks w))))
        /\ validate_date_iso (resolved_date payload w) = Ok tt)
  /\ (is_ok (validate_date_iso (resolved_date payload w)) = false ->
      add_expense repr u payload w
      = (Raise (ValueError "date must be in format YYYY-MM-DD"),
         after_date payload w))
  /\ (dict_get payload "date" = None ->
      is_ok (validate_amount_positive (get_or_None payload "amount")) = true ->
      is_ok (validate_required_text repr (get_or_None payload "category")
               "category") = true ->
      store_ready w u = true ->
      exists eid w' old entry,
        add_expense repr u payload w = (Ok eid, w')
        /\ stored_items w' u = Some (old ++ [entry])
        /\ py_getitem entry "date" = Ok (PStr (isoformat (w_clock w (w_ticks w))))).
Proof.
  intros Hclock.
  assert (Hok : forall eid w',
      add_expense repr u payload w = (Ok eid, w') ->
      exists old entry,
        stored_items w' u = Some (old ++ [entry])
        /\ py_getitem entry "date" = Ok (resolved_date payload w)
        /\ validate_date_iso (resolved_date payload w) = Ok tt).
  { intros eid w' H.
    destruct (add_expense_ok _ _ _ _ _ _ H)
      as (a & c & old & w1 & Hd & _ & _ & _ & _ & _ & _ & Hnew & _).
    eexists _, _. split; [exact Hnew|]. split; [reflexivity|exact Hd]. }
  split; [exact Hok|]. split.
  - intros Hbad. rewrite add_expense_unfold. cbv zeta.
    unfold validate_date_iso in *.
    destruct (py_date_fromisoformat _); [discriminate Hbad|reflexivity].
  - intros Hnone Ha Hc Hs.
    assert (Hd : validate_date_iso (resolved_date payload w) = Ok tt).
    { rewrite (resolved_date_absent _ _ Hnone).
      exact (validate_date_iso_today _ Hclock). }
    destruct (add_expense_succeeds repr u payload w Hd Ha Hc Hs) as (eid & w' & H).
    destruct (Hok eid w' H) as (old & entry & Hnew & Hdate & _).
    rewrite (resolved_date_absent _ _ Hnone) in Hdate.
    exists eid, w', old, entry. auto.
Qed.

Lemma add_expense_date_witness :
  valid_datetime (w_clock world_fresh (w_ticks world_fresh)) = true
  /\ dict_get payload_no_date "date" = None
  /\ exists eid w' old entry,
       add_expense repr_example "alice" payload_no_date world_fresh = (Ok eid, w')
       /\ stored_items w' "alice" = Some (old ++ [entry])
       /\ py_getitem entry "date" = Ok (PStr "2025-09-07").
Proof.
  split; [reflexivity|]. split; [reflexivity|].
  exact (proj2 (proj2 (add_expense_date repr_example "alice" payload_no_date
                         world_fresh eq_refl))
           eq_refl eq_refl eq_refl eq_refl).
Defined.

(** C5 as stated fails: a payload whose date is present and empty does
    not have its date validated and rejected; the entry is persisted with
    today's date. *)
Lemma add_expense_empty_date_uses_today :
  dict_get payload_empty_date "date" = Some (PStr "")
  /\ validate_date_iso (PStr "")
     = Raise (ValueError "date must be in format YYYY-MM-DD")
  /\ fst (add_expense repr_example "alice" payload_empty_date world_fresh)
     = Ok "exp_20250907_153045000124"
  /\ stored_items
       (snd (add_expense repr_example "alice" payload_empty_date world_fresh))
       "alice"
     = Some [entry_for repr_example payload_empty_date
               "exp_20250907_153045000124" (PStr "2025-09-07")
               (S754_finite false 5629499534213120 (-49)) (PStr "Food")].
Proof. repeat split; vm_compute; reflexivity. Qed.

(** ** The order of strings and of [(date, id)] pairs *)

Lemma ascii_compare_refl c : Ascii.compare c c = Eq.
Proof. apply N.compare_refl. Qed.

Lemma str_compare_refl s : String.compare s s = Eq.
Proof.
  induction s as [|c s IH]; [reflexivity|].
  simpl. now rewrite ascii_compare_refl.
Qed.

Lemma str_compare_eq s t : String.compare s t = Eq <-> s = t.
Proof.
  split; [apply String.compare_eq_iff|]. intros ->. apply str_compare_refl.
Qed.

Lemma ascii_compare_lt_trans a b c :
  Ascii.compare a b = Lt -> Ascii.compare b c = Lt -> Ascii.compare a c = Lt.
Proof.
  unfold Ascii.compare. rewrite !N.compare_lt_iff. lia.
Qed.

Lemma str_compare_lt_trans s t r :
  String.compare s t = Lt -> String.compare t r = Lt ->
  String.compare s r = Lt.
Proof.
  revert t r. induction s as [|a s IH]; intros [|b t] [|c r]; simpl;
    try discriminate; try reflexivity.
  destruct (Ascii.compare a b) eqn:Hab; try discriminate;
    destruct (Ascii.compare b c) eqn:Hbc; try discriminate; intros H1 H2.
  - apply Ascii.compare_eq_iff in Hab, Hbc. subst.
    rewrite ascii_compare_refl. eapply IH; eassumption.
  - apply Ascii.compare_eq_iff in Hab. subst. now rewrite Hbc.
  - apply Ascii.compare_eq_iff in Hbc. subst. now rewrite Hab.
  - now rewrite (ascii_compare_lt_trans a b c Hab Hbc).
Qed.

Lemma pair_compare_antisym a b :
  pair_compare a b = CompOpp (pair_compare b a).
Proof.
  unfold pair_compare.
  rewrite (String.compare_antisym (fst a)), (String.compare_antisym (snd a)).
  destruct (String.compare (fst b) (fst a)); reflexivity.
Qed.

Lemma pair_compare_lt_trans a b c :
  pair_compare a b = Lt -> pair_compare b c = Lt -> pair_compare a c = Lt.
Proof.
  unfold pair_compare.
  destruct (String.compare (fst a) (fst b)) eqn:Hab; try discriminate;
    destruct (String.compare (fst b) (fst c)) eqn:Hbc; try discriminate;
    intros H1 H2.
  - apply str_compare_eq in Hab, Hbc. rewrite Hab, Hbc, str_compare_refl.
    eapply str_compare_lt_trans; eassumption.
  - apply str_compare_eq in Hab. now rewrite Hab, Hbc.
  - apply str_compare_eq in Hbc. now rewrite <- Hbc, Hab.
  - now rewrite (str_compare_lt_trans _ _ _ Hab Hbc).
Qed.

Lemma pair_ge_compare a b :
  pair_ge a b = match pair_compare a b with Lt => false | _ => true end.
Proof.
  unfold pair_ge, pair_compare, str_le.
  rewrite (String.compare_antisym (snd b)).
  destruct (String.compare (fst a) (fst b)); try reflexivity.
  destruct (String.compare (snd a) (snd b)); reflexivity.
Qed.

Lemma pair_ge_total a b : pair_ge a b = false -> pair_ge b a = true.
Proof.
  rewrite !pair_ge_compare, (pair_compare_antisym b a).
  destruct (pair_compare a b); simpl; congruence.
Qed.

Lemma pair_compare_eq a b : pair_compare a b = Eq -> a = b.
Proof.
  unfold pair_compare. destruct a as [a1 a2], b as [b1 b2]. simpl.
  destruct (String.compare a1 b1) eqn:E; try discriminate.
  intros H. apply str_compare_eq in E, H. congruence.
Qed.

Lemma pair_compare_gt_lt a b : pair_compare a b = Gt -> pair_compare b a = Lt.
Proof. rewrite (pair_compare_antisym b a). now intros ->. Qed.

Lemma pair_ge_trans a b c :
  pair_ge a b = true -> pair_ge b c = true -> pair_ge a c = true.
Proof.
  rewrite !pair_ge_compare.
  destruct (pair_compare a c) eqn:Hac; try reflexivity. intros Hab Hbc.
  exfalso.
  destruct (pair_compare a b) eqn:E1; try discriminate;
    destruct (pair_compare b c) eqn:E2; try discriminate.
  - apply pair_compare_eq in E1, E2. subst.
    unfold pair_compare in Hac. rewrite !str_compare_refl in Hac. discriminate.
  - apply pair_compare_eq in E1. subst. congruence.
  - apply pair_compare_eq in E2. subst. congruence.
  - apply pair_compare_gt_lt in E1, E2.
    pose proof (pair_compare_lt_trans _ _ _ E2 E1) as H.
    rewrite pair_compare_antisym, Hac in H. discriminate.
Qed.

(** On strings, the key order of the sort is the order of the pairs. *)
Lemma key_lt_strings d1 i1 d2 i2 :
  key_lt (PStr d1, PStr i1) (PStr d2, PStr i2)
  = Ok (negb (pair_ge (d1, i1) (d2, i2))).
Proof.
  unfold key_lt, py_lt, pair_ge. cbn [fst snd py_eq py_compare rbind is_Lt].
  unfold str_le. rewrite (String.compare_antisym i2 i1).
  destruct (String.eqb_spec d1 d2) as [->|Hd].
  - rewrite str_compare_refl.
    destruct (String.eqb_spec i1 i2) as [->|Hi].
    + now rewrite str_compare_refl.
    + destruct (String.compare i1 i2); reflexivity.
  - destruct (String.compare d1 d2) eqn:E; try reflexivity.
    apply str_compare_eq in E. contradiction.
Qed.

(** ** Filtering and sorting *)

Lemma filterM_In p l k :
  filterM p l = Ok k -> forall e, In e k -> In e l /\ p e = Ok true.
Proof.
  revert k. induction l as [|x l IH]; simpl; intros k H e He.
  - inversion H; subst. contradiction.
  - destruct (p x) as [keep|] eqn:Hp; simpl in H; [|discriminate].
    destruct (filterM p l) as [rest|]; simpl in H; [|discriminate].
    inversion H; subst; clear H.
    destruct keep.
    + destruct He as [<-|He]; [auto|]. destruct (IH _ eq_refl e He). auto.
    + destruct (IH _ eq_refl e He). auto.
Qed.

Lemma filterM_pure p f l :
  (forall e, In e l -> p e = Ok (f e)) ->
  filterM p l = Ok (List.filter f l).
Proof.
  induction l as [|x l IH]; intros H; simpl; [reflexivity|].
  rewrite (H x) by now left. simpl.
  rewrite IH by (intros e He; apply H; now right). simpl.
  destruct (f x); reflexivity.
Qed.

Lemma insert_desc_perm x l r :
  insert_desc x l = Ok r -> Permutation r (x :: l).
Proof.
  revert r. induction l as [|y l IH]; simpl; intros r H.
  - inversion H. reflexivity.
  - destruct (key_lt (fst x) (fst y)) as [[|]|]; simpl in H; try discriminate.
    + destruct (insert_desc x l) as [r'|]; simpl in H; [|discriminate].
      inversion H; subst. rewrite (IH r' eq_refl). apply perm_swap.
    + inversion H. reflexivity.
Qed.

Lemma sort_desc_perm l s : sort_desc l = Ok s -> Permutation s l.
Proof.
  revert s. induction l as [|x l IH]; simpl; intros s H.
  - inversion H. reflexivity.
  - destruct (sort_desc l) as [s'|]; simpl in H; [|discriminate].
    rewrite (insert_desc_perm _ _ _ H). constructor. now apply IH.
Qed.

Lemma mapM_keyed_snd l ks :
  mapM (fun e => (let* k := sort_key e in Ok (k, e))%res) l = Ok ks ->
  map snd ks = l.
Proof.
  revert ks. induction l as [|x l IH]; simpl; intros ks H.
  - inversion H. reflexivity.
  - destruct (sort_key x) as [k|]; simpl in H; [|discriminate].
    destruct (mapM _ l) as [ks'|]; simpl in H; [|discriminate].
    inversion H; subst. simpl. f_equal. now apply IH.
Qed.

(** What [list_expenses] returns is a rearrangement of what it sorted. *)
Lemma sort_newest_first_perm items r :
  sort_newest_first items = Ok r ->
  exists l, items = PList l /\ Permutation r l.
Proof.
  unfold sort_newest_first. destruct items; try discriminate.
  destruct (mapM _ l) as [ks|] eqn:Hk; simpl; [|discriminate].
  destruct (sort_desc ks) as [s|] eqn:Hs; simpl; [|discriminate].
  intros H; inversion H; subst. exists l. split; [reflexivity|].
  rewrite <- (mapM_keyed_snd _ _ Hk).
  apply Permutation_map, sort_desc_perm, Hs.
Qed.

Lemma entry_fields_wf e :
  wf_entry e = true ->
  py_getitem e "date" = Ok (PStr (entry_date e))
  /\ py_getitem e "id" = Ok (PStr (entry_id e))
  /\ py_getitem e "category" = Ok (PStr (entry_category e)).
Proof.
  unfold wf_entry, entry_date, entry_id, entry_category, entry_fields.
  destruct e; try discriminate. simpl.
  destruct (dict_get d "date") as [[]|]; try discriminate.
  destruct (dict_get d "id") as [[]|]; try discriminate.
  destruct (dict_get d "category") as [[]|]; try discriminate.
  auto.
Qed.

Lemma sort_key_wf e :
  wf_entry e = true -> sort_key e = Ok (fst (keyed e)).
Proof.
  intros He. destruct (entry_fields_wf e He) as (Hd & Hi & _).
  unfold sort_key. now rewrite Hd, Hi.
Qed.

Lemma mapM_keyed_wf l :
  Forall (fun e => wf_entry e = true) l ->
  mapM (fun e => (let* k := sort_key e in Ok (k, e))%res) l
  = Ok (map keyed l).
Proof.
  induction 1 as [|e l He _ IH]; simpl; [reflexivity|].
  rewrite (sort_key_wf e He), IH. reflexivity.
Qed.

Lemma key_lt_keyed x y :
  key_lt (fst (keyed x)) (fst (keyed y))
  = Ok (negb (pair_ge (entry_pair x) (entry_pair y))).
Proof. apply key_lt_strings. Qed.

Lemma insert_desc_keyed e l :
  exists r,
    insert_desc (keyed e) (map keyed l) = Ok (map keyed r)
    /\ Permutation r (e :: l)
    /\ (newest_first l -> newest_first r).
Proof.
  induction l as [|y l (r & Hr & Hp & Hs)]; cbn [map insert_desc].
  - exists [e]. repeat split; auto. intros _. repeat constructor.
  - rewrite key_lt_keyed.
    destruct (pair_ge (entry_pair e) (entry_pair y)) eqn:Hge; simpl.
    + exists (e :: y :: l). repeat split; auto.
      intros Hl. constructor; [exact Hl|].
      constructor; [exact Hge|].
      apply StronglySorted_inv in Hl. destruct Hl as [_ Hall].
      revert Hall. apply List.Forall_impl. intros z Hz.
      eapply pair_ge_trans; eassumption.
    + rewrite Hr. simpl. exists (y :: r). split; [reflexivity|].
      split; [rewrite Hp; apply perm_swap|].
      intros Hl. apply StronglySorted_inv in Hl. destruct Hl as [Hl Hall].
      constructor; [exact (Hs Hl)|].
      rewrite Hp. constructor; [|exact Hall]. now apply pair_ge_total.
Qed.

Lemma sort_desc_keyed l :
  exists r,
    sort_desc (map keyed l) = Ok (map keyed r)
    /\ Permutation r l /\ newest_first r.
Proof.
  induction l as [|e l (s & Hs & Hp & Hn)]; cbn [map sort_desc].
  - exists []. repeat split; auto. constructor.
  - rewrite Hs. simpl.
    destruct (insert_desc_keyed e s) as (r & Hr & Hpr & Hnr).
    exists r. split; [exact Hr|]. split; [|auto].
    rewrite Hpr. now constructor.
Qed.

Lemma map_snd_keyed l : map snd (map keyed l) = l.
Proof. rewrite map_map. simpl. apply map_id. Qed.

(** Sorting well-formed entries succeeds and puts the newest first. *)
Lemma sort_newest_first_wf l :
  Forall (fun e => wf_entry e = true) l ->
  exists r,
    sort_newest_first (PList l) = Ok r
    /\ Permutation r l /\ newest_first r.
Proof.
  intros Hwf. unfold sort_newest_first. rewrite (mapM_keyed_wf l Hwf). simpl.
  destruct (sort_desc_keyed l) as (r & -> & Hp & Hn). simpl.
  exists r. rewrite map_snd_keyed. auto.
Qed.

(** ** [list_expenses] *)

Lemma filter_all_true {A} (f : A -> bool) (l : list A) :
  (forall x, f x = true) -> List.filter f l = l.
Proof.
  intros H. induction l as [|x l IH]; simpl; [reflexivity|].
  now rewrite H, IH.
Qed.

Lemma filter_twice {A} (f g : A -> bool) (l : list A) :
  List.filter g (List.filter f l) = List.filter (fun x => f x && g x) l.
Proof.
  induction l as [|x l IH]; simpl; [reflexivity|].
  destruct (f x); simpl; [destruct (g x)|]; now rewrite IH.
Qed.

Lemma Forall_filter_keeps {A} (P : A -> Prop) (f : A -> bool) (l : list A) :
  Forall P l -> Forall P (List.filter f l).
Proof.
  induction 1 as [|x l Hx _ IH]; simpl; [constructor|].
  destruct (f x); [constructor|]; assumption.
Qed.

Lemma is_Ge_compare d lo :
  is_Ge (Some (String.compare d lo)) = str_le lo d.
Proof.
  unfold str_le. rewrite (String.compare_antisym lo d).
  destruct (String.compare d lo); reflexivity.
Qed.

Lemma keep_where_wf field test bound (f : pyval -> bool) l :
  (forall e, In e l ->
     (let* x := py_getitem e field in test x bound)%res = Ok (f e)) ->
  keep_where field test bound (PList l) = Ok (PList (List.filter f l)).
Proof.
  intros H. unfold keep_where. simpl.
  now rewrite (filterM_pure _ f l H).
Qed.

Lemma from_date_step f l :
  Forall (fun e => wf_entry e = true) l ->
  is_str_or_absent (dict_get f "from_date") = true ->
  match dict_get f "from_date" with
  | Some bound => keep_where "date" py_ge bound (PList l)
  | None => Ok (PList l)
  end = Ok (PList (List.filter (from_ok f) l)).
Proof.
  intros Hwf Hs. unfold from_ok.
  destruct (dict_get f "from_date") as [[| | | |lo| |]|]; try discriminate Hs.
  - apply keep_where_wf. intros e He.
    rewrite List.Forall_forall in Hwf.
    destruct (entry_fields_wf e (Hwf e He)) as (-> & _). simpl.
    unfold py_ge. cbn [py_compare rbind]. now rewrite is_Ge_compare.
  - now rewrite filter_all_true.
Qed.

Lemma to_date_step f l :
  Forall (fun e => wf_entry e = true) l ->
  is_str_or_absent (dict_get f "to_date") = true ->
  match dict_get f "to_date" with
  | Some bound => keep_where "date" py_le bound (PList l)
  | None => Ok (PList l)
  end = Ok (PList (List.filter (to_ok f) l)).
Proof.
  intros Hwf Hs. unfold to_ok.
  destruct (dict_get f "to_date") as [[| | | |hi| |]|]; try discriminate Hs.
  - apply keep_where_wf. intros e He.
    rewrite List.Forall_forall in Hwf.
    destruct (entry_fields_wf e (Hwf e He)) as (-> & _). reflexivity.
  - now rewrite filter_all_true.
Qed.

Lemma category_step f l :
  Forall (fun e => wf_entry e = true) l ->
  match dict_get f "category" with
  | Some wanted =>
      keep_where "category" (fun x y => Ok (py_eq x y)) wanted (PList l)
  | None => Ok (PList l)
  end = Ok (PList (List.filter (category_ok f) l)).
Proof.
  intros Hwf. unfold category_ok.
  destruct (dict_get f "category") as [wanted|].
  - apply keep_where_wf. intros e He.
    rewrite List.Forall_forall in Hwf.
    destruct (entry_fields_wf e (Hwf e He)) as (_ & _ & ->). reflexivity.
  - now rewrite filter_all_true.
Qed.

(** On well-formed entries the three comprehensions keep the entries that
    satisfy the filters. *)
Lemma apply_filters_wf filters l :
  Forall (fun e => wf_entry e = true) l ->
  wf_filters filters = true ->
  apply_filters filters (PList l)
  = Ok (PList (List.filter (satisfies filters) l)).
Proof.
  intros Hwf Hf. unfold apply_filters, satisfies.
  destruct filters as [f|]; [|now rewrite filter_all_true].
  destruct f as [|kv f'] eqn:Ef;
    [rewrite filter_all_true by reflexivity; reflexivity|].
  rewrite <- Ef in *. replace (truthy (PDict f)) with true by now rewrite Ef.
  unfold wf_filters in Hf. apply andb_prop in Hf. destruct Hf as [Hlo Hhi].
  rewrite (from_date_step f l Hwf Hlo). cbn [rbind].
  rewrite (to_date_step f _ (Forall_filter_keeps _ _ _ Hwf) Hhi). cbn [rbind].
  rewrite (category_step f _
             (Forall_filter_keeps _ _ _ (Forall_filter_keeps _ _ _ Hwf))).
  rewrite !filter_twice. do 2 f_equal. apply List.filter_ext.
  intros a. destruct (from_ok f a), (to_ok f a), (category_ok f a); reflexivity.
Qed.

(** A listing of well-formed entries: it succeeds, returns the entries
    that satisfy the filters, and returns them newest first. *)
Lemma list_expenses_wf u filters w items w1 :
  load_expenses u w = (Ok (PList items), w1) ->
  Forall (fun e => wf_entry e = true) items ->
  wf_filters filters = true ->
  exists r,
    list_expenses u filters w = (Ok r, w1)
    /\ Permutation r (List.filter (satisfies filters) items)
    /\ newest_first r.
Proof.
  intros Hl Hwf Hf. unfold list_expenses, bind, lift. rewrite Hl.
  rewrite (apply_filters_wf filters items Hwf Hf).
  destruct (sort_newest_first_wf _ (Forall_filter_keeps _ (satisfies filters) _ Hwf))
    as (r & -> & Hp & Hn).
  exists r. auto.
Qed.

(** Whatever the entries are, a listing with a category filter returns
    only entries whose category equals the one asked for. *)
Lemma list_expenses_category u f w l w' wanted :
  list_expenses u (Some f) w = (Ok l, w') ->
  dict_get f "category" = Some wanted ->
  forall e, In e l ->
    exists x, py_getitem e "category" = Ok x /\ py_eq x wanted = true.
Proof.
  unfold list_expenses, bind, lift. intros H Hc e He.
  destruct (load_expenses u w) as [[items|?] w1]; [|discriminate].
  unfold apply_filters in H.
  assert (Ht : truthy (PDict f) = true) by (destruct f; [discriminate Hc|reflexivity]).
  rewrite Ht, Hc in H.
  destruct (match dict_get f "from_date" with
            | Some bound => keep_where "date" py_ge bound items
            | None => Ok items end) as [i1|]; simpl in H; [|discriminate].
  destruct (match dict_get f "to_date" with
            | Some bound => keep_where "date" py_le bound i1
            | None => Ok i1 end) as [i2|]; simpl in H; [|discriminate].
  destruct (keep_where "category" _ wanted i2) as [i3|] eqn:Hk; [|discriminate].
  destruct (sort_newest_first i3) as [r|] eqn:Hs; inversion H; subst.
  destruct (sort_newest_first_perm _ _ Hs) as (kept & -> & Hp).
  unfold keep_where in Hk.
  destruct (py_iter i2) as [l2|]; simpl in Hk; [|discriminate].
  destruct (filterM _ l2) as [k|] eqn:Hfm; simpl in Hk; [|discriminate].
  inversion Hk; subst.
  assert (Hin : In e kept) by (eapply Permutation_in; eassumption).
  destruct (filterM_In _ _ _ Hfm e Hin) as (_ & Hp').
  destruct (py_getitem e "category") as [x|]; simpl in Hp'; [|discriminate].
  exists x. split; [reflexivity|]. now inversion Hp'.
Qed.

(** C3. Whatever the filters, [list_expenses] returns the entries of a
    collection sorted by [(date, id)] in descending order: the latest date
    first and, on one date, the greater id first. *)
Theorem list_expenses_sorted (u : string) (filters : option pydict)
    (w w1 : world) (items : list pyval) :
  load_expenses u w = (Ok (PList items), w1) ->
  Forall (fun e => wf_entry e = true) items ->
  wf_filters filters = true ->
  exists r, list_expenses u filters w = (Ok r, w1) /\ newest_first r.
Proof.
  intros Hl Hwf Hf.
  destruct (list_expenses_wf u filters w items w1 Hl Hwf Hf) as (r & Hr & _ & Hn).
  exists r. auto.
Qed.

Lemma list_expenses_sorted_witness :
  load_expenses "alice" world_same_date
  = (Ok (PList [entry_of "exp_a" "2024-03-05" "Food";
                entry_of "exp_b" "2024-03-05" "Bills"]), world_same_date)
  /\ list_expenses "alice" None world_same_date
     = (Ok [entry_of "exp_b" "2024-03-05" "Bills";
            entry_of "exp_a" "2024-03-05" "Food"], world_same_date)
  /\ newest_first [entry_of "exp_b" "2024-03-05" "Bills";
                   entry_of "exp_a" "2024-03-05" "Food"].
Proof.
  assert (Hl : load_expenses "alice" world_same_date
               = (Ok (PList [entry_of "exp_a" "2024-03-05" "Food";
                             entry_of "exp_b" "2024-03-05" "Bills"]),
                  world_same_date)) by reflexivity.
  assert (Hr : list_expenses "alice" None world_same_date
               = (Ok [entry_of "exp_b" "2024-03-05" "Bills";
                      entry_of "exp_a" "2024-03-05" "Food"], world_same_date))
    by reflexivity.
  split; [exact Hl|]. split; [exact Hr|].
  assert (Hwf : Forall (fun e => wf_entry e = true)
                  [entry_of "exp_a" "2024-03-05" "Food";
                   entry_of "exp_b" "2024-03-05" "Bills"])
    by (repeat constructor).
  destruct (list_expenses_sorted "alice" None world_same_date world_same_date
              _ Hl Hwf eq_refl) as (r & Hr' & Hn).
  rewrite Hr in Hr'. injection Hr' as <-. exact Hn.
Defined.

(** C4. [list_expenses] returns exactly the entries of the collection that
    satisfy every filter that is present: a date at or after [from_date],
    a date at or before [to_date], both compared as strings, and a category
    equal to [category]; all of them when no filter is present, and none,
    without an error, when none satisfies the filters. *)
Theorem list_expenses_filters (u : string) (filters : option pydict)
    (w w1 : world) (items : list pyval) :
  load_expenses u w = (Ok (PList items), w1) ->
  Forall (fun e => wf_entry e = true) items ->
  wf_filters filters = true ->
  exists r,
    list_expenses u filters w = (Ok r, w1)
    /\ Permutation r (List.filter (satisfies filters) items)
    /\ (forall e, In e r <-> In e items /\ satisfies filters e = true)
    /\ (no_filter filters = true -> Permutation r items)
    /\ (forallb (fun e => negb (satisfies filters e)) items = true -> r = []).
Proof.
  intros Hl Hwf Hf.
  destruct (list_expenses_wf u filters w items w1 Hl Hwf Hf) as (r & Hr & Hp & _).
  exists r. split; [exact Hr|]. split; [exact Hp|]. split; [|split].
  - intros e. rewrite <- List.filter_In. split; apply Permutation_in;
      [exact Hp|symmetry; exact Hp].
  - intros Hno. rewrite Hp. rewrite filter_all_true; [reflexivity|].
    intros e. destruct filters as [f|]; [|reflexivity].
    unfold no_filter, dict_has in Hno. unfold satisfies, from_ok, to_ok, category_ok.
    destruct (dict_get f "from_date"); [discriminate Hno|].
    destruct (dict_get f "to_date"); [discriminate Hno|].
    destruct (dict_get f "category"); [discriminate Hno|]. reflexivity.
  - intros Hnone. apply Permutation_nil. rewrite Hp.
    clear -Hnone. induction items as [|e l IH]; [reflexivity|].
    simpl in *. apply andb_prop in Hnone. destruct Hnone as [He Hl].
    apply negb_true_iff in He. rewrite He. auto.
Qed.

Lemma list_expenses_filters_witness :
  load_expenses "alice" world_three
  = (Ok (PList [entry_of "exp_1" "2024-01-01" "Food";
                entry_of "exp_2" "2024-01-15" "Bills";
                entry_of "exp_3" "2024-02-01" "Food"]), world_three)
  /\ list_expenses "alice" january world_three
     = (Ok [entry_of "exp_2" "2024-01-15" "Bills";
            entry_of "exp_1" "2024-01-01" "Food"], world_three)
  /\ Permutation
       [entry_of "exp_2" "2024-01-15" "Bills";
        entry_of "exp_1" "2024-01-01" "Food"]
       (List.filter (satisfies january)
          [entry_of "exp_1" "2024-01-01" "Food";
           entry_of "exp_2" "2024-01-15" "Bills";
           entry_of "exp_3" "2024-02-01" "Food"]).
Proof.
  assert (Hl : load_expenses "alice" world_three
               = (Ok (PList [entry_of "exp_1" "2024-01-01" "Food";
                             entry_of "exp_2" "2024-01-15" "Bills";
                             entry_of "exp_3" "2024-02-01" "Food"]),
                  world_three)) by reflexivity.
  assert (Hr : list_expenses "alice" january world_three
               = (Ok [entry_of "exp_2" "2024-01-15" "Bills";
                      entry_of "exp_1" "2024-01-01" "Food"], world_three))
    by reflexivity.
  split; [exact Hl|]. split; [exact Hr|].
  assert (Hwf : Forall (fun e => wf_entry e = true)
                  [entry_of "exp_1" "2024-01-01" "Food";
                   entry_of "exp_2" "2024-01-15" "Bills";
                   entry_of "exp_3" "2024-02-01" "Food"])
    by (repeat constructor).
  destruct (list_expenses_filters "alice" january world_three world_three
              _ Hl Hwf eq_refl) as (r & Hr' & Hp & _).
  rewrite Hr in Hr'. injection Hr' as <-. exact Hp.
Defined.

(** ** The category of an entry *)

Lemma validate_required_text_str repr s f :
  validate_required_text repr (PStr s) f = Ok tt <-> nonempty (strip s) = true.
Proof.
  unfold validate_required_text. cbn [truthy py_str].
  destruct s as [|c s]; [simpl; split; discriminate|].
  cbn [nonempty negb orb].
  destruct (strip (String c s)); simpl; split; congruence.
Qed.

(** C10. A category that is a string and not empty once trimmed passes
    validation, and [add_expense] stores it as it was given, white space at
    its ends included; so a listing filtered on a category that differs
    from it, be it only by that white space, does not return the entry. *)
Theorem add_expense_keeps_category (repr : pyval -> string) (u : string)
    (payload : pydict) (w : world) (s eid : string) (w' : world) :
  dict_get payload "category" = Some (PStr s) ->
  add_expense repr u payload w = (Ok eid, w') ->
  nonempty (strip s) = true
  /\ validate_required_text repr (PStr s) "category" = Ok tt
  /\ exists old entry,
       stored_items w' u = Some (old ++ [entry])
       /\ py_getitem entry "id" = Ok (PStr eid)
       /\ py_getitem entry "category" = Ok (PStr s)
       /\ forall (filters : pydict) (c : string) (l : list pyval) (w'' : world),
            dict_get filters "category" = Some (PStr c) ->
            c <> s ->
            list_expenses u (Some filters) w' = (Ok l, w'') ->
            ~ In entry l.
Proof.
  intros Hcat H.
  destruct (add_expense_ok _ _ _ _ _ _ H)
    as (a & c & old & w1 & _ & _ & Hc & Hget & _ & _ & _ & Hnew & _).
  rewrite Hcat in Hget. inversion Hget; subst c.
  split; [now apply (validate_required_text_str repr s "category")|].
  split; [exact Hc|].
  eexists _, _. split; [exact Hnew|]. split; [reflexivity|].
  split; [reflexivity|].
  intros filters c l w'' Hf Hne Hl Hin.
  destruct (list_expenses_category _ _ _ _ _ _ Hl Hf _ Hin) as (x & Hx & Heq).
  cbn in Hx. inversion Hx; subst x. cbn in Heq.
  apply String.eqb_eq in Heq. congruence.
Qed.

Lemma add_expense_keeps_category_witness :
  dict_get payload_spaced "category" = Some (PStr " Food ")
  /\ fst (add_expense repr_example "alice" payload_spaced world_fresh)
     = Ok "exp_20250907_153045000123"
  /\ nonempty (strip " Food ") = true
  /\ stored_items
       (snd (add_expense repr_example "alice" payload_spaced world_fresh))
       "alice"
     = Some [entry_for repr_example payload_spaced "exp_20250907_153045000123"
               (PStr "2024-01-15")
               (S754_finite false 7036874417766400 (-49)) (PStr " Food ")]
  /\ fst (list_expenses "alice" (Some [("category", PStr "Food")])
            (snd (add_expense repr_example "alice" payload_spaced world_fresh)))
     = Ok []
  /\ fst (list_expenses "alice" (Some [("category", PStr " Food ")])
            (snd (add_expense repr_example "alice" payload_spaced world_fresh)))
     = Ok [entry_for repr_example payload_spaced "exp_20250907_153045000123"
             (PStr "2024-01-15")
             (S754_finite false 7036874417766400 (-49)) (PStr " Food ")].
Proof.
  assert (Hrun : add_expense repr_example "alice" payload_spaced world_fresh
                 = (Ok "exp_20250907_153045000123",
                    snd (add_expense repr_example "alice" payload_spaced
                           world_fresh))) by reflexivity.
  destruct (add_expense_keeps_category repr_example "alice" payload_spaced
              world_fresh " Food " _ _ eq_refl Hrun) as (Hne & _).
  split; [reflexivity|]. split; [reflexivity|]. split; [exact Hne|].
  split; [reflexivity|]. split; reflexivity.
Defined.

(** ** Identifiers *)

Lemma ascii_compare_digits x y :
  0 <= x < 10 -> 0 <= y < 10 ->
  Ascii.compare (digit_chr x) (digit_chr y) = (x ?= y).
Proof.
  intros Hx Hy. unfold Ascii.compare. rewrite <- N2Z.inj_compare.
  change (Z.of_N (N_of_ascii (digit_chr x))) with (code (digit_chr x)).
  change (Z.of_N (N_of_ascii (digit_chr y))) with (code (digit_chr y)).
  rewrite (digit_chr_code x Hx), (digit_chr_code y Hy).
  apply Z.add_compare_mono_l.
Qed.

(** Fields of one width compare as the numbers they write. *)
Lemma compare_digits_of n a b s t :
  String.compare (digits_of n a +:+ s) (digits_of n b +:+ t)
  = match a mod 10 ^ Z.of_nat n ?= b mod 10 ^ Z.of_nat n with
    | Eq => String.compare s t
    | c => c
    end.
Proof.
  induction n as [|n IH].
  - simpl. now rewrite !Z.mod_1_r.
  - cbn [digits_of]. rewrite !append_cons. cbn [String.compare].
    set (da := (a / 10 ^ Z.of_nat n) mod 10).
    set (db := (b / 10 ^ Z.of_nat n) mod 10).
    assert (Ha : 0 <= da < 10) by (apply Z.mod_pos_bound; lia).
    assert (Hb : 0 <= db < 10) by (apply Z.mod_pos_bound; lia).
    rewrite (ascii_compare_digits da db Ha Hb), IH.
    rewrite Nat2Z.inj_succ, <- Z.add_1_r.
    rewrite (mod_pow10_succ a (Z.of_nat n)), (mod_pow10_succ b (Z.of_nat n)) by lia.
    fold da db.
    assert (Hp : 0 < 10 ^ Z.of_nat n) by (apply Z.pow_pos_nonneg; lia).
    pose proof (Z.mod_pos_bound a _ Hp) as Ma.
    pose proof (Z.mod_pos_bound b _ Hp) as Mb.
    destruct (Z.compare_spec da db) as [E|E|E].
    + rewrite E.
      destruct (Z.compare_spec (a mod 10 ^ Z.of_nat n) (b mod 10 ^ Z.of_nat n));
        destruct (Z.compare_spec (db * 10 ^ Z.of_nat n + a mod 10 ^ Z.of_nat n)
                    (db * 10 ^ Z.of_nat n + b mod 10 ^ Z.of_nat n));
        lia || reflexivity.
    + destruct (Z.compare_spec (da * 10 ^ Z.of_nat n + a mod 10 ^ Z.of_nat n)
                  (db * 10 ^ Z.of_nat n + b mod 10 ^ Z.of_nat n));
        nia || reflexivity.
    + destruct (Z.compare_spec (da * 10 ^ Z.of_nat n + a mod 10 ^ Z.of_nat n)
                  (db * 10 ^ Z.of_nat n + b mod 10 ^ Z.of_nat n));
        nia || reflexivity.
Qed.

Lemma compare_field n a b s t :
  0 <= a < 10 ^ Z.of_nat n -> 0 <= b < 10 ^ Z.of_nat n ->
  String.compare (digits_of n a +:+ s) (digits_of n b +:+ t)
  = match a ?= b with
    | Eq => String.compare s t
    | c => c
    end.
Proof.
  intros Ha Hb. rewrite compare_digits_of. now rewrite !Z.mod_small.
Qed.

Lemma ndigits_four k : 1000 <= k < 10000 -> ndigits k = 4%nat.
Proof.
  intros H. unfold ndigits.
  assert (Hl : 9 <= Z.log2 k) by (apply Z.log2_le_pow2; simpl; lia).
  destruct (Z.to_nat (Z.log2 k)) as [|[|[|f]]] eqn:E; try lia.
  cbn [ndigits_fuel].
  assert (H1 : (k <? 10) = false) by (apply Z.ltb_ge; lia).
  assert (H2 : (k / 10 <? 10) = false)
    by (apply Z.ltb_ge, Z.div_le_lower_bound; lia).
  assert (H3 : (k / 10 / 10 <? 10) = false).
  { apply Z.ltb_ge. rewrite Z.div_div by lia. apply Z.div_le_lower_bound; lia. }
  assert (H4 : (k / 10 / 10 / 10 <? 10) = true).
  { apply Z.ltb_lt. rewrite !Z.div_div by lia. apply Z.div_lt_upper_bound; lia. }
  rewrite H1, H2, H3. destruct f; cbn [ndigits_fuel]; [reflexivity|].
  now rewrite H4.
Qed.

Lemma valid_datetime_bounds t :
  valid_datetime t = true ->
  0 <= dt_year t < 10 ^ 4 /\ 0 <= dt_month t < 10 ^ 2
  /\ 0 <= dt_day t < 10 ^ 2 /\ 0 <= dt_hour t < 10 ^ 2
  /\ 0 <= dt_minute t < 10 ^ 2 /\ 0 <= dt_second t < 10 ^ 2
  /\ 0 <= dt_microsecond t < 10 ^ 6.
Proof.
  unfold valid_datetime. intros H.
  do 8 (apply andb_prop in H; destruct H as [H ?]).
  destruct (valid_ymd_bounds _ _ _ H) as (? & ? & ?).
  repeat match goal with
         | H : (_ <=? _) = true |- _ => apply Z.leb_le in H
         | H : (_ <? _) = true |- _ => apply Z.ltb_lt in H
         end.
  lia.
Qed.

(** With a four-digit year every field of an id has its fixed width. *)
Lemma strftime_id_fits t :
  valid_datetime t = true -> 1000 <= dt_year t ->
  strftime_id t
  = digits_of 4 (dt_year t) +:+ digits_of 2 (dt_month t)
    +:+ digits_of 2 (dt_day t) +:+ String "_" (digits_of 2 (dt_hour t)
    +:+ digits_of 2 (dt_minute t) +:+ digits_of 2 (dt_second t)
    +:+ digits_of 6 (dt_microsecond t) +:+ "").
Proof.
  intros Hv Hy.
  destruct (valid_datetime_bounds t Hv) as (By & Bm & Bd & BH & BM & BS & Bu).
  unfold strftime_id.
  rewrite !(fmt_d_fits 2), (fmt_d_fits 6) by (assumption || lia).
  unfold fmt_d. rewrite (ndigits_four (dt_year t)) by lia.
  now rewrite append_empty_r.
Qed.

Lemma lex_lt_cons x y a b :
  lex_lt (x :: a) (y :: b) = true ->
  x < y \/ (x = y /\ lex_lt a b = true).
Proof.
  simpl. intros H. apply orb_prop in H. destruct H as [H|H].
  - left. now apply Z.ltb_lt.
  - right. apply andb_prop in H. destruct H as [H1 H2].
    split; [now apply Z.eqb_eq|exact H2].
Qed.

(** A later reading makes a greater id. *)
Lemma strftime_id_lt s t :
  valid_datetime s = true -> 1000 <= dt_year s ->
  valid_datetime t = true -> 1000 <= dt_year t ->
  dt_lt s t = true ->
  str_lt ("exp_" +:+ strftime_id s) ("exp_" +:+ strftime_id t) = true.
Proof.
  intros Hs Ys Ht Yt Hlt.
  rewrite (strftime_id_fits s Hs Ys), (strftime_id_fits t Ht Yt).
  destruct (valid_datetime_bounds s Hs) as (By & Bm & Bd & BH & BM & BS & Bu).
  destruct (valid_datetime_bounds t Ht) as (Cy & Cm & Cd & CH & CM & CS & Cu).
  unfold str_lt.
  change (String.compare ("exp_" +:+ ?a) ("exp_" +:+ ?b))
    with (String.compare a b).
  unfold dt_lt, dt_fields in Hlt.
  rewrite (compare_field 4) by assumption.
  apply lex_lt_cons in Hlt. destruct Hlt as [H|[E Hlt]];
    [now rewrite (proj2 (Z.compare_lt_iff _ _) H)|rewrite E, Z.compare_refl].
  rewrite (compare_field 2) by assumption.
  apply lex_lt_cons in Hlt. destruct Hlt as [H|[E' Hlt]];
    [now rewrite (proj2 (Z.compare_lt_iff _ _) H)|rewrite E', Z.compare_refl].
  rewrite (compare_field 2) by assumption.
  apply lex_lt_cons in Hlt. destruct Hlt as [H|[E'' Hlt]];
    [now rewrite (proj2 (Z.compare_lt_iff _ _) H)|rewrite E'', Z.compare_refl].
  cbn [String.compare]. rewrite ascii_compare_refl.
  rewrite (compare_field 2) by assumption.
  apply lex_lt_cons in Hlt. destruct Hlt as [H|[F Hlt]];
    [now rewrite (proj2 (Z.compare_lt_iff _ _) H)|rewrite F, Z.compare_refl].
  rewrite (compare_field 2) by assumption.
  apply lex_lt_cons in Hlt. destruct Hlt as [H|[F' Hlt]];
    [now rewrite (proj2 (Z.compare_lt_iff _ _) H)|rewrite F', Z.compare_refl].
  rewrite (compare_field 2) by assumption.
  apply lex_lt_cons in Hlt. destruct Hlt as [H|[F'' Hlt]];
    [now rewrite (proj2 (Z.compare_lt_iff _ _) H)|rewrite F'', Z.compare_refl].
  rewrite (compare_field 6) by assumption.
  apply lex_lt_cons in Hlt. destruct Hlt as [H|[G Hlt]];
    [now rewrite (proj2 (Z.compare_lt_iff _ _) H)|discriminate Hlt].
Qed.

(** *** Sequential calls *)






Lemma str_lt_irrefl s : str_lt s s <> true.
Proof. unfold str_lt. rewrite str_compare_refl. discriminate. Qed.





(** * Further properties of the code *)

(** ** The record store, beyond the specification *)


(** What [load_expenses] leaves behind when it returns: a readable
    document that holds what was returned. *)
Lemma load_expenses_ok_file u w v w1 :
  load_expenses u w = (Ok v, w1) ->
  (expenses_path u ∉ w_dirs w1)
  /\ w_dirs w1 = w_dirs w
  /\ exists f d,
       w_files w1 !! expenses_path u = Some f
       /\ f_readable f = true
       /\ f_data f = Json (PDict d)
       /\ v = get_or d "expenses" (PList [])
       /\ (forall f0, w_files w !! expenses_path u = Some f0 -> f = f0)
       /\ (w_files w !! expenses_path u = None -> f_writable f = true).
Proof.
  intros H. destruct (decide (expenses_path u ∈ w_dirs w)) as [Hd|Hd].
  { rewrite (load_expenses_directory u w Hd) in H. discriminate H. }
  destruct (w_files w !! expenses_path u) as [f|] eqn:Hf.
  - rewrite (load_expenses_present u w f Hd Hf) in H.
    destruct (f_readable f) eqn:Hr; [|discriminate H].
    destruct (f_data f) as [x|] eqn:Hx; [|discriminate H].
    destruct x; simpl in H; try discriminate H.
    inversion H; subst. split; [exact Hd|]. split; [reflexivity|].
    exists f, d. rewrite Hf. repeat split; auto; congruence.
  - rewrite (load_expenses_missing u w Hd Hf) in H.
    destruct (negb (nonempty (dirname (expenses_path u)))
              || bool_decide (dirname (expenses_path u) ∈ w_dirs w));
      inversion H; subst.
    split; [exact Hd|]. split; [reflexivity|].
    exists (file_of (PDict [("expenses", PList [])])), [("expenses", PList [])].
    simpl. rewrite lookup_insert_eq. repeat split; auto; discriminate.
Qed.



(** X2. Loading twice gives the same collection, and the second load
    writes nothing: a missing document is created by the first load
    only. *)
Theorem load_expenses_twice (u : string) (w w1 : world) (v : pyval) :
  load_expenses u w = (Ok v, w1) ->
  load_expenses u w1 = (Ok v, w1).
Proof.
  intros H.
  destruct (load_expenses_ok_file u w v w1 H)
    as (Hd & _ & f & d & Hf & Hr & Hdata & -> & _).
  rewrite (load_expenses_present u w1 f Hd Hf), Hr, Hdata. reflexivity.
Qed.

Lemma load_expenses_twice_witness :
  load_expenses "alice" world_fresh
  = (Ok (PList []),
     set_files world_fresh
       {[ "data/alice/expanses.json" :=
            file_of (PDict [("expenses", PList [])]) ]})
  /\ load_expenses "alice"
       (set_files world_fresh
          {[ "data/alice/expanses.json" :=
               file_of (PDict [("expenses", PList [])]) ]})
     = (Ok (PList []),
        set_files world_fresh
          {[ "data/alice/expanses.json" :=
               file_of (PDict [("expenses", PList [])]) ]}).
Proof.
  assert (H : load_expenses "alice" world_fresh
              = (Ok (PList []),
                 set_files world_fresh
                   {[ "data/alice/expanses.json" :=
                        file_of (PDict [("expenses", PList [])]) ]}))
    by reflexivity.
  split; [exact H|]. exact (load_expenses_twice "alice" _ _ _ H).
Defined.

Lemma list_expenses_world u filters w :
  snd (list_expenses u filters w) = snd (load_expenses u w).
Proof.
  unfold list_expenses, bind, lift.
  destruct (load_expenses u w) as [[items|e] w1]; [|reflexivity].
  destruct (apply_filters filters items); reflexivity.
Qed.

(** X3. A listing never changes a stored collection.  Whatever the
    filters and whatever it returns or raises, [list_expenses] leaves the
    collection of every user as it was, and the directories; when the
    user's document exists it leaves the whole world as it was, and when
    the document is missing all it may do is create the empty one. *)
Theorem list_expenses_reads_only (u : string) (filters : option pydict)
    (w : world) :
  let w' := snd (list_expenses u filters w) in
  (forall v, stored_items w' v = stored_items w v)
  /\ w_dirs w' = w_dirs w
  /\ (forall p, p <> expenses_path u -> w_files w' !! p = w_files w !! p)
  /\ match w_files w !! expenses_path u with
     | Some _ => w' = w
     | None =>
         w' = w
         \/ w' = set_files w
                   (<[expenses_path u :=
                        file_of (PDict [("expenses", PList [])])]>
                      (w_files w))
     end.
Proof.
  cbv zeta. rewrite list_expenses_world.
  destruct (load_expenses u w) as [[v|e] w1] eqn:H; cbn [snd].
  - destruct (load_expenses_ok u w v w1 H)
      as [_ [(-> & f & d & Hf & _)|(Hf & _ & ->)]].
    + rewrite Hf. auto.
    + rewrite Hf. repeat split; auto.
      * intros x. unfold stored_items. simpl.
        destruct (decide (expenses_path x = expenses_path u)) as [E|E].
        -- rewrite E, lookup_insert_eq, Hf. reflexivity.
        -- now rewrite lookup_insert_ne by congruence.
      * intros p Hp. simpl. now rewrite lookup_insert_ne by congruence.
  - destruct (load_expenses_raise u w e w1 H) as (-> & _).
    destruct (w_files w !! expenses_path u); auto.
Qed.






(** After a call that returned, a load returns the collection with the
    new entry and writes nothing. *)
Lemma add_expense_then_load repr u payload w eid w' :
  add_expense repr u payload w = (Ok eid, w') ->
  exists l, load_expenses u w' = (Ok (PList l), w')
            /\ stored_items w' u = Some l.
Proof.
  rewrite add_expense_unfold. cbv zeta.
  destruct (validate_date_iso _) as [[]|?]; [|discriminate].
  destruct (validate_amount_positive _) as [a|?]; [|discriminate].
  destruct (validate_required_text _ _ _) as [[]|?]; [|discriminate].
  destruct (load_expenses u _) as [[items|?] w1] eqn:Hl; [|discriminate].
  destruct (py_getitem _ _) as [c|?]; [|discriminate].
  destruct items as [| | | | |old|]; simpl py_append; cbv beta iota;
    try discriminate.
  destruct (load_expenses_ok_file u _ _ w1 Hl)
    as (Hd & _ & f & d & Hf & Hr & _).
  unfold write_json. cbn [w_dirs w_files tick].
  rewrite (bool_decide_eq_false_2 _ Hd), Hf.
  destruct (f_writable f); [|discriminate].
  intros H; inversion H; subst; clear H.
  eexists. split.
  - erewrite load_expenses_present;
      [|exact Hd|cbn [w_files set_files]; apply lookup_insert_eq].
    cbn [f_readable f_data]. rewrite Hr. reflexivity.
  - unfold stored_items. cbn [w_files set_files].
    rewrite lookup_insert_eq. reflexivity.
Qed.

Lemma validate_date_iso_str d :
  validate_date_iso d = Ok tt -> exists s, d = PStr s.
Proof. destruct d; try discriminate. eauto. Qed.

(** X6. What was added is listed.  After an [add_expense] that returned
    an id, for a payload whose category is a string and a collection of
    entries whose date, id and category are strings, an unfiltered
    [list_expenses] returns the stored entries and the new one, each once,
    newest first; the new entry is among them under the id returned; and
    the listing writes nothing. *)
Theorem added_entry_is_listed (repr : pyval -> string) (u : string)
    (payload : pydict) (w w' : world) (eid c : string) (old : list pyval) :
  add_expense repr u payload w = (Ok eid, w') ->
  dict_get payload "category" = Some (PStr c) ->
  stored_items w u = Some old ->
  Forall (fun e => wf_entry e = true) old ->
  exists r entry,
    list_expenses u None w' = (Ok r, w')
    /\ Permutation r (old ++ [entry])
    /\ In entry r
    /\ py_getitem entry "id" = Ok (PStr eid)
    /\ newest_first r.
Proof.
  intros Hadd Hc Hold Hwf.
  destruct (add_expense_then_load _ _ _ _ _ _ Hadd) as (l & Hload & Hl).
  destruct (add_expense_ok _ _ _ _ _ _ Hadd)
    as (a & c' & old' & w1 & Hd & _ & _ & Hc' & _ & _ & Hold' & Hnew & _).
  rewrite Hold in Hold'. inversion Hold'; subst old'; clear Hold'.
  rewrite Hc in Hc'. inversion Hc'; subst c'; clear Hc'.
  rewrite Hl in Hnew. inversion Hnew; subst l; clear Hnew.
  destruct (validate_date_iso_str _ Hd) as (ds & Hds).
  set (entry := entry_for repr payload eid (resolved_date payload w) a (PStr c))
    in *.
  assert (Hwfe : wf_entry entry = true).
  { unfold entry, entry_for, wf_entry, entry_fields. cbn [dict_get String.eqb
      Ascii.eqb Bool.eqb]. rewrite Hds. reflexivity. }
  assert (Hall : Forall (fun e => wf_entry e = true) (old ++ [entry])).
  { apply Forall_app. split; [exact Hwf|]. repeat constructor. exact Hwfe. }
  destruct (list_expenses_wf u None w' _ w' Hload Hall eq_refl)
    as (r & Hlist & Hperm & Hsorted).
  exists r, entry. split; [exact Hlist|].
  assert (Hperm' : Permutation r (old ++ [entry])).
  { rewrite Hperm. simpl. now rewrite filter_all_true. }
  split; [exact Hperm'|]. split.
  - rewrite Hperm'. apply in_or_app. right. now left.
  - split; [reflexivity|exact Hsorted].
Qed.

Lemma added_entry_is_listed_witness :
  fst (add_expense repr_example "alice" payload_spaced world_three)
  = Ok "exp_20250907_153045000123"
  /\ dict_get payload_spaced "category" = Some (PStr " Food ")
  /\ fst (list_expenses "alice" None
            (snd (add_expense repr_example "alice" payload_spaced world_three)))
     = Ok [entry_of "exp_3" "2024-02-01" "Food";
           entry_for repr_example payload_spaced "exp_20250907_153045000123"
             (PStr "2024-01-15")
             (S754_finite false 7036874417766400 (-49)) (PStr " Food ");
           entry_of "exp_2" "2024-01-15" "Bills";
           entry_of "exp_1" "2024-01-01" "Food"].
Proof.
  destruct (add_expense repr_example "alice" payload_spaced world_three)
    as [r w'] eqn:Hadd.
  assert (Hr : r = Ok "exp_20250907_153045000123").
  { change r with (fst (r, w')). rewrite <- Hadd. reflexivity. }
  subst r.
  assert (Hw : w' = snd (add_expense repr_example "alice" payload_spaced
                           world_three)) by (now rewrite Hadd).
  destruct (added_entry_is_listed repr_example "alice" payload_spaced
              world_three w' "exp_20250907_153045000123" " Food "
              [entry_of "exp_1" "2024-01-01" "Food";
               entry_of "exp_2" "2024-01-15" "Bills";
               entry_of "exp_3" "2024-02-01" "Food"]
              Hadd eq_refl eq_refl)
    as (l & entry & Hlist & _).
  { repeat constructor. }
  split; [reflexivity|]. split; [reflexivity|].
  cbn [snd]. rewrite Hw. vm_compute. reflexivity.
Defined.

(** *** Paths of plain usernames *)

Lemma plain_name_parts u :
  plain_name u = true ->
  nonempty u = true /\ has_char "/" u = false
  /\ u <> "." /\ u <> "..".
Proof.
  unfold plain_name. intros H.
  apply andb_prop in H. destruct H as [H H4].
  apply andb_prop in H. destruct H as [H H3].
  apply andb_prop in H. destruct H as [H _].
  apply andb_prop in H. destruct H as [H1 H2].
  apply negb_true_iff in H2, H3, H4.
  repeat split; auto.
  - intros ->. discriminate H3.
  - intros ->. discriminate H4.
Qed.

Lemma no_slash_start u : has_char "/" u = false -> starts_with_slash u = false.
Proof.
  destruct u as [|c u]; [reflexivity|]. simpl. intros H.
  apply orb_false_elim in H. destruct H as [H _].
  destruct (Ascii.eqb_spec c "/") as [->|Hc]; [discriminate H|].
  destruct c as [[] [] [] [] [] [] [] []]; try reflexivity.
  now contradiction Hc.
Qed.

Lemma no_slash_end u : has_char "/" u = false -> ends_with_slash u = false.
Proof.
  induction u as [|c u IH]; [reflexivity|]. simpl. intros H.
  apply orb_false_elim in H. destruct H as [Hc Hu].
  destruct u; [exact Hc|]. exact (IH Hu).
Qed.

Lemma ends_with_slash_app s u :
  nonempty u = true -> ends_with_slash (s +:+ u) = ends_with_slash u.
Proof.
  intros Hu. induction s as [|c s IH]; [reflexivity|].
  rewrite append_cons. cbn [ends_with_slash]. rewrite IH.
  destruct (s +:+ u) eqn:E; [|reflexivity].
  destruct s; [|discriminate E]. change ("" +:+ u) with u in E.
  rewrite E in Hu. discriminate Hu.
Qed.

Lemma no_slash_upto t : has_char "/" t = false -> upto_last_slash t = None.
Proof.
  induction t as [|c t IH]; [reflexivity|]. simpl. intros H.
  apply orb_false_elim in H. destruct H as [Hc Ht].
  now rewrite (IH Ht), Hc.
Qed.

Lemma no_slash_after t : has_char "/" t = false -> after_last_slash t = t.
Proof.
  destruct t as [|c t]; [reflexivity|]. simpl. intros H.
  apply orb_false_elim in H. destruct H as [Hc Ht].
  now rewrite (no_slash_upto t Ht), Hc.
Qed.

Lemma upto_last_slash_app s t :
  has_char "/" t = false ->
  upto_last_slash (s +:+ String "/" t) = Some (s +:+ "/").
Proof.
  intros Ht. induction s as [|c s IH].
  - change ("" +:+ String "/" t) with (String "/" t). simpl.
    now rewrite (no_slash_upto t Ht).
  - rewrite !append_cons. cbn [upto_last_slash]. now rewrite IH.
Qed.

Lemma after_last_slash_app s t :
  has_char "/" t = false -> after_last_slash (s +:+ String "/" t) = t.
Proof.
  intros Ht. induction s as [|c s IH].
  - change ("" +:+ String "/" t) with (String "/" t). simpl.
    now rewrite (no_slash_upto t Ht).
  - rewrite append_cons. cbn [after_last_slash].
    destruct s as [|c' s].
    + change ("" +:+ String "/" t) with (String "/" t) in *.
      cbn [upto_last_slash]. rewrite (no_slash_upto t Ht). simpl. exact IH.
    + now rewrite (upto_last_slash_app (String c' s) t Ht).
Qed.

Lemma rstrip_slash_app s :
  nonempty s = true -> ends_with_slash s = false ->
  rstrip_with (fun c => Ascii.eqb c "/") (s +:+ "/") = s.
Proof.
  induction s as [|c s IH]; [discriminate|]. intros _ He.
  rewrite append_cons. cbn [rstrip_with].
  destruct s as [|c' s].
  - simpl in He. change ("" +:+ "/") with "/". simpl. now rewrite He.
  - rewrite IH; [reflexivity|reflexivity|exact He].
Qed.

Lemma dirname_app s t :
  nonempty s = true -> ends_with_slash s = false ->
  has_char "/" t = false ->
  dirname (s +:+ String "/" t) = s.
Proof.
  intros Hs He Ht. unfold dirname.
  rewrite (upto_last_slash_app s t Ht), (rstrip_slash_app s Hs He).
  destruct s; [discriminate Hs|reflexivity].
Qed.

Lemma append_assoc a b c : (a +:+ b) +:+ c = a +:+ (b +:+ c).
Proof.
  induction a as [|x a IH]; [reflexivity|].
  rewrite !append_cons. f_equal. exact IH.
Qed.

(** The folder and the documents of a user whose name is one path
    component. *)
Lemma user_dir_plain u :
  plain_name u = true -> join2 DATA_ROOT u = "data/" +:+ u.
Proof.
  intros H. destruct (plain_name_parts u H) as (_ & Hs & _).
  unfold join2. now rewrite (no_slash_start u Hs).
Qed.

Lemma user_file_plain u fn :
  plain_name u = true -> starts_with_slash fn = false ->
  join2 ("data/" +:+ u) fn = "data/" +:+ u +:+ String "/" fn.
Proof.
  intros H Hfn. destruct (plain_name_parts u H) as (Hn & Hs & _).
  unfold join2. rewrite Hfn.
  rewrite (ends_with_slash_app "data/" u Hn), (no_slash_end u Hs).
  assert (E : nonempty ("data/" +:+ u) = true) by reflexivity.
  rewrite E. simpl negb. cbn [orb].
  rewrite append_assoc. reflexivity.
Qed.

Lemma expenses_path_plain u :
  plain_name u = true ->
  expenses_path u = "data/" +:+ u +:+ "/expanses.json".
Proof.
  intros H. unfold expenses_path, path_join.
  change (join2 "data" u) with (join2 DATA_ROOT u).
  rewrite (user_dir_plain u H). now apply user_file_plain.
Qed.

Lemma user_dir_end u :
  plain_name u = true ->
  nonempty ("data/" +:+ u) = true /\ ends_with_slash ("data/" +:+ u) = false.
Proof.
  intros H. destruct (plain_name_parts u H) as (Hn & Hs & _).
  split; [reflexivity|].
  now rewrite (ends_with_slash_app "data/" u Hn), (no_slash_end u Hs).
Qed.

Lemma expenses_dir_plain u :
  plain_name u = true -> dirname (expenses_path u) = "data/" +:+ u.
Proof.
  intros H. rewrite (expenses_path_plain u H).
  destruct (user_dir_end u H) as (Hn & He).
  assert (E : "data/" +:+ u +:+ "/expanses.json"
              = ("data/" +:+ u) +:+ String "/" "expanses.json").
  { now rewrite append_assoc. }
  rewrite E. now apply dirname_app.
Qed.

Lemma append_slash_inj u v s :
  has_char "/" u = false -> has_char "/" v = false ->
  u +:+ String "/" s = v +:+ String "/" s -> u = v.
Proof.
  revert v. induction u as [|c u IH]; intros [|d v] Hu Hv E.
  - reflexivity.
  - change ("" +:+ String "/" s) with (String "/" s) in E.
    rewrite append_cons in E. inversion E; subst d.
    simpl in Hv. discriminate Hv.
  - change ("" +:+ String "/" s) with (String "/" s) in E.
    rewrite append_cons in E. inversion E; subst c.
    simpl in Hu. discriminate Hu.
  - rewrite !append_cons in E. inversion E; subst d.
    simpl in Hu, Hv. apply orb_false_elim in Hu, Hv.
    f_equal. apply IH; tauto.
Qed.

Lemma expenses_path_inj u v :
  plain_name u = true -> plain_name v = true ->
  expenses_path u = expenses_path v -> u = v.
Proof.
  intros Hu Hv.
  rewrite (expenses_path_plain u Hu), (expenses_path_plain v Hv).
  destruct (plain_name_parts u Hu) as (_ & Su & _).
  destruct (plain_name_parts v Hv) as (_ & Sv & _).
  intros E.
  change ("data/" +:+ ?x) with (String "d" (String "a" (String "t"
    (String "a" (String "/" x))))) in E.
  inversion E as [E']. exact (append_slash_inj u v _ Su Sv E').
Qed.

(** X7. Users do not share a document: two usernames that are one path
    component each, and differ, have different documents, each in the
    folder [data/<username>]. *)
Theorem expenses_path_apart (u v : string) :
  plain_name u = true -> plain_name v = true ->
  expenses_path u = "data/" +:+ u +:+ "/expanses.json"
  /\ dirname (expenses_path u) = join2 DATA_ROOT u
  /\ (expenses_path u = expenses_path v -> u = v).
Proof.
  intros Hu Hv. split; [now apply expenses_path_plain|]. split.
  - now rewrite (expenses_dir_plain u Hu), (user_dir_plain u Hu).
  - now apply expenses_path_inj.
Qed.

Lemma expenses_path_apart_witness :
  plain_name "alice" = true /\ plain_name "bob" = true
  /\ expenses_path "alice" = "data/alice/expanses.json"
  /\ dirname (expenses_path "alice") = "data/alice"
  /\ String.eqb (expenses_path "alice") (expenses_path "bob") = false.
Proof.
  destruct (expenses_path_apart "alice" "bob" eq_refl eq_refl)
    as (Hp & Hd & _).
  split; [reflexivity|]. split; [reflexivity|].
  split; [exact Hp|]. split; [exact Hd|reflexivity].
Defined.

(** X8. A call for one user leaves the others alone.  Whatever
    [add_expense] does for [u], returning or raising, the document of any
    other user [v] is the file it was, so [v]'s collection is unchanged. *)
Theorem add_expense_other_users_untouched (repr : pyval -> string)
    (u v : string) (payload : pydict) (w : world) :
  plain_name u = true -> plain_name v = true -> u <> v ->
  let w' := snd (add_expense repr u payload w) in
  w_files w' !! expenses_path v = w_files w !! expenses_path v
  /\ stored_items w' v = stored_items w v
  /\ w_dirs w' = w_dirs w.
Proof.
  intros Hu Hv Huv. cbv zeta.
  assert (Hp : expenses_path v <> expenses_path u).
  { intros E. apply Huv. symmetry. exact (expenses_path_inj v u Hv Hu E). }
  destruct (add_expense repr u payload w) as [[eid|e] w'] eqn:H; cbn [snd].
  - destruct (add_expense_ok _ _ _ _ _ _ H)
      as (a & c & old & w1 & _ & _ & _ & _ & _ & _ & _ & _ & Hfr & Hdirs & _).
    pose proof (Hfr _ Hp) as Hf. split; [exact Hf|]. split; [|exact Hdirs].
    unfold stored_items. now rewrite Hf.
  - destruct (add_expense_raise _ _ _ _ _ _ H) as ((Hf & Hd) & _).
    split; [now rewrite Hf|]. split; [|exact Hd].
    now apply stored_items_files.
Qed.

Lemma add_expense_other_users_untouched_witness :
  plain_name "bob" = true /\ plain_name "alice" = true
  /\ stored_items
       (snd (add_expense repr_example "bob" payload_no_date world_three))
       "alice"
     = Some [entry_of "exp_1" "2024-01-01" "Food";
             entry_of "exp_2" "2024-01-15" "Bills";
             entry_of "exp_3" "2024-02-01" "Food"].
Proof.
  assert (Hne : "bob" <> "alice") by discriminate.
  destruct (add_expense_other_users_untouched repr_example "bob" "alice"
              payload_no_date world_three eq_refl eq_refl Hne)
    as (_ & Hs & _).
  split; [reflexivity|]. split; [reflexivity|].
  rewrite Hs. reflexivity.
Defined.

(** ** Validators and identifiers, beyond the specification *)

Lemma length_append_str s t :
  String.length (s +:+ t) = (String.length s + String.length t)%nat.
Proof.
  induction s as [|c s IH]; [reflexivity|].
  rewrite append_cons. simpl. now rewrite IH.
Qed.

Lemma length_digits_of n k : String.length (digits_of n k) = n.
Proof. induction n as [|n IH]; simpl; [reflexivity|now rewrite IH]. Qed.

(** X9. The default date is always a valid one.  When the clock reads a
    date a [datetime] can hold, [today_iso] returns its ten characters
    [YYYY-MM-DD], and [validate_date_iso] accepts them: an [add_expense]
    without a date cannot fail on its date. *)
Theorem today_iso_validates (w : world) :
  valid_datetime (w_clock w (w_ticks w)) = true ->
  exists s,
    today_iso w = (Ok s, tick w)
    /\ s = digits_of 4 (dt_year (w_clock w (w_ticks w)))
           +:+ "-" +:+ digits_of 2 (dt_month (w_clock w (w_ticks w)))
           +:+ "-" +:+ digits_of 2 (dt_day (w_clock w (w_ticks w)))
    /\ String.length s = 10%nat
    /\ validate_date_iso (PStr s) = Ok tt.
Proof.
  intros Hv. exists (isoformat (w_clock w (w_ticks w))).
  split; [reflexivity|].
  assert (Hymd : valid_ymd (dt_year (w_clock w (w_ticks w)))
                   (dt_month (w_clock w (w_ticks w)))
                   (dt_day (w_clock w (w_ticks w))) = true).
  { unfold valid_datetime in Hv.
    do 8 (apply andb_prop in Hv; destruct Hv as [Hv _]). exact Hv. }
  assert (E : isoformat (w_clock w (w_ticks w))
              = digits_of 4 (dt_year (w_clock w (w_ticks w)))
                +:+ "-" +:+ digits_of 2 (dt_month (w_clock w (w_ticks w)))
                +:+ "-" +:+ digits_of 2 (dt_day (w_clock w (w_ticks w)))).
  { rewrite (isoformat_fits _ Hymd). now rewrite append_empty_r. }
  split; [exact E|]. split.
  - rewrite E. rewrite !length_append_str, !length_digits_of. reflexivity.
  - now apply validate_date_iso_today.
Qed.

Lemma today_iso_validates_witness :
  valid_datetime (w_clock world_fresh (w_ticks world_fresh)) = true
  /\ today_iso world_fresh = (Ok "2025-09-07", tick world_fresh)
  /\ validate_date_iso (PStr "2025-09-07") = Ok tt.
Proof.
  destruct (today_iso_validates world_fresh eq_refl) as (s & Ht & _ & _ & Hv).
  assert (Hs : today_iso world_fresh = (Ok "2025-09-07", tick world_fresh))
    by reflexivity.
  rewrite Hs in Ht. inversion Ht; subst s.
  split; [reflexivity|]. split; [exact Hs|exact Hv].
Defined.

Lemma lex_lt_neither x a y b :
  lex_lt (x :: a) (y :: b) = false -> lex_lt (y :: b) (x :: a) = false ->
  x = y /\ lex_lt a b = false /\ lex_lt b a = false.
Proof.
  simpl. intros H1 H2.
  apply orb_false_elim in H1, H2. destruct H1 as [L1 R1], H2 as [L2 R2].
  apply Z.ltb_ge in L1, L2. assert (E : x = y) by lia. subst y.
  rewrite Z.eqb_refl in R1, R2. auto.
Qed.

(** Two readings neither of which is before the other are one reading. *)
Lemma dt_lt_neither s t :
  dt_lt s t = false -> dt_lt t s = false -> s = t.
Proof.
  unfold dt_lt, dt_fields.
  destruct s as [y1 m1 d1 h1 n1 s1 u1], t as [y2 m2 d2 h2 n2 s2 u2].
  cbv beta iota delta [dt_year dt_month dt_day dt_hour dt_minute dt_second
    dt_microsecond]. intros H1 H2.
  repeat match goal with
  | H1 : lex_lt (_ :: _) (_ :: _) = false,
    H2 : lex_lt (_ :: _) (_ :: _) = false |- _ =>
      let E := fresh "E" in
      destruct (lex_lt_neither _ _ _ _ H1 H2) as (E & ? & ?);
      clear H1 H2; subst
  end.
  reflexivity.
Qed.

(** X10. An id names its reading.  For clock readings that are dates of
    four-digit years, [generate_expense_id] returns 25 characters, and it
    returns the same id in two worlds only when the two readings are the
    same to the microsecond. *)
Theorem expense_id_names_reading (w1 w2 : world) :
  valid_datetime (w_clock w1 (w_ticks w1)) = true ->
  1000 <= dt_year (w_clock w1 (w_ticks w1)) ->
  valid_datetime (w_clock w2 (w_ticks w2)) = true ->
  1000 <= dt_year (w_clock w2 (w_ticks w2)) ->
  exists a b,
    generate_expense_id w1 = (Ok a, tick w1)
    /\ generate_expense_id w2 = (Ok b, tick w2)
    /\ String.length a = 25%nat
    /\ (a = b <-> w_clock w1 (w_ticks w1) = w_clock w2 (w_ticks w2)).
Proof.
  intros V1 Y1 V2 Y2.
  exists ("exp_" +:+ strftime_id (w_clock w1 (w_ticks w1))),
         ("exp_" +:+ strftime_id (w_clock w2 (w_ticks w2))).
  split; [reflexivity|]. split; [reflexivity|]. split.
  - rewrite (strftime_id_fits _ V1 Y1).
    change (String "_" ?x) with ("_" +:+ x).
    rewrite !length_append_str, !length_digits_of. reflexivity.
  - split; [|now intros ->].
    intros E. apply dt_lt_neither.
    + destruct (dt_lt _ _) eqn:L; [|reflexivity]. exfalso.
      pose proof (strftime_id_lt _ _ V1 Y1 V2 Y2 L) as H.
      rewrite E in H. exact (str_lt_irrefl _ H).
    + destruct (dt_lt (w_clock w2 _) _) eqn:L; [|reflexivity]. exfalso.
      pose proof (strftime_id_lt _ _ V2 Y2 V1 Y1 L) as H.
      rewrite E in H. exact (str_lt_irrefl _ H).
Qed.

Lemma expense_id_names_reading_witness :
  valid_datetime (w_clock world_fresh (w_ticks world_fresh)) = true
  /\ valid_datetime (w_clock (tick world_fresh) (w_ticks (tick world_fresh)))
     = true
  /\ generate_expense_id world_fresh
     = (Ok "exp_20250907_153045000123", tick world_fresh)
  /\ generate_expense_id (tick world_fresh)
     = (Ok "exp_20250907_153045000124", tick (tick world_fresh))
  /\ String.length "exp_20250907_153045000123" = 25%nat.
Proof.
  assert (Y1 : 1000 <= dt_year (w_clock world_fresh (w_ticks world_fresh)))
    by (simpl; lia).
  assert (Y2 : 1000 <= dt_year (w_clock (tick world_fresh)
                                  (w_ticks (tick world_fresh))))
    by (simpl; lia).
  destruct (expense_id_names_reading world_fresh (tick world_fresh)
              eq_refl Y1 eq_refl Y2) as (a & b & Ha & Hb & Hlen & _).
  assert (Ea : generate_expense_id world_fresh
               = (Ok "exp_20250907_153045000123", tick world_fresh))
    by reflexivity.
  rewrite Ea in Ha. inversion Ha; subst a.
  split; [reflexivity|]. split; [reflexivity|]. split; [exact Ea|].
  split; [reflexivity|exact Hlen].
Defined.

Lemma lstrip_blank s : lstrip_with is_space s = EmptyString <-> blank s = true.
Proof.
  induction s as [|c s IH]; simpl; [tauto|].
  destruct (is_space c); simpl; [exact IH|]. split; discriminate.
Qed.

Lemma strip_blank s : String.eqb (strip s) "" = blank s.
Proof.
  unfold strip. destruct (lstrip_with_head is_space s) as [E|(c & t & E & Hc)].
  - rewrite E. simpl. symmetry. now apply lstrip_blank.
  - rewrite E. destruct (rstrip_with_keeps_head is_space c t Hc) as (r & ->).
    simpl. destruct (blank s) eqn:B; [|reflexivity].
    apply lstrip_blank in B. rewrite B in E. discriminate E.
Qed.

(** X11. Required text is text with something to read in it: of the
    strings, [validate_required_text] rejects those made of white space
    only, the empty one among them, and accepts every other as it is; it
    rejects [None]; and what it raises names the field. *)
Theorem validate_required_text_blank (repr : pyval -> string)
    (field : string) :
  (forall s : string,
      validate_required_text repr (PStr s) field
      = if blank s then Raise (ValueError (field +:+ " is required"))
        else Ok tt)
  /\ validate_required_text repr PNone field
     = Raise (ValueError (field +:+ " is required")).
Proof.
  split; [|reflexivity]. intros s. unfold validate_required_text.
  cbn [py_str truthy]. rewrite strip_blank.
  destruct s as [|c s]; [reflexivity|]. cbn [nonempty negb orb].
  reflexivity.
Qed.

Lemma clean_tags_fixed repr (l : list string) :
  Forall (fun t => clean_tag t = true) l ->
  List.filter nonempty (map (fun tag => strip (py_str repr tag)) (map PStr l))
  = l.
Proof.
  induction 1 as [|t l Ht _ IH]; [reflexivity|].
  unfold clean_tag in Ht. apply andb_prop in Ht. destruct Ht as [Hn Hs].
  apply String.eqb_eq in Hs.
  cbn [map py_str List.filter]. rewrite Hs, Hn. now rewrite IH.
Qed.

(** X12. Tags are normalized once and for all: the list [normalize_tags]
    returns is a list it returns unchanged, so the tags of a stored entry
    read back as they were stored. *)
Theorem normalize_tags_idempotent (repr : pyval -> string) (raw : pyval) :
  normalize_tags repr (PList (map PStr (normalize_tags repr raw)))
  = normalize_tags repr raw.
Proof.
  cbn [normalize_tags]. apply clean_tags_fixed, normalize_tags_clean.
Qed.

Lemma mapM_stops {A B} (f : A -> result B) (before : list A) (x : A)
    (after : list A) (ys : list B) (e : exn) :
  mapM f before = Ok ys -> f x = Raise e ->
  mapM f (before ++ x :: after) = Raise e.
Proof.
  revert ys. induction before as [|b before IH]; intros ys Hb Hx.
  - simpl. now rewrite Hx.
  - simpl in *. destruct (f b) as [y|?]; [|discriminate Hb]. simpl in *.
    destruct (mapM f before) as [ys'|?]; [|discriminate Hb].
    now rewrite (IH ys' eq_refl Hx).
Qed.

(** X13. One entry without a date fails the whole listing.  When the
    stored entries before it have their date, id and category, an entry
    that is an object without the key ["date"] makes an unfiltered
    [list_expenses] raise [KeyError("date")]: the entry is not skipped and
    nothing is returned. *)
Theorem list_expenses_entry_without_date (u : string) (w w1 : world)
    (before after : list pyval) (d : pydict) :
  load_expenses u w = (Ok (PList (before ++ PDict d :: after)), w1) ->
  Forall (fun e => wf_entry e = true) before ->
  dict_get d "date" = None ->
  list_expenses u None w = (Raise (KeyError "date"), w1).
Proof.
  intros Hl Hwf Hd. unfold list_expenses, bind, lift. rewrite Hl.
  cbn [apply_filters sort_newest_first].
  rewrite (mapM_stops _ before (PDict d) after (map keyed before)
             (KeyError "date")); [reflexivity|now apply mapM_keyed_wf|].
  unfold sort_key. cbn [py_getitem]. now rewrite Hd.
Qed.

Lemma list_expenses_entry_without_date_witness :
  load_expenses "alice" world_undated
  = (Ok (PList ([entry_of "exp_1" "2024-01-01" "Food"]
                ++ PDict [("id", PStr "exp_2"); ("category", PStr "Food")]
                   :: [])), world_undated)
  /\ dict_get [("id", PStr "exp_2"); ("category", PStr "Food")] "date" = None
  /\ list_expenses "alice" None world_undated
     = (Raise (KeyError "date"), world_undated).
Proof.
  assert (Hl : load_expenses "alice" world_undated
               = (Ok (PList ([entry_of "exp_1" "2024-01-01" "Food"]
                             ++ PDict [("id", PStr "exp_2");
                                       ("category", PStr "Food")] :: [])),
                  world_undated)) by reflexivity.
  split; [exact Hl|]. split; [reflexivity|].
  apply (list_expenses_entry_without_date "alice" world_undated world_undated
           [entry_of "exp_1" "2024-01-01" "Food"] []
           [("id", PStr "exp_2"); ("category", PStr "Food")] Hl).
  - repeat constructor.
  - reflexivity.
Defined.

(** ** The account directory *)

(** *** Directories *)

Lemma pure_eq {A} (r : result A) w :
  pure r w
  = (match r with Ok a => Returned a | Raise e => Raised (Exn e) end, w).
Proof. unfold pure, io, lift. now destruct r. Qed.

Lemma add_dir_in w p : p ∈ w_dirs (add_dir w p).
Proof. simpl. set_solver. Qed.

Lemma mkdir_exist_ok_top name w :
  nonempty name = true -> dirname name = "" ->
  mkdir_exist_ok name w
  = if bool_decide (name ∈ w_dirs w) then (Returned tt, w)
    else if has_file w name then (Raised FileExistsError, w)
    else (Returned tt, add_dir w name).
Proof.
  intros Hn Hd. unfold mkdir_exist_ok, mkdir. rewrite Hn, Hd.
  destruct (bool_decide (name ∈ w_dirs w)) eqn:E; simpl.
  - now rewrite E.
  - destruct (has_file w name); simpl; [now rewrite E|reflexivity].
Qed.

Lemma mkdir_exist_ok_in name w :
  nonempty name = true -> nonempty (dirname name) = true ->
  mkdir_exist_ok name w
  = if bool_decide (name ∈ w_dirs w) then (Returned tt, w)
    else if has_file w name then (Raised FileExistsError, w)
    else if bool_decide (dirname name ∈ w_dirs w)
    then (Returned tt, add_dir w name)
    else if has_file w (dirname name) then (Raised NotADirectoryError, w)
    else (Raised (Exn FileNotFoundError), w).
Proof.
  intros Hn Hd. unfold mkdir_exist_ok, mkdir. rewrite Hn, Hd.
  destruct (bool_decide (name ∈ w_dirs w)) eqn:E; simpl.
  - now rewrite E.
  - destruct (has_file w name); simpl; [now rewrite E|].
    destruct (bool_decide (dirname name ∈ w_dirs w)); [reflexivity|].
    destruct (has_file w (dirname name)); now rewrite E.
Qed.

Lemma makedirs_from_S fuel name w :
  makedirs_from (S fuel) name w
  = let '(head, tail) :=
      let '(head, tail) := path_split name in
      if negb (nonempty tail) then path_split head else (head, tail) in
    if nonempty head && nonempty tail
       && negb (bool_decide (head ∈ w_dirs w) || has_file w head)
    then
      match makedirs_from fuel head w with
      | (Raised (Exn e), w') => (Raised (Exn e), w')
      | (Raised NotADirectoryError, w') => (Raised NotADirectoryError, w')
      | (_, w') =>
          if String.eqb tail "." then (Returned tt, w')
          else mkdir_exist_ok name w'
      end
    else mkdir_exist_ok name w.
Proof. reflexivity. Qed.

Lemma makedirs_from_top fuel name w :
  dirname name = "" -> makedirs_from fuel name w = mkdir_exist_ok name w.
Proof.
  intros Hd. destruct fuel; simpl; unfold path_split; rewrite Hd;
    destruct (nonempty (after_last_slash name)); reflexivity.
Qed.

Lemma makedirs_storage w :
  makedirs (dirname USERS_FILE) w
  = if bool_decide ("storage" ∈ w_dirs w) then (Returned tt, w)
    else if has_file w "storage" then (Raised FileExistsError, w)
    else (Returned tt, add_dir w "storage").
Proof.
  change (dirname USERS_FILE) with "storage". unfold makedirs.
  rewrite makedirs_from_top by reflexivity.
  now apply mkdir_exist_ok_top.
Qed.

Lemma makedirs_data w :
  makedirs DATA_ROOT w
  = if bool_decide ("data" ∈ w_dirs w) then (Returned tt, w)
    else if has_file w "data" then (Raised FileExistsError, w)
    else (Returned tt, add_dir w "data").
Proof.
  unfold makedirs. rewrite makedirs_from_top by reflexivity.
  now apply mkdir_exist_ok_top.
Qed.

Lemma user_dir_split u :
  plain_name u = true ->
  dirname ("data/" +:+ u) = "data" /\ after_last_slash ("data/" +:+ u) = u.
Proof.
  intros H. destruct (plain_name_parts u H) as (_ & Hs & _).
  change ("data/" +:+ u) with ("data" +:+ String "/" u).
  split; [now apply dirname_app|now apply after_last_slash_app].
Qed.

(** [os.makedirs] of a user's folder: [data] is made when nothing is
    there, then the folder. *)
Lemma makedirs_user_dir u w :
  plain_name u = true ->
  makedirs ("data/" +:+ u) w
  = mkdir_exist_ok ("data/" +:+ u)
      (if bool_decide ("data" ∈ w_dirs w) || has_file w "data" then w
       else add_dir w "data").
Proof.
  intros H. destruct (plain_name_parts u H) as (Hn & _ & Hdot & _).
  destruct (user_dir_split u H) as (Hd & Ht).
  unfold makedirs.
  change (String.length ("data/" +:+ u))
    with (S (S (S (S (S (String.length u)))))).
  rewrite makedirs_from_S. unfold path_split at 1. rewrite Hd, Ht, Hn.
  cbn [negb nonempty andb]. rewrite ?Hn.
  destruct (bool_decide ("data" ∈ w_dirs w) || has_file w "data") eqn:E;
    [reflexivity|]. cbn [negb andb].
  rewrite makedirs_from_top by reflexivity.
  rewrite mkdir_exist_ok_top by reflexivity.
  apply orb_false_elim in E. destruct E as [-> ->].
  destruct (String.eqb_spec u "."); [contradiction|reflexivity].
Qed.

Lemma user_dir_made u w r w' :
  plain_name u = true ->
  makedirs ("data/" +:+ u) w = (r, w') ->
  w_files w' = w_files w /\ w_clock w' = w_clock w /\ w_ticks w' = w_ticks w
  /\ w_dirs w ⊆ w_dirs w'
  /\ (forall p, p ∈ w_dirs w' ->
        p ∈ w_dirs w \/ p = "data" \/ p = "data/" +:+ u)
  /\ (r = Returned tt -> "data/" +:+ u ∈ w_dirs w')
  /\ (r = Returned tt ->
      bool_decide ("data" ∈ w_dirs w') || has_file w' "data" = true).
Proof.
  intros H. rewrite (makedirs_user_dir u w H).
  destruct (user_dir_split u H) as (Hd & _).
  rewrite mkdir_exist_ok_in by (try rewrite Hd; reflexivity). rewrite Hd.
  set (w0 := if bool_decide ("data" ∈ w_dirs w) || has_file w "data" then w
             else add_dir w "data").
  assert (H0 : w_files w0 = w_files w /\ w_clock w0 = w_clock w
               /\ w_ticks w0 = w_ticks w /\ w_dirs w ⊆ w_dirs w0
               /\ (forall p, p ∈ w_dirs w0 -> p ∈ w_dirs w \/ p = "data")
               /\ bool_decide ("data" ∈ w_dirs w0) || has_file w0 "data"
                  = true).
  { unfold w0.
    destruct (bool_decide ("data" ∈ w_dirs w) || has_file w "data") eqn:E0;
      simpl; repeat split; auto.
    - apply union_subseteq_r.
    - intros p Hp. apply elem_of_union in Hp. destruct Hp as [Hp|Hp]; auto.
      apply elem_of_singleton in Hp. auto.
    - rewrite bool_decide_eq_true_2; [reflexivity|].
      apply elem_of_union. left. now apply elem_of_singleton. }
  clearbody w0. destruct H0 as (Hf & Hc & Ht & Hsub & Hsup & Hdata).
  destruct (bool_decide ("data/" +:+ u ∈ w_dirs w0)) eqn:E1.
  { intros E; inversion E; subst. repeat split; auto.
    - intros p Hp. destruct (Hsup p Hp); auto.
    - intros _. exact (bool_decide_eq_true_1 _ E1). }
  destruct (has_file w0 ("data/" +:+ u)).
  { intros E; inversion E; subst. repeat split; auto.
    - intros p Hp. destruct (Hsup p Hp); auto.
    - discriminate. }
  destruct (bool_decide ("data" ∈ w_dirs w0)) eqn:E2.
  { intros E; inversion E; subst. simpl. repeat split; auto.
    - etransitivity; [exact Hsub|apply union_subseteq_r].
    - intros p Hp. apply elem_of_union in Hp. destruct Hp as [Hp|Hp].
      + apply elem_of_singleton in Hp. auto.
      + destruct (Hsup p Hp); auto.
    - intros _. apply elem_of_union. left. now apply elem_of_singleton.
    - intros _. rewrite bool_decide_eq_true_2; [reflexivity|].
      apply elem_of_union. right. exact (bool_decide_eq_true_1 _ E2). }
  destruct (has_file w0 "data"); intros E; inversion E; subst;
    repeat split; auto; try discriminate;
    intros p Hp; destruct (Hsup p Hp); auto.
Qed.

(** *** Files made when missing *)

Lemma create_if_missing_eq p v w :
  create_if_missing p v w
  = if bool_decide (p ∈ w_dirs w) || has_file w p then (Returned tt, w)
    else if negb (nonempty (dirname p)) || bool_decide (dirname p ∈ w_dirs w)
    then (Returned tt, set_files w (<[p := file_of v]> (w_files w)))
    else (Raised (Exn FileNotFoundError), w).
Proof.
  unfold create_if_missing, io_bind, io, path_exists, io_ret, has_file.
  destruct (bool_decide (p ∈ w_dirs w)) eqn:E; [reflexivity|]. cbn [orb].
  destruct (w_files w !! p) eqn:F; [reflexivity|]. cbn [negb].
  unfold write_json. rewrite E, F.
  destruct (negb (nonempty (dirname p)) || bool_decide (dirname p ∈ w_dirs w));
    reflexivity.
Qed.

Lemma create_if_missing_ok p v w w' :
  create_if_missing p v w = (Returned tt, w') ->
  w_dirs w' = w_dirs w /\ w_clock w' = w_clock w /\ w_ticks w' = w_ticks w
  /\ (forall q, q <> p -> w_files w' !! q = w_files w !! q)
  /\ w_files w' !! p
     = match w_files w !! p with
       | Some f => Some f
       | None =>
           if bool_decide (p ∈ w_dirs w) then None else Some (file_of v)
       end.
Proof.
  rewrite create_if_missing_eq. unfold has_file.
  destruct (bool_decide (p ∈ w_dirs w)) eqn:E; cbn [orb].
  { intros H; inversion H; subst. repeat split; auto.
    now destruct (w_files w' !! p). }
  destruct (w_files w !! p) eqn:F.
  { intros H; inversion H; subst. repeat split; auto. }
  destruct (negb (nonempty (dirname p)) || bool_decide (dirname p ∈ w_dirs w));
    intros H; inversion H; subst. simpl. repeat split; auto.
  - intros q Hq. now rewrite lookup_insert_ne by congruence.
  - apply lookup_insert_eq.
Qed.

(** *** The calls of [os.makedirs] end *)

Lemma split_parts p :
  match upto_last_slash p with
  | Some h => p = h +:+ after_last_slash p
  | None => after_last_slash p = p
  end.
Proof.
  induction p as [|c p IH]; [reflexivity|]. cbn [upto_last_slash after_last_slash].
  destruct (upto_last_slash p) as [h|].
  - rewrite append_cons. now f_equal.
  - destruct (Ascii.eqb_spec c "/") as [->|_]; reflexivity.
Qed.

Lemma rstrip_with_length sp s :
  (String.length (rstrip_with sp s) <= String.length s)%nat.
Proof.
  induction s as [|c s IH]; [reflexivity|]. cbn [rstrip_with].
  destruct (rstrip_with sp s); [destruct (sp c)|]; simpl in *; lia.
Qed.

Lemma path_split_length p :
  (String.length (dirname p) + String.length (after_last_slash p)
   <= String.length p)%nat.
Proof.
  unfold dirname. pose proof (split_parts p) as H.
  destruct (upto_last_slash p) as [h|].
  - pose proof (rstrip_with_length (fun c => Ascii.eqb c "/") h) as Hr.
    apply (f_equal String.length) in H. rewrite length_append_str in H.
    destruct (rstrip_with _ h); simpl in *; lia.
  - rewrite H. simpl. lia.
Qed.

(** The head [os.makedirs] calls itself on is shorter than the name, so
    any fuel from the length of the name on gives the same result. *)
Lemma makedirs_from_enough n m name w :
  (String.length name <= n)%nat -> (String.length name <= m)%nat ->
  makedirs_from n name w = makedirs_from m name w.
Proof.
  revert m name w. induction n as [|n IH]; intros m name w Hn Hm.
  - destruct name; [|simpl in Hn; lia]. now destruct m.
  - destruct m as [|m].
    { destruct name; [reflexivity|simpl in Hm; lia]. }
    rewrite !makedirs_from_S. unfold path_split.
    pose proof (path_split_length name) as H1.
    pose proof (path_split_length (dirname name)) as H2.
    destruct (after_last_slash name) as [|a t] eqn:E; cbn [nonempty negb].
    + destruct (after_last_slash (dirname name)) as [|b t'] eqn:E';
        cbn [nonempty].
      { now rewrite andb_false_r. }
      simpl in H2.
      destruct (nonempty (dirname (dirname name)) && true
                && negb (bool_decide (dirname (dirname name) ∈ w_dirs w)
                         || has_file w (dirname (dirname name))));
        [|reflexivity].
      rewrite (IH m (dirname (dirname name)) w) by lia. reflexivity.
    + simpl in H1.
      destruct (nonempty (dirname name) && true
                && negb (bool_decide (dirname name ∈ w_dirs w)
                         || has_file w (dirname name)));
        [|reflexivity].
      rewrite (IH m (dirname name) w) by lia. reflexivity.
Qed.

(** *** Paths that differ *)

Lemma append_inv_head a x y : a +:+ x = a +:+ y -> x = y.
Proof.
  induction a as [|c a IH]; [auto|]. rewrite !append_cons. intros E.
  inversion E. auto.
Qed.

Lemma append_not_self s t : nonempty t = true -> s +:+ t <> s.
Proof.
  intros Ht E. apply (f_equal String.length) in E.
  rewrite length_append_str in E. destruct t; [discriminate Ht|].
  simpl in E. lia.
Qed.

Lemma settings_path_plain u :
  plain_name u = true ->
  settings_path u = "data/" +:+ u +:+ "/settings.json"
  /\ dirname (settings_path u) = "data/" +:+ u.
Proof.
  intros H. unfold settings_path. rewrite (user_dir_plain u H).
  rewrite (user_file_plain u SETTINGS_FN H eq_refl).
  split; [reflexivity|].
  destruct (user_dir_end u H) as (Hn & He).
  change ("data/" +:+ u +:+ String "/" SETTINGS_FN)
    with ("data/" +:+ (u +:+ String "/" SETTINGS_FN)).
  rewrite <- append_assoc. now apply dirname_app.
Qed.

Lemma user_paths_apart u :
  plain_name u = true ->
  expenses_path u <> USERS_FILE /\ settings_path u <> USERS_FILE
  /\ settings_path u <> expenses_path u
  /\ expenses_path u <> "data" /\ expenses_path u <> "data/" +:+ u
  /\ expenses_path u <> "storage"
  /\ settings_path u <> "data" /\ settings_path u <> "data/" +:+ u
  /\ settings_path u <> "storage"
  /\ "data/" +:+ u <> USERS_FILE /\ "data/" +:+ u <> "storage".
Proof.
  intros H. rewrite (expenses_path_plain u H).
  destruct (settings_path_plain u H) as (-> & _).
  repeat split; try discriminate.
  - intros E. apply append_inv_head, append_inv_head in E. discriminate E.
  - rewrite <- append_assoc. now apply append_not_self.
  - rewrite <- append_assoc. now apply append_not_self.
Qed.

(** *** The users file *)

Lemma makedirs_storage_ok w r w0 :
  makedirs (dirname USERS_FILE) w = (r, w0) ->
  match r with
  | Returned _ =>
      w_files w0 = w_files w /\ w_clock w0 = w_clock w
      /\ w_ticks w0 = w_ticks w
      /\ w_dirs w0 = {[ "storage" ]} ∪ w_dirs w
      /\ "storage" ∈ w_dirs w0
  | Raised _ => w0 = w
  end.
Proof.
  rewrite makedirs_storage.
  destruct (bool_decide ("storage" ∈ w_dirs w)) eqn:E.
  - apply bool_decide_eq_true_1 in E. intros H; inversion H; subst.
    repeat split; auto. apply leibniz_equiv. intros x. split.
    + intros Hx. apply elem_of_union. now right.
    + intros Hx. apply elem_of_union in Hx. destruct Hx as [Hx|Hx]; auto.
      apply elem_of_singleton in Hx. now subst.
  - destruct (has_file w "storage"); intros H; inversion H; subst;
      [reflexivity|]. repeat split; auto. apply add_dir_in.
Qed.

Lemma storage_made w :
  "storage" ∈ w_dirs w -> makedirs (dirname USERS_FILE) w = (Returned tt, w).
Proof.
  intros H. rewrite makedirs_storage. now rewrite (bool_decide_eq_true_2 _ H).
Qed.

Lemma ensure_users_file_eq w :
  ensure_users_file w
  = match makedirs (dirname USERS_FILE) w with
    | (Returned _, w0) =>
        create_if_missing USERS_FILE (PDict [("users", PList [])]) w0
    | (Raised e, w0) => (Raised e, w0)
    end.
Proof. reflexivity. Qed.

Lemma users_file_not_storage : USERS_FILE <> "storage".
Proof. discriminate. Qed.

(** What [load_users] leaves behind when it returns. *)
Lemma load_users_ok w users w1 :
  load_users w = (Returned users, w1) ->
  "storage" ∈ w_dirs w1 /\ (USERS_FILE ∉ w_dirs w1)
  /\ w_dirs w1 = {[ "storage" ]} ∪ w_dirs w
  /\ w_clock w1 = w_clock w /\ w_ticks w1 = w_ticks w
  /\ (forall p, p <> USERS_FILE -> w_files w1 !! p = w_files w !! p)
  /\ exists f,
       w_files w1 !! USERS_FILE = Some f
       /\ f_readable f = true /\ f_data f = Json users
       /\ match w_files w !! USERS_FILE with
          | Some f0 => f = f0
          | None => f = file_of (PDict [("users", PList [])])
          end.
Proof.
  unfold load_users, io_bind. rewrite ensure_users_file_eq.
  destruct (makedirs (dirname USERS_FILE) w) as [[[]|e] w0] eqn:Hm;
    [|discriminate].
  destruct (makedirs_storage_ok _ _ _ Hm) as (Hf0 & Hc0 & Ht0 & Hd0 & Hs0).
  destruct (create_if_missing _ _ w0) as [[[]|e] wa] eqn:Hc; [|discriminate].
  destruct (create_if_missing_ok _ _ _ _ Hc) as (Hda & Hca & Hta & Hfa & Hua).
  unfold io, read_json.
  destruct (bool_decide (USERS_FILE ∈ w_dirs wa)) eqn:Ed; [discriminate|].
  apply bool_decide_eq_false_1 in Ed.
  destruct (w_files wa !! USERS_FILE) as [f|] eqn:Ef; [|discriminate].
  destruct (f_readable f) eqn:Er; [|discriminate].
  destruct (f_data f) as [v|] eqn:Ev; [|discriminate].
  intros H; inversion H; subst v w1; clear H.
  rewrite Hda, Hd0 in *. rewrite Hca, Hc0, Hta, Ht0.
  split; [apply elem_of_union; left; now apply elem_of_singleton|].
  split; [exact Ed|]. do 3 (split; [reflexivity|]).
  split; [intros p Hp; now rewrite (Hfa p Hp), Hf0|].
  exists f. repeat split; auto. rewrite Hf0 in Hua.
  destruct (w_files w !! USERS_FILE) as [f0|]; [congruence|].
  destruct (bool_decide _); congruence.
Qed.

(** The users file, once made, is read as it is. *)
Lemma load_users_present w f :
  "storage" ∈ w_dirs w -> USERS_FILE ∉ w_dirs w ->
  w_files w !! USERS_FILE = Some f -> f_readable f = true ->
  load_users w
  = (match f_data f with
     | Json users => Returned users
     | Garbage => Raised (Exn JSONDecodeError)
     end, w).
Proof.
  intros Hs Hd Hf Hr. unfold load_users, io_bind.
  rewrite ensure_users_file_eq, (storage_made w Hs), create_if_missing_eq.
  unfold has_file. rewrite Hf, orb_true_r.
  unfold io, read_json. rewrite (bool_decide_eq_false_2 _ Hd), Hf, Hr.
  now destruct (f_data f).
Qed.

Lemma save_users_eq users w :
  "storage" ∈ w_dirs w -> save_users users w = io (write_json USERS_FILE users) w.
Proof.
  intros Hs. unfold save_users, io_bind. now rewrite (storage_made w Hs).
Qed.

(** *** A user's folder *)

Lemma ensure_user_dir_exists_eq u w :
  ensure_user_dir_exists u w
  = match makedirs (join2 DATA_ROOT u) w with
    | (Returned _, wa) =>
        match create_if_missing (expenses_path u)
                (PDict [("expenses", PList [])]) wa with
        | (Returned _, wb) =>
            create_if_missing (settings_path u) DEFAULT_SETTINGS wb
        | (Raised e, wb) => (Raised e, wb)
        end
    | (Raised e, wa) => (Raised e, wa)
    end.
Proof.
  unfold ensure_user_dir_exists, create_if_missing, io_bind.
  destruct (makedirs (join2 DATA_ROOT u) w) as [[[]|e] wa]; [|reflexivity].
  change (join2 (join2 DATA_ROOT u) EXPENSES_FN) with (expenses_path u).
  change (join2 (join2 DATA_ROOT u) SETTINGS_FN) with (settings_path u).
  destruct (io (path_exists (expenses_path u)) wa) as [[present|e] wb];
    [|reflexivity].
  destruct (negb present); [|reflexivity].
  now destruct (io (write_json (expenses_path u) _) wb) as [[[]|e] wc].
Qed.

(** What [ensure_user_dir_exists] leaves behind when it returns: the
    folder, and in it a document where there was none. *)
Lemma ensure_user_dir_exists_ok u w w' :
  plain_name u = true ->
  ensure_user_dir_exists u w = (Returned tt, w') ->
  "data/" +:+ u ∈ w_dirs w'
  /\ w_dirs w ⊆ w_dirs w'
  /\ (forall p, p ∈ w_dirs w' ->
        p ∈ w_dirs w \/ p = "data" \/ p = "data/" +:+ u)
  /\ w_clock w' = w_clock w /\ w_ticks w' = w_ticks w
  /\ (forall q, q <> expenses_path u -> q <> settings_path u ->
        w_files w' !! q = w_files w !! q)
  /\ w_files w' !! expenses_path u
     = match w_files w !! expenses_path u with
       | Some f => Some f
       | None =>
           if bool_decide (expenses_path u ∈ w_dirs w) then None
           else Some (file_of (PDict [("expenses", PList [])]))
       end.
Proof.
  intros H. rewrite ensure_user_dir_exists_eq, (user_dir_plain u H).
  destruct (makedirs ("data/" +:+ u) w) as [[[]|e] wa] eqn:Hm; [|discriminate].
  destruct (user_dir_made u w _ wa H Hm)
    as (Hfa & Hca & Hta & Hsub & Hsup & Hin & _).
  destruct (create_if_missing (expenses_path u) _ wa) as [[[]|e] wb] eqn:Hb;
    [|discriminate].
  destruct (create_if_missing_ok _ _ _ _ Hb) as (Hdb & Hcb & Htb & Hfb & Hub).
  intros Hc.
  destruct (create_if_missing_ok _ _ _ _ Hc) as (Hdc & Hcc & Htc & Hfc & Huc).
  destruct (user_paths_apart u H)
    as (_ & _ & Hse & He1 & He2 & _).
  rewrite Hdc, Hdb, Hcc, Hcb, Hca, Htc, Htb, Hta.
  repeat split; auto.
  - intros q Hq1 Hq2. now rewrite (Hfc q Hq2), (Hfb q Hq1), Hfa.
  - rewrite (Hfc _ (not_eq_sym Hse)), Hub, Hfa.
    destruct (w_files w !! expenses_path u); [reflexivity|].
    destruct (bool_decide (expenses_path u ∈ w_dirs wa)) eqn:E1;
      destruct (bool_decide (expenses_path u ∈ w_dirs w)) eqn:E2;
      try reflexivity.
    + apply bool_decide_eq_true_1 in E1. apply bool_decide_eq_false_1 in E2.
      destruct (Hsup _ E1) as [?|[?|?]]; contradiction.
    + apply bool_decide_eq_false_1 in E1. apply bool_decide_eq_true_1 in E2.
      exfalso. apply E1. now apply Hsub.
Qed.

(** *** Records *)

Lemma first_match_false test l :
  first_match test l = Ok false <-> Forall (fun r => test r = Ok false) l.
Proof.
  induction l as [|r l IH]; simpl.
  - split; [constructor|reflexivity].
  - split.
    + destruct (test r) as [[]|e] eqn:E; simpl; try discriminate.
      intros H. constructor; [exact E|now apply IH].
    + intros H. inversion H as [|? ? E Hl]; subst. rewrite E. simpl.
      now apply IH.
Qed.

Lemma first_match_last test l x :
  first_match test l = Ok false ->
  first_match test (l ++ [x]) = first_match test [x].
Proof.
  induction l as [|r l IH]; [reflexivity|]. simpl.
  destruct (test r) as [[]|e]; simpl; try discriminate. exact IH.
Qed.

Lemma name_test_false u r :
  (let* name := py_get r "username" PNone in Ok (py_eq name (PStr u)))%res
  = Ok false ->
  is_record r = true /\ answers_to u r = false.
Proof.
  destruct r; simpl; try discriminate. intros H. inversion H as [E].
  unfold get_or_None in *. now rewrite E.
Qed.

Lemma name_test_record u r :
  is_record r = true ->
  (let* name := py_get r "username" PNone in Ok (py_eq name (PStr u)))%res
  = Ok (answers_to u r).
Proof. destruct r; simpl; try discriminate. reflexivity. Qed.

Lemma dict_get_set d k v0 v :
  dict_get d k = Some v0 -> dict_get (dict_set d k v) k = Some v.
Proof.
  induction d as [|[k' v'] d IH]; simpl; [discriminate|].
  destruct (String.eqb k' k) eqn:E; simpl; rewrite E; auto.
Qed.

Lemma username_exists_records d l u :
  dict_get d "users" = Some (PList l) ->
  username_exists (PDict d) u
  = first_match
      (fun r => let* name := py_get r "username" PNone in
                Ok (py_eq name (PStr u)))%res l.
Proof.
  intros H. unfold username_exists. cbn [py_get rbind]. unfold get_or.
  rewrite H. reflexivity.
Qed.

Lemma existsb_answers u l :
  Forall (fun r => is_record r = true /\ answers_to u r = false) l ->
  existsb (answers_to u) l = false.
Proof.
  induction 1 as [|r l [_ Hr] _ IH]; [reflexivity|]. simpl.
  now rewrite Hr.
Qed.

(** *** Registration *)

(** What [register_user] leaves behind when it returns. *)
Lemma register_user_ok u p w w' :
  plain_name u = true ->
  register_user u p w = (Returned tt, w') ->
  exists d l f',
    registered w = Some l
    /\ dict_get d "users" = Some (PList l)
    /\ Forall (fun r => is_record r = true /\ answers_to u r = false) l
    /\ w_files w' !! USERS_FILE = Some f'
    /\ f_readable f' = true
    /\ f_data f'
       = Json (PDict (dict_set d "users" (PList (l ++ [record_of u p]))))
    /\ "storage" ∈ w_dirs w' /\ (USERS_FILE ∉ w_dirs w')
    /\ "data/" +:+ u ∈ w_dirs w'
    /\ (forall q, q ∈ w_dirs w' ->
          q ∈ w_dirs w \/ q = "storage" \/ q = "data" \/ q = "data/" +:+ u)
    /\ w_dirs w ⊆ w_dirs w'
    /\ w_files w' !! expenses_path u
       = match w_files w !! expenses_path u with
         | Some f => Some f
         | None =>
             if bool_decide (expenses_path u ∈ w_dirs w) then None
             else Some (file_of (PDict [("expenses", PList [])]))
         end
    /\ (forall q, q <> USERS_FILE -> q <> expenses_path u ->
          q <> settings_path u -> w_files w' !! q = w_files w !! q)
    /\ w_clock w' = w_clock w /\ w_ticks w' = w_ticks w.
Proof.
  intros Hu. unfold register_user, io_bind.
  destruct (load_users w) as [[users|e] w1] eqn:Hl; [|discriminate].
  destruct (load_users_ok _ _ _ Hl)
    as (Hs1 & Hnd1 & Hd1 & Hc1 & Ht1 & Hf1 & f & Hf & Hr & Hdata & Hwas).
  rewrite pure_eq.
  destruct (username_exists users u) as [taken|e] eqn:Hex; [|discriminate].
  destruct taken; cbn [negb]; [discriminate|].
  rewrite pure_eq.
  destruct users as [| | | | | |d]; try discriminate Hex.
  cbn [py_getitem].
  destruct (dict_get d "users") as [records|] eqn:Hg; [|discriminate].
  rewrite pure_eq.
  destruct records as [| | | | |l|]; cbn [py_append]; try discriminate.
  cbn [py_setitem].
  rewrite (username_exists_records d l u Hg) in Hex.
  apply first_match_false in Hex.
  rewrite (save_users_eq _ w1 Hs1). unfold io at 1, write_json.
  rewrite (bool_decide_eq_false_2 _ Hnd1), Hf.
  destruct (f_writable f); [|discriminate].
  set (w2 := set_files w1 _).
  intros He.
  destruct (ensure_user_dir_exists_ok u w2 w' Hu He)
    as (Hin & Hsub & Hsup & Hc & Ht & Hfr & Hexp).
  destruct (user_paths_apart u Hu)
    as (Heu & Hsu & _ & He1 & He2 & He3 & _ & _ & _ & Hdu & Hds).
  exists d, l,
    {| f_readable := f_readable f; f_writable := true;
       f_data := Json (PDict (dict_set d "users"
                                (PList (l ++ [record_of u p])))) |}.
  split.
  { unfold registered.
    destruct (w_files w !! USERS_FILE) as [f0|] eqn:E0.
    - subst f0. now rewrite Hdata, Hg.
    - subst f. simpl in Hdata. inversion Hdata; subst d.
      simpl in Hg. now inversion Hg. }
  split; [exact Hg|]. split.
  { revert Hex. apply List.Forall_impl. intros r. apply name_test_false. }
  split.
  { rewrite (Hfr _ (not_eq_sym Heu) (not_eq_sym Hsu)). unfold w2. simpl.
    apply lookup_insert_eq. }
  split; [exact Hr|]. split; [reflexivity|].
  assert (Hd2 : w_dirs w2 = {[ "storage" ]} ∪ w_dirs w) by exact Hd1.
  split; [apply Hsub; rewrite Hd2; apply elem_of_union; left;
          now apply elem_of_singleton|].
  split.
  { intros Hin'. destruct (Hsup _ Hin') as [H|[H|H]];
      [contradiction|discriminate H|].
    symmetry in H. contradiction. }
  split; [exact Hin|]. split.
  { intros q Hq. destruct (Hsup q Hq) as [H|[H|H]]; auto.
    rewrite Hd2 in H. apply elem_of_union in H. destruct H as [H|H]; auto.
    apply elem_of_singleton in H. auto. }
  split.
  { intros q Hq. apply Hsub. rewrite Hd2. apply elem_of_union. now right. }
  split.
  { rewrite Hexp. unfold w2. simpl.
    rewrite lookup_insert_ne by (apply not_eq_sym; exact Heu).
    rewrite (Hf1 _ Heu).
    destruct (w_files w !! expenses_path u); [reflexivity|].
    rewrite Hd1.
    destruct (bool_decide (expenses_path u ∈ w_dirs w)) eqn:E.
    - apply bool_decide_eq_true_1 in E. rewrite bool_decide_eq_true_2;
        [reflexivity|]. apply elem_of_union. now right.
    - apply bool_decide_eq_false_1 in E. rewrite bool_decide_eq_false_2;
        [reflexivity|]. intros H. apply elem_of_union in H.
      destruct H as [H|H]; [|contradiction].
      apply elem_of_singleton in H. contradiction. }
  split.
  { intros q Hq1 Hq2 Hq3. rewrite (Hfr q Hq2 Hq3). unfold w2. simpl.
    rewrite lookup_insert_ne by (apply not_eq_sym; exact Hq1).
    now apply Hf1. }
  split; [now rewrite Hc|now rewrite Ht].
Qed.

(** The world [register_user] leaves is one [load_users] reads without
    writing. *)
Lemma register_user_then_load u p w w' :
  plain_name u = true ->
  register_user u p w = (Returned tt, w') ->
  exists d l,
    load_users w'
    = (Returned (PDict (dict_set d "users" (PList (l ++ [record_of u p])))),
       w')
    /\ dict_get d "users" = Some (PList l)
    /\ Forall (fun r => is_record r = true /\ answers_to u r = false) l.
Proof.
  intros Hu H.
  destruct (register_user_ok u p w w' Hu H)
    as (d & l & f' & _ & Hg & Hall & Hf' & Hr & Hdata & Hs & Hnd & _).
  exists d, l. split; [|auto].
  rewrite (load_users_present w' f' Hs Hnd Hf' Hr), Hdata. reflexivity.
Qed.

(** X14. After [register_user] returned, [authenticate_user] accepts the
    username with the password it was registered with, and with no other:
    it returns whether the password given is the registered one, and
    writes nothing. *)
Theorem register_then_authenticate (u p q : string) (w w' : world) :
  plain_name u = true ->
  register_user u p w = (Returned tt, w') ->
  authenticate_user u q w' = (Returned (String.eqb p q), w').
Proof.
  intros Hu H.
  destruct (register_user_then_load u p w w' Hu H) as (d & l & Hl & Hg & Hall).
  unfold authenticate_user, io_bind. rewrite Hl, pure_eq.
  cbn [py_get rbind]. unfold get_or. rewrite (dict_get_set d _ _ _ Hg).
  cbn [py_iter rbind].
  rewrite first_match_last.
  - simpl. rewrite String.eqb_refl. simpl. now destruct (String.eqb p q).
  - apply first_match_false. revert Hall. apply List.Forall_impl.
    intros r [Hr Ha]. destruct r; try discriminate Hr. simpl in *.
    now rewrite Ha.
Qed.

Lemma register_then_authenticate_witness :
  plain_name "alice" = true
  /\ register_user "alice" "secret" world_booted = (Returned tt, world_alice)
  /\ authenticate_user "alice" "secret" world_alice
     = (Returned true, world_alice)
  /\ authenticate_user "alice" "Secret" world_alice
     = (Returned false, world_alice).
Proof.
  assert (H : register_user "alice" "secret" world_booted
              = (Returned tt, world_alice)).
  { unfold world_alice.
    destruct (register_user "alice" "secret" world_booted) as [r w'] eqn:E.
    assert (Hr : r = Returned tt).
    { change r with (fst (r, w')). rewrite <- E. vm_compute. reflexivity. }
    now subst r. }
  split; [reflexivity|]. split; [exact H|]. split.
  - exact (register_then_authenticate "alice" "secret" "secret" world_booted
             world_alice eq_refl H).
  - exact (register_then_authenticate "alice" "secret" "Secret" world_booted
             world_alice eq_refl H).
Defined.

(** X15. A username is registered once.  After [register_user] returned,
    registering the same username again, with any password, raises
    [ValueError("username already exists")] and changes nothing. *)
Theorem register_twice_fails (u p q : string) (w w' : world) :
  plain_name u = true ->
  register_user u p w = (Returned tt, w') ->
  register_user u q w'
  = (Raised (Exn (ValueError "username already exists")), w').
Proof.
  intros Hu H.
  destruct (register_user_then_load u p w w' Hu H) as (d & l & Hl & Hg & Hall).
  unfold register_user, io_bind. rewrite Hl, pure_eq.
  rewrite (username_exists_records _ (l ++ [record_of u p]) u
             (dict_get_set d _ _ _ Hg)).
  rewrite first_match_last.
  - simpl. now rewrite String.eqb_refl.
  - apply first_match_false. revert Hall. apply List.Forall_impl.
    intros r [Hr Ha]. now rewrite (name_test_record u r Hr), Ha.
Qed.

Lemma register_twice_fails_witness :
  plain_name "alice" = true
  /\ register_user "alice" "secret" world_booted = (Returned tt, world_alice)
  /\ register_user "alice" "other" world_alice
     = (Raised (Exn (ValueError "username already exists")), world_alice).
Proof.
  assert (H : register_user "alice" "secret" world_booted
              = (Returned tt, world_alice)).
  { unfold world_alice.
    destruct (register_user "alice" "secret" world_booted) as [r w'] eqn:E.
    assert (Hr : r = Returned tt).
    { change r with (fst (r, w')). rewrite <- E. vm_compute. reflexivity. }
    now subst r. }
  split; [reflexivity|]. split; [exact H|].
  exact (register_twice_fails "alice" "secret" "other" world_booted
           world_alice eq_refl H).
Defined.

Lemma filter_answers_none u l :
  Forall (fun r => is_record r = true /\ answers_to u r = false) l ->
  List.filter (answers_to u) l = [].
Proof.
  induction 1 as [|r l [_ Hr] _ IH]; [reflexivity|]. simpl.
  now rewrite Hr.
Qed.

(** X16. [register_user] adds one record and keeps names unique.  When it
    returns, the users file holds the records it held, in their order,
    followed by the new one; none of the records it held answered to the
    username; and if no two of them answered to one name, no two records
    do now. *)
Theorem register_user_appends (u p : string) (w w' : world) :
  plain_name u = true ->
  register_user u p w = (Returned tt, w') ->
  exists old,
    registered w = Some old
    /\ registered w' = Some (old ++ [record_of u p])
    /\ existsb (answers_to u) old = false
    /\ (names_unique old -> names_unique (old ++ [record_of u p])).
Proof.
  intros Hu H.
  destruct (register_user_ok u p w w' Hu H)
    as (d & l & f' & Hreg & Hg & Hall & Hf' & _ & Hdata & _).
  exists l. split; [exact Hreg|]. split.
  { unfold registered. rewrite Hf', Hdata.
    now rewrite (dict_get_set d _ _ _ Hg). }
  split; [now apply existsb_answers|].
  intros Huniq name. rewrite List.filter_app, length_app.
  destruct (String.eqb_spec u name) as [<-|Hne].
  - rewrite (filter_answers_none u l Hall). simpl.
    rewrite String.eqb_refl. simpl. lia.
  - assert (E : answers_to name (record_of u p) = false).
    { simpl. now apply String.eqb_neq. }
    cbn [List.filter]. rewrite E. cbn [length]. specialize (Huniq name). lia.
Qed.

Lemma register_user_appends_witness :
  plain_name "alice" = true
  /\ register_user "alice" "secret" world_booted = (Returned tt, world_alice)
  /\ registered world_booted = Some []
  /\ registered world_alice = Some [record_of "alice" "secret"].
Proof.
  assert (H : register_user "alice" "secret" world_booted
              = (Returned tt, world_alice)).
  { unfold world_alice.
    destruct (register_user "alice" "secret" world_booted) as [r w'] eqn:E.
    assert (Hr : r = Returned tt).
    { change r with (fst (r, w')). rewrite <- E. vm_compute. reflexivity. }
    now subst r. }
  destruct (register_user_appends "alice" "secret" world_booted world_alice
              eq_refl H) as (old & Hold & Hnew & _).
  assert (Hb : registered world_booted = Some []) by reflexivity.
  rewrite Hb in Hold. inversion Hold; subst old.
  split; [reflexivity|]. split; [exact H|]. split; [exact Hb|exact Hnew].
Defined.

(** X17. Registration readies the store.  After [register_user] returned
    for a user at whose document nothing was, the document is the empty
    collection in the user's folder: [load_expenses] returns the empty list
    and writes nothing, and the store is one [add_expense] can write to. *)
Theorem register_user_readies_store (u p : string) (w w' : world) :
  plain_name u = true ->
  register_user u p w = (Returned tt, w') ->
  w_files w !! expenses_path u = None ->
  expenses_path u ∉ w_dirs w ->
  load_expenses u w' = (Ok (PList []), w')
  /\ store_ready w' u = true
  /\ stored_items w' u = Some []
  /\ dirname (expenses_path u) ∈ w_dirs w'.
Proof.
  intros Hu H Hnone Hnd.
  destruct (register_user_ok u p w w' Hu H)
    as (d & l & f' & _ & _ & _ & _ & _ & _ & _ & _ & Hdir & Hsup & _ & Hexp & _).
  rewrite Hnone, (bool_decide_eq_false_2 _ Hnd) in Hexp.
  destruct (user_paths_apart u Hu) as (_ & _ & _ & He1 & He2 & He3 & _).
  assert (Hnd' : expenses_path u ∉ w_dirs w').
  { intros Hin. destruct (Hsup _ Hin) as [?|[?|[?|?]]]; contradiction. }
  split; [|split; [|split]].
  - rewrite (load_expenses_present u w' _ Hnd' Hexp). reflexivity.
  - unfold store_ready. rewrite (bool_decide_eq_false_2 _ Hnd'), Hexp.
    reflexivity.
  - unfold stored_items. rewrite Hexp. reflexivity.
  - now rewrite (expenses_dir_plain u Hu).
Qed.

Lemma register_user_readies_store_witness :
  plain_name "alice" = true
  /\ register_user "alice" "secret" world_booted = (Returned tt, world_alice)
  /\ w_files world_booted !! expenses_path "alice" = None
  /\ load_expenses "alice" world_alice = (Ok (PList []), world_alice)
  /\ store_ready world_alice "alice" = true.
Proof.
  assert (H : register_user "alice" "secret" world_booted
              = (Returned tt, world_alice)).
  { unfold world_alice.
    destruct (register_user "alice" "secret" world_booted) as [r w'] eqn:E.
    assert (Hr : r = Returned tt).
    { change r with (fst (r, w')). rewrite <- E. vm_compute. reflexivity. }
    now subst r. }
  assert (Hnd : expenses_path "alice" ∉ w_dirs world_booted).
  { unfold world_booted. cbn [w_dirs]. intros Hin.
    apply elem_of_union in Hin. destruct Hin as [Hin|Hin];
      apply elem_of_singleton in Hin; discriminate Hin. }
  destruct (register_user_readies_store "alice" "secret" world_booted
              world_alice eq_refl H eq_refl Hnd) as (Hl & Hr & _).
  split; [reflexivity|]. split; [exact H|]. split; [reflexivity|].
  split; [exact Hl|exact Hr].
Defined.

(** *** When registration succeeds *)




(** *** Scaffolding *)

Lemma create_if_missing_there p v w w' :
  create_if_missing p v w = (Returned tt, w') ->
  (forall q f, w_files w !! q = Some f -> w_files w' !! q = Some f)
  /\ bool_decide (p ∈ w_dirs w') || has_file w' p = true.
Proof.
  intros H. destruct (create_if_missing_ok p v w w' H) as (Hd & _ & _ & Hf & Hp).
  split.
  - intros q f Hq. destruct (decide (q = p)) as [->|Hne].
    + now rewrite Hp, Hq.
    + now rewrite (Hf q Hne).
  - unfold has_file. rewrite Hp, Hd.
    destruct (w_files w !! p); [apply orb_true_r|].
    now destruct (bool_decide (p ∈ w_dirs w)).
Qed.

Lemma there_stays p w w' :
  w_dirs w ⊆ w_dirs w' ->
  (forall q f, w_files w !! q = Some f -> w_files w' !! q = Some f) ->
  bool_decide (p ∈ w_dirs w) || has_file w p = true ->
  bool_decide (p ∈ w_dirs w') || has_file w' p = true.
Proof.
  intros Hd Hf H. apply orb_true_iff in H. apply orb_true_iff.
  destruct H as [H|H].
  - left. apply bool_decide_eq_true_1 in H. apply bool_decide_eq_true_2.
    now apply Hd.
  - right. unfold has_file in *.
    destruct (w_files w !! p) as [f|] eqn:E; [|discriminate H].
    now rewrite (Hf p f E).
Qed.

(** X19. [boot] prepares once and for all.  When it returns, the folders
    [storage] and [data] are there and something is at the users file; no
    file that was there has been touched; and a second [boot] returns and
    changes nothing. *)
Theorem boot_idempotent (w w1 : world) :
  boot w = (Returned tt, w1) ->
  boot w1 = (Returned tt, w1)
  /\ "storage" ∈ w_dirs w1 /\ "data" ∈ w_dirs w1
  /\ bool_decide (USERS_FILE ∈ w_dirs w1) || has_file w1 USERS_FILE = true
  /\ (forall q f, w_files w !! q = Some f -> w_files w1 !! q = Some f)
  /\ (w_files w !! USERS_FILE = None -> USERS_FILE ∉ w_dirs w ->
      w_files w1 !! USERS_FILE = Some (file_of (PDict [("users", PList [])]))).
Proof.
  unfold boot, io_bind. rewrite ensure_users_file_eq.
  destruct (makedirs (dirname USERS_FILE) w) as [[[]|e] w0] eqn:Hm;
    [|discriminate].
  destruct (makedirs_storage_ok _ _ _ Hm) as (Hf0 & _ & _ & Hd0 & Hs0).
  destruct (create_if_missing _ _ w0) as [[[]|e] wa] eqn:Hc; [|discriminate].
  destruct (create_if_missing_ok _ _ _ _ Hc) as (Hda & _ & _ & _ & Hua).
  destruct (create_if_missing_there _ _ _ _ Hc) as (Hmono & Hthere).
  rewrite makedirs_data.
  assert (Hgoal : forall w1 : world,
    w_files w1 = w_files wa -> w_dirs wa ⊆ w_dirs w1 -> "data" ∈ w_dirs w1 ->
    (match ensure_users_file w1 with
     | (Returned _, w') => makedirs DATA_ROOT w'
     | (Raised e, w') => (Raised e, w')
     end = (Returned tt, w1))
    /\ "storage" ∈ w_dirs w1 /\ "data" ∈ w_dirs w1
    /\ bool_decide (USERS_FILE ∈ w_dirs w1) || has_file w1 USERS_FILE = true
    /\ (forall q f, w_files w !! q = Some f -> w_files w1 !! q = Some f)
    /\ (w_files w !! USERS_FILE = None -> USERS_FILE ∉ w_dirs w ->
        w_files w1 !! USERS_FILE
        = Some (file_of (PDict [("users", PList [])])))).
  { intros w2 Hf2 Hd2 Hdata.
    assert (Hs2 : "storage" ∈ w_dirs w2) by (apply Hd2; now rewrite Hda).
    assert (Ht2 : bool_decide (USERS_FILE ∈ w_dirs w2) || has_file w2 USERS_FILE
                  = true).
    { apply (there_stays _ wa w2 Hd2); [|exact Hthere].
      intros q f. now rewrite Hf2. }
    split.
    { rewrite ensure_users_file_eq, (storage_made w2 Hs2),
        create_if_missing_eq, Ht2, makedirs_data.
      now rewrite (bool_decide_eq_true_2 _ Hdata). }
    split; [exact Hs2|]. split; [exact Hdata|]. split; [exact Ht2|]. split.
    { intros q f Hq. rewrite Hf2. apply Hmono. now rewrite Hf0. }
    intros Hnone Hnd. rewrite Hf2, Hua, Hf0, Hnone, Hd0.
    rewrite bool_decide_eq_false_2; [reflexivity|].
    intros Hin. apply elem_of_union in Hin. destruct Hin as [Hin|Hin];
      [|contradiction]. apply elem_of_singleton in Hin. discriminate Hin. }
  destruct (bool_decide ("data" ∈ w_dirs wa)) eqn:E.
  - intros H; inversion H; subst w1. apply Hgoal; auto.
    exact (bool_decide_eq_true_1 _ E).
  - destruct (has_file wa "data"); [discriminate|].
    intros H; inversion H; subst w1. apply Hgoal.
    + reflexivity.
    + simpl. apply union_subseteq_r.
    + apply add_dir_in.
Qed.

Lemma boot_idempotent_witness :
  boot world_empty = (Returned tt, world_booted)
  /\ boot world_booted = (Returned tt, world_booted)
  /\ w_files world_booted !! USERS_FILE
     = Some (file_of (PDict [("users", PList [])])).
Proof.
  assert (H : boot world_empty = (Returned tt, world_booted)).
  { vm_compute. reflexivity. }
  destruct (boot_idempotent world_empty world_booted H)
    as (H1 & _ & _ & _ & _ & H2).
  split; [exact H|]. split; [exact H1|reflexivity].
Defined.

(** X20. [ensure_user_dir_exists] fills in what is missing and no more.
    When it returns, the user's folder is there, no file that was there has
    been touched, so a document that holds entries keeps them, and a
    second call returns and changes nothing. *)
Theorem ensure_user_dir_exists_idempotent (u : string) (w w' : world) :
  plain_name u = true ->
  ensure_user_dir_exists u w = (Returned tt, w') ->
  ensure_user_dir_exists u w' = (Returned tt, w')
  /\ join2 DATA_ROOT u ∈ w_dirs w'
  /\ (forall q f, w_files w !! q = Some f -> w_files w' !! q = Some f)
  /\ (forall v, stored_items w v <> Some [] ->
                stored_items w' v = stored_items w v).
Proof.
  intros Hu. rewrite !ensure_user_dir_exists_eq, (user_dir_plain u Hu).
  destruct (makedirs ("data/" +:+ u) w) as [[[]|e] wa] eqn:Hm; [|discriminate].
  destruct (user_dir_made u w _ wa Hu Hm)
    as (Hfa & _ & _ & Hsub & _ & Hin & Hdata).
  specialize (Hin eq_refl). specialize (Hdata eq_refl).
  destruct (create_if_missing (expenses_path u) _ wa) as [[[]|e] wb] eqn:Hb;
    [|discriminate].
  destruct (create_if_missing_ok _ _ _ _ Hb) as (Hdb & _).
  destruct (create_if_missing_there _ _ _ _ Hb) as (Hmb & Htb).
  intros Hc.
  destruct (create_if_missing_ok _ _ _ _ Hc) as (Hdc & _).
  destruct (create_if_missing_there _ _ _ _ Hc) as (Hmc & Htc).
  assert (Hmono : forall q f, w_files w !! q = Some f ->
                              w_files w' !! q = Some f).
  { intros q f Hq. apply Hmc, Hmb. now rewrite Hfa. }
  assert (Hin' : "data/" +:+ u ∈ w_dirs w') by (now rewrite Hdc, Hdb).
  split; [|split; [exact Hin'|split; [exact Hmono|]]].
  - rewrite (makedirs_user_dir u w' Hu).
    assert (E : bool_decide ("data" ∈ w_dirs w') || has_file w' "data" = true).
    { apply (there_stays _ wa w'); [now rewrite Hdc, Hdb| |exact Hdata].
      intros q f Hq. now apply Hmc, Hmb. }
    rewrite E. destruct (user_dir_split u Hu) as (Hd & _).
    rewrite mkdir_exist_ok_in by (try rewrite Hd; reflexivity).
    rewrite (bool_decide_eq_true_2 _ Hin').
    rewrite create_if_missing_eq.
    assert (E2 : bool_decide (expenses_path u ∈ w_dirs w')
                 || has_file w' (expenses_path u) = true).
    { apply (there_stays _ wb w'); [now rewrite Hdc|exact Hmc|exact Htb]. }
    rewrite E2, create_if_missing_eq, Htc. reflexivity.
  - intros v Hv. unfold stored_items in *.
    destruct (w_files w !! expenses_path v) as [f|] eqn:E.
    + now rewrite (Hmono _ f E).
    + now contradiction Hv.
Qed.

Lemma ensure_user_dir_exists_idempotent_witness :
  plain_name "alice" = true
  /\ fst (ensure_user_dir_exists "alice" world_three) = Returned tt
  /\ stored_items (snd (ensure_user_dir_exists "alice" world_three)) "alice"
     = Some [entry_of "exp_1" "2024-01-01" "Food";
             entry_of "exp_2" "2024-01-15" "Bills";
             entry_of "exp_3" "2024-02-01" "Food"]
  /\ ensure_user_dir_exists "alice"
       (snd (ensure_user_dir_exists "alice" world_three))
     = (Returned tt, snd (ensure_user_dir_exists "alice" world_three)).
Proof.
  destruct (ensure_user_dir_exists "alice" world_three) as [r w'] eqn:H.
  assert (Hr : r = Returned tt).
  { change r with (fst (r, w')). rewrite <- H. vm_compute. reflexivity. }
  subst r.
  destruct (ensure_user_dir_exists_idempotent "alice" world_three w' eq_refl H)
    as (H1 & _ & _ & H2).
  split; [reflexivity|]. split; [reflexivity|]. cbn [snd]. split.
  - rewrite H2; [reflexivity|discriminate].
  - exact H1.
Defined.

(** *** The session *)

Lemma session_ok_home u s : session_ok (go_home u s).
Proof. right. split; [reflexivity|]. now exists u. Qed.

(** X21. The session follows the actions.  A session that agrees with its
    screen still does after a logout, a login or a registration.  A login
    or a registration that says it went well is one whose
    [authenticate_user] returned [True], or whose [register_user] returned,
    and it leaves the user on [HOME]; one that says it did not leaves the
    session as it was, and for a registration that is when [register_user]
    raised a [ValueError], whose text is the message. *)
Theorem session_follows_actions (text u p : string) (s : session)
    (w : world) :
  session_ok s ->
  session_ok (action_logout s)
  /\ state (action_logout s) = "AUTH"
  /\ (forall res s' w',
        action_login u p s w = (Returned (res, s'), w') ->
        session_ok s'
        /\ authenticate_user u p w = (Returned (said_ok res), w')
        /\ s' = if said_ok res then go_home u s else s)
  /\ (forall res s' w',
        action_register text u p s w = (Returned (res, s'), w') ->
        session_ok s'
        /\ s' = (if said_ok res then go_home u s else s)
        /\ if said_ok res
           then register_user u p w = (Returned tt, w')
           else exists e,
                  register_user u p w = (Raised (Exn e), w')
                  /\ is_ValueError e = true
                  /\ py_getitem res "message" = Ok (PStr (error_text text e))).
Proof.
  intros Hs. split; [left; split; reflexivity|]. split; [reflexivity|]. split.
  - intros res s' w'. unfold action_login, io_bind, io_ret.
    destruct (authenticate_user u p w) as [[[]|e] w1]; intros H;
      inversion H; subst; simpl; auto using session_ok_home.
  - intros res s' w'. unfold action_register.
    destruct (register_user u p w) as [[[]|[e| |]] w1]; try discriminate.
    + intros H; inversion H; subst; simpl. auto using session_ok_home.
    + destruct (is_ValueError e) eqn:E; [|discriminate].
      intros H; inversion H; subst; simpl. repeat split; auto.
      exists e. auto.
Qed.

Lemma session_follows_actions_witness :
  fst (action_register "" "alice" "secret" session_start world_booted)
  = Returned (PDict [("ok", PBool true);
                     ("message", PStr "registered and logged in")],
              {| state := "HOME";
                 current_user := PDict [("username", PStr "alice")] |})
  /\ fst (action_login "alice" "wrong" session_start world_alice)
     = Returned (PDict [("ok", PBool false);
                        ("message", PStr "invalid credentials")],
                 session_start)
  /\ fst (action_register "" "alice" "other" session_start world_alice)
     = Returned (PDict [("ok", PBool false);
                        ("message", PStr "username already exists")],
                 session_start)
  /\ session_ok (action_logout
                   {| state := "HOME";
                      current_user := PDict [("username", PStr "alice")] |}).
Proof.
  assert (Hs : session_ok session_start) by (left; split; reflexivity).
  destruct (session_follows_actions "" "alice" "secret"
              {| state := "HOME";
                 current_user := PDict [("username", PStr "alice")] |}
              world_booted (session_ok_home "alice" session_start))
    as (Hout & _).
  split; [vm_compute; reflexivity|]. split; [vm_compute; reflexivity|].
  split; [vm_compute; reflexivity|exact Hout].
Defined.

(** X22. A users file that is not JSON stops both doors, in two ways:
    [action_register] catches the decoder's [ValueError] and answers that
    the registration failed, with the decoder's message, while
    [action_login] lets the exception through; neither changes the session
    nor the files. *)
Theorem corrupt_users_file (text u p : string) (s : session) (w : world)
    (f : file) :
  "storage" ∈ w_dirs w -> USERS_FILE ∉ w_dirs w ->
  w_files w !! USERS_FILE = Some f ->
  f_readable f = true -> f_data f = Garbage ->
  action_register text u p s w
  = (Returned (PDict [("ok", PBool false); ("message", PStr text)], s), w)
  /\ action_login u p s w = (Raised (Exn JSONDecodeError), w)
  /\ register_user u p w = (Raised (Exn JSONDecodeError), w)
  /\ authenticate_user u p w = (Raised (Exn JSONDecodeError), w).
Proof.
  intros Hs Hnd Hf Hr Hg.
  assert (Hl : load_users w = (Raised (Exn JSONDecodeError), w)).
  { rewrite (load_users_present w f Hs Hnd Hf Hr), Hg. reflexivity. }
  assert (Hreg : register_user u p w = (Raised (Exn JSONDecodeError), w)).
  { unfold register_user, io_bind. now rewrite Hl. }
  assert (Hauth : authenticate_user u p w = (Raised (Exn JSONDecodeError), w)).
  { unfold authenticate_user, io_bind. now rewrite Hl. }
  split; [|split; [|split; assumption]].
  - unfold action_register. rewrite Hreg. reflexivity.
  - unfold action_login, io_bind. now rewrite Hauth.
Qed.

Lemma corrupt_users_file_witness :
  ("storage" ∈ w_dirs world_users_corrupt)
  /\ action_register "Expecting value" "alice" "secret" session_start
       world_users_corrupt
     = (Returned (PDict [("ok", PBool false);
                         ("message", PStr "Expecting value")],
                  session_start), world_users_corrupt)
  /\ action_login "alice" "secret" session_start world_users_corrupt
     = (Raised (Exn JSONDecodeError), world_users_corrupt).
Proof.
  assert (Hs : "storage" ∈ w_dirs world_users_corrupt).
  { unfold world_users_corrupt. cbn [w_dirs]. apply elem_of_union. left.
    now apply elem_of_singleton. }
  assert (Hnd : USERS_FILE ∉ w_dirs world_users_corrupt).
  { unfold world_users_corrupt. cbn [w_dirs]. intros H.
    apply elem_of_union in H. destruct H as [H|H];
      apply elem_of_singleton in H; discriminate H. }
  destruct (corrupt_users_file "Expecting value" "alice" "secret"
              session_start world_users_corrupt
              {| f_readable := true; f_writable := true; f_data := Garbage |}
              Hs Hnd eq_refl eq_refl eq_refl) as (H1 & H2 & _).
  split; [exact Hs|]. split; [exact H1|exact H2].
Defined.

(** ** Lookups and listings, further *)




Lemma str_le_lt_false lo d hi :
  str_le lo d = true -> str_le d hi = true -> str_lt hi lo = true -> False.
Proof.
  unfold str_le, str_lt. intros H1 H2 H3.
  destruct (String.compare hi lo) eqn:C; try discriminate H3.
  destruct (String.compare lo d) eqn:C1; try discriminate H1.
  - apply str_compare_eq in C1. subst d.
    rewrite String.compare_antisym, C in H2. discriminate H2.
  - pose proof (str_compare_lt_trans _ _ _ C C1) as C2.
    rewrite String.compare_antisym, C2 in H2. discriminate H2.
Qed.

(** X24. A range that ends before it starts lists nothing: with a
    [from_date] later than the [to_date], both strings, [list_expenses]
    returns the empty list, whatever is stored, and raises nothing. *)
Theorem list_expenses_empty_range (u : string) (filters : pydict)
    (w w1 : world) (items : list pyval) (lo hi : string) :
  load_expenses u w = (Ok (PList items), w1) ->
  Forall (fun e => wf_entry e = true) items ->
  dict_get filters "from_date" = Some (PStr lo) ->
  dict_get filters "to_date" = Some (PStr hi) ->
  str_lt hi lo = true ->
  list_expenses u (Some filters) w = (Ok [], w1).
Proof.
  intros Hl Hwf Hlo Hhi Hlt.
  assert (Hf : wf_filters (Some filters) = true).
  { unfold wf_filters. now rewrite Hlo, Hhi. }
  destruct (list_expenses_wf u (Some filters) w items w1 Hl Hwf Hf)
    as (r & Hr & Hperm & _).
  assert (E : List.filter (satisfies (Some filters)) items = []).
  { clear Hl Hwf Hperm. induction items as [|e items IH]; [reflexivity|].
    cbn [List.filter]. rewrite IH.
    destruct (satisfies (Some filters) e) eqn:S; [|reflexivity]. exfalso.
    unfold satisfies, from_ok, to_ok in S. rewrite Hlo, Hhi in S.
    apply andb_prop in S. destruct S as [S _].
    apply andb_prop in S. destruct S as [S1 S2].
    exact (str_le_lt_false _ _ _ S1 S2 Hlt). }
  rewrite E in Hperm. apply Permutation_sym, Permutation_nil in Hperm.
  now subst r.
Qed.

Lemma list_expenses_empty_range_witness :
  load_expenses "alice" world_three
  = (Ok (PList [entry_of "exp_1" "2024-01-01" "Food";
                entry_of "exp_2" "2024-01-15" "Bills";
                entry_of "exp_3" "2024-02-01" "Food"]), world_three)
  /\ str_lt "2024-01-01" "2024-02-01" = true
  /\ list_expenses "alice"
       (Some [("from_date", PStr "2024-02-01"); ("to_date", PStr "2024-01-01")])
       world_three
     = (Ok [], world_three).
Proof.
  assert (Hl : load_expenses "alice" world_three
               = (Ok (PList [entry_of "exp_1" "2024-01-01" "Food";
                             entry_of "exp_2" "2024-01-15" "Bills";
                             entry_of "exp_3" "2024-02-01" "Food"]),
                  world_three)) by reflexivity.
  split; [exact Hl|]. split; [reflexivity|].
  apply (list_expenses_empty_range "alice" _ world_three world_three _
           "2024-02-01" "2024-01-01" Hl).
  - repeat constructor.
  - reflexivity.
  - reflexivity.
  - reflexivity.
Defined.

Lemma pair_ge_refl a : pair_ge a a = true.
Proof.
  rewrite pair_ge_compare. unfold pair_compare.
  now rewrite !str_compare_refl.
Qed.

Lemma same_key_pair k e :
  same_key k e = true -> entry_pair e = k.
Proof.
  unfold same_key, entry_pair. intros H. apply andb_prop in H.
  destruct H as [H1 H2]. apply String.eqb_eq in H1, H2.
  destruct k. simpl in *. now subst.
Qed.

Lemma insert_desc_stable e l :
  exists r,
    insert_desc (keyed e) (map keyed l) = Ok (map keyed r)
    /\ forall k, List.filter (same_key k) r = List.filter (same_key k) (e :: l).
Proof.
  induction l as [|y l IH].
  - exists [e]. split; reflexivity.
  - cbn [map insert_desc]. rewrite key_lt_keyed. cbn [rbind].
    destruct (pair_ge (entry_pair e) (entry_pair y)) eqn:G; cbn [negb].
    + exists (e :: y :: l). split; reflexivity.
    + destruct IH as (r & -> & Hr). cbn [rbind].
      exists (y :: r). split; [reflexivity|].
      intros k. cbn [List.filter]. rewrite Hr. cbn [List.filter].
      destruct (same_key k e) eqn:Ke; [|reflexivity].
      destruct (same_key k y) eqn:Ky; [|reflexivity].
      apply same_key_pair in Ke, Ky. rewrite Ke, Ky, pair_ge_refl in G.
      discriminate G.
Qed.

Lemma sort_desc_stable l :
  exists r,
    sort_desc (map keyed l) = Ok (map keyed r)
    /\ forall k, List.filter (same_key k) r = List.filter (same_key k) l.
Proof.
  induction l as [|e l IH].
  - exists []. split; reflexivity.
  - destruct IH as (r0 & Hs & Hk). cbn [map sort_desc]. rewrite Hs.
    cbn [rbind]. destruct (insert_desc_stable e r0) as (r & Hr & Hk').
    exists r. split; [exact Hr|].
    intros k. rewrite Hk'. cbn [List.filter]. now rewrite Hk.
Qed.

(** X25. The listing is stable.  Entries that share their date and their
    id, as two entries made at one reading of the clock do, are listed in
    the order in which they are stored: for every date and id, the
    entries of the result with that date and id are those of the filtered
    collection, in the same order. *)
Theorem list_expenses_stable (u : string) (filters : option pydict)
    (w w1 : world) (items : list pyval) :
  load_expenses u w = (Ok (PList items), w1) ->
  Forall (fun e => wf_entry e = true) items ->
  wf_filters filters = true ->
  exists r,
    list_expenses u filters w = (Ok r, w1)
    /\ forall k,
         List.filter (same_key k) r
         = List.filter (same_key k) (List.filter (satisfies filters) items).
Proof.
  intros Hl Hwf Hf. unfold list_expenses, bind, lift. rewrite Hl.
  rewrite (apply_filters_wf filters items Hwf Hf).
  cbn [sort_newest_first].
  rewrite (mapM_keyed_wf _ (Forall_filter_keeps _ _ _ Hwf)). cbn [rbind].
  destruct (sort_desc_stable (List.filter (satisfies filters) items))
    as (r & -> & Hk).
  cbn [rbind]. rewrite map_snd_keyed. now exists r.
Qed.

Lemma list_expenses_stable_witness :
  load_expenses "alice" world_twins
  = (Ok (PList [entry_of "exp_a" "2024-03-05" "Food";
                entry_of "exp_a" "2024-03-05" "Bills";
                entry_of "exp_b" "2024-03-05" "Health"]), world_twins)
  /\ list_expenses "alice" None world_twins
     = (Ok [entry_of "exp_b" "2024-03-05" "Health";
            entry_of "exp_a" "2024-03-05" "Food";
            entry_of "exp_a" "2024-03-05" "Bills"], world_twins).
Proof.
  assert (Hl : load_expenses "alice" world_twins
               = (Ok (PList [entry_of "exp_a" "2024-03-05" "Food";
                             entry_of "exp_a" "2024-03-05" "Bills";
                             entry_of "exp_b" "2024-03-05" "Health"]),
                  world_twins)) by reflexivity.
  destruct (list_expenses_stable "alice" None world_twins world_twins _ Hl)
    as (r & Hr & _).
  - repeat constructor.
  - reflexivity.
  - split; [exact Hl|]. rewrite Hr. vm_compute in Hr.
    inversion Hr. reflexivity.
Defined.
